(** * Natural language to SQL worker (app.py): translate, execute, self-heal

    A shallow embedding of [get_tables], [get_table_schema], [run_sql],
    [nl_to_sql], [fix_sql] and [main] from app.py, with the properties of the
    pipeline proved over it.

    Conventions of the embedding.
    - A Python [str] is a [string] holding its UTF-8 bytes.  White space is
      what [str.isspace] says it is, the ten ASCII characters and the nineteen
      code points above 127 (U+0085, U+00A0, U+1680, U+2000 to U+200A,
      U+2028, U+2029, U+202F, U+205F, U+3000), the latter recognised by
      their encodings; since no byte that continues a code point starts one
      of these encodings, scanning the bytes finds the code points.  [lower]
      changes the ASCII letters only, which is enough for the tests the
      program makes with it (see [PyStr.lower]).
    - A Python exception (any subclass of [Exception]) is the text [str(e)]
      gives for it.  A computation either returns a value or raises, and the
      changes it made to the world before raising stay.
    - sqlite3 and ollama are outside the program.  They are an [Environment]:
      what [sqlite3.connect] does on the database, what a cursor does with a
      statement on a content of the database, what [commit] does, which
      statements sqlite3 opens a transaction for, and what [ollama.chat] does
      with a request
      (generation and repair send different requests, so within one turn any
      two answers can be scripted).  [connect], [execute], [fetchall] and
      [commit] can raise.  A statement run inside a transaction becomes
      durable when [commit] is called, and is lost when its connection is
      closed or dropped before; a statement run outside a transaction is
      durable at once.
    - streamlit is the list of the calls that draw, in the order they are
      made (entering a [with] block is the call that makes the container),
      and the list [st.session_state.messages], which exists from the start
      (lines 287 and 288). *)

From Stdlib Require Import String Ascii List Bool Arith Lia.
Import ListNotations.
Local Open Scope string_scope.

(** ** Python string primitives *)

Module PyStr.

(** [c.isspace()] for a character below 128: TAB, LF, VT, FF, CR, the four
    separators FS GS RS US and the space. *)
Definition isspace (c : ascii) : bool :=
  let n := nat_of_ascii c in
  (((9 <=? n) && (n <=? 13)) || ((28 <=? n) && (n <=? 32)))%nat.

(** The white space of two bytes: U+0085 (C2 85) and U+00A0 (C2 A0). *)
Definition wide_space2 (a b : ascii) : bool :=
  let y := nat_of_ascii b in
  ((nat_of_ascii a =? 194) && ((y =? 133) || (y =? 160)))%nat.

(** The white space of three bytes: U+1680 (E1 9A 80), U+2000 to U+200A
    (E2 80 80 to E2 80 8A), U+2028, U+2029, U+202F (E2 80 A8, A9, AF),
    U+205F (E2 81 9F) and U+3000 (E3 80 80). *)
Definition wide_space3 (a b c : ascii) : bool :=
  let x := nat_of_ascii a in
  let y := nat_of_ascii b in
  let z := nat_of_ascii c in
  (((x =? 225) && (y =? 154) && (z =? 128))
   || ((x =? 226) && (y =? 128)
       && (((128 <=? z) && (z <=? 138)) || (z =? 168) || (z =? 169) || (z =? 175)))
   || ((x =? 226) && (y =? 129) && (z =? 159))
   || ((x =? 227) && (y =? 128) && (z =? 128)))%nat.

(** The number of bytes of the white-space code point [s] starts with, 0
    when it starts with none. *)
Definition space_len (s : string) : nat :=
  match s with
  | String a (String b (String c _)) =>
      if isspace a then 1
      else if wide_space2 a b then 2
      else if wide_space3 a b c then 3 else 0
  | String a (String b EmptyString) =>
      if isspace a then 1 else if wide_space2 a b then 2 else 0
  | String a EmptyString => if isspace a then 1 else 0
  | EmptyString => 0
  end.

(** [s.lower()].  Only the letters A to Z are changed.  Python changes
    letters above 127 too, but the program uses [lower] only to look for the
    statement words, which are ASCII, and the only code points above 127
    whose lower case holds an ASCII letter are U+0130 (an i followed by
    U+0307) and U+212A (a k): neither can complete one of those words. *)
Definition lower_char (c : ascii) : ascii :=
  let n := nat_of_ascii c in
  if ((65 <=? n) && (n <=? 90))%nat then ascii_of_nat (n + 32) else c.

Fixpoint lower (s : string) : string :=
  match s with
  | EmptyString => EmptyString
  | String c r => String (lower_char c) (lower r)
  end.

(** [s.rstrip(chars)], the characters to drop given as a predicate *)
Fixpoint rstrip_by (p : ascii -> bool) (s : string) : string :=
  match s with
  | EmptyString => EmptyString
  | String c r =>
      match rstrip_by p r with
      | EmptyString => if p c then EmptyString else String c EmptyString
      | r' => String c r'
      end
  end.

(** [s.lstrip()]: the leading white space is passed over, [skip] counting
    the bytes of a code point still to be passed. *)
Fixpoint lstrip_aux (skip : nat) (s : string) : string :=
  match s with
  | EmptyString => EmptyString
  | String _ r =>
      match skip with
      | S k => lstrip_aux k r
      | O => match space_len s with
             | O => s
             | S n => lstrip_aux n r
             end
      end
  end.

Definition lstrip (s : string) : string := lstrip_aux 0 s.

(** [s] is white space from end to end (for a string that is not empty,
    [s.isspace()]). *)
Fixpoint all_space_aux (skip : nat) (s : string) : bool :=
  match s with
  | EmptyString => Nat.eqb skip 0
  | String _ r =>
      match skip with
      | S k => all_space_aux k r
      | O => match space_len s with
             | O => false
             | S n => all_space_aux n r
             end
      end
  end.

Definition all_space (s : string) : bool := all_space_aux 0 s.

(** [s.rstrip()]: the string up to where white space runs to the end. *)
Fixpoint rstrip (s : string) : string :=
  match s with
  | EmptyString => EmptyString
  | String c r => if all_space s then EmptyString else String c (rstrip r)
  end.

(** [s.strip()] *)
Definition strip (s : string) : string := rstrip (lstrip s).

Definition is_semicolon (c : ascii) : bool := Ascii.eqb c ";"%char.

(** [s.rstrip(";")] *)
Definition rstrip_semicolon (s : string) : string := rstrip_by is_semicolon s.

(** [sub in s] *)
Fixpoint contains (sub s : string) : bool :=
  if String.prefix sub s then true
  else match s with
       | EmptyString => false
       | String _ r => contains sub r
       end.

(** [s.endswith(suffix)] *)
Fixpoint endswith (s suffix : string) : bool :=
  if String.eqb s suffix then true
  else match s with
       | EmptyString => false
       | String _ r => endswith r suffix
       end.

(** [s[:-1]] *)
Fixpoint drop_last (s : string) : string :=
  match s with
  | EmptyString => EmptyString
  | String c r =>
      match r with
      | EmptyString => EmptyString
      | String _ _ => String c (drop_last r)
      end
  end.

(** [s.split(sep)] for a non-empty [sep]: cut at each occurrence of [sep],
    leftmost first, occurrences not overlapping; empty pieces are kept.
    [skip] counts the characters of a separator still to be passed over and
    [cur] is the piece being read. *)
Fixpoint split_aux (sep : string) (skip : nat) (cur s : string) : list string :=
  match s with
  | EmptyString => [cur]
  | String c r =>
      match skip with
      | S k => split_aux sep k cur r
      | O =>
          if String.prefix sep s
          then cur :: split_aux sep (String.length sep - 1) EmptyString r
          else split_aux sep 0 (cur ++ String c EmptyString) r
      end
  end.

Definition split (sep s : string) : list string := split_aux sep 0 EmptyString s.

(** The invariant of [split_aux] while a piece is read: nothing in [cur],
    continued by what is still to be read, starts with the separator. *)
Definition piece_clear (sep cur s : string) : Prop :=
  forall u v, cur = u ++ v -> v <> "" -> String.prefix sep (v ++ s) = false.

(** [s.split()]: the maximal runs of characters that are not white space.
    [cur] is the word being read and [skip] counts the bytes of a white-space
    code point still to be passed. *)
Fixpoint split_ws_aux (skip : nat) (cur s : string) : list string :=
  match s with
  | EmptyString => match cur with EmptyString => [] | _ => [cur] end
  | String c r =>
      match skip with
      | S k => split_ws_aux k cur r
      | O =>
          match space_len s with
          | O => split_ws_aux 0 (cur ++ String c EmptyString) r
          | S n =>
              match cur with
              | EmptyString => split_ws_aux n EmptyString r
              | _ => cur :: split_ws_aux n EmptyString r
              end
          end
      end
  end.

Definition split_ws (s : string) : list string := split_ws_aux 0 EmptyString s.

(** Every character of [s] satisfies [p]. *)
Fixpoint all_by (p : ascii -> bool) (s : string) : bool :=
  match s with
  | EmptyString => true
  | String c r => p c && all_by p r
  end.

(** [x in xs] for a list of strings *)
Definition mem (x : string) (xs : list string) : bool := existsb (String.eqb x) xs.

(** Truth value of a [str]: the empty string is false. *)
Definition nonempty (s : string) : bool :=
  match s with EmptyString => false | String _ _ => true end.

End PyStr.

(** ** The world outside the program *)

(** What a computation does: it returns, or it raises an exception whose
    [str(e)] is [e]. *)
Inductive Outcome (A : Type) : Type :=
| Returns (a : A)
| Raises (e : string).
Arguments Returns {A} a.
Arguments Raises {A} e.

(** One entry of [cursor.description]; sqlite3 fills in the name only. *)
Record ColumnInfo : Type := { col_name : string }.

(** What a cursor does with a statement on a content of the database:
    [execute] raises with the engine's diagnostic; or [execute] succeeds and
    a later [fetchall] raises (the engine computes the rows as they are
    asked for, and can fail on one of them); or both succeed.  [description]
    is [cursor.description] after [execute] ([None] for a statement that
    returns no rows), [rows] what [fetchall] gives and [working] the content
    with the changes of the statement. *)
Inductive CursorResult (Store Value : Type) : Type :=
| cursor_raises (diagnostic : string)
| fetch_raises (description : option (list ColumnInfo)) (diagnostic : string)
               (working : Store)
| cursor_gives (description : option (list ColumnInfo)) (rows : list (list Value))
               (working : Store).
Arguments cursor_raises {Store Value} diagnostic.
Arguments fetch_raises {Store Value} description diagnostic working.
Arguments cursor_gives {Store Value} description rows working.

(** What connecting to the database and running one statement on the new
    connection does, the commit that follows a statement without description
    included: [connect] raises, [execute] raises, [fetchall] raises, that
    commit raises, or all succeed. *)
Inductive ExecResult (Store Value : Type) : Type :=
| ConnectError (diagnostic : string)
| ExecError (diagnostic : string)
| FetchError (description : option (list ColumnInfo)) (diagnostic : string)
             (working : Store)
| CommitError (diagnostic : string) (working : Store)
| ExecOk (description : option (list ColumnInfo)) (rows : list (list Value))
         (working : Store).
Arguments ConnectError {Store Value} diagnostic.
Arguments ExecError {Store Value} diagnostic.
Arguments FetchError {Store Value} description diagnostic working.
Arguments CommitError {Store Value} diagnostic working.
Arguments ExecOk {Store Value} description rows working.

(** A dict with the keys role and content: a message sent to [ollama.chat]
    and an entry of [st.session_state.messages]. *)
Record Message : Type := { role : string; content : string }.

(** sqlite3 over students.db and the ollama service.  [engine_connect]
    is what [sqlite3.connect] does on a content of the database, and
    [engine_commit] what [commit] does on a connection that sees a content:
    [Some e] when it raises.  [begins_transaction] says for which statements
    sqlite3 opens a transaction before it runs them: those it takes for an
    INSERT, UPDATE, DELETE or REPLACE by their first word (how it looks for
    that word has changed between versions of Python, so the test is left to
    the environment); every other statement runs in autocommit mode. *)
Class Environment : Type := {
  Store : Type;
  Value : Type;
  engine_connect : Store -> option string;
  engine_cursor : Store -> string -> CursorResult Store Value;
  engine_commit : Store -> option string;
  begins_transaction : string -> bool;
  ollama_chat : string -> list Message -> Outcome string
}.

(** What the commit after a statement without description does to [r],
    what the statement did. *)
Definition then_commit {env : Environment} (working : Store)
           (r : ExecResult Store Value) : ExecResult Store Value :=
  match engine_commit working with
  | Some diagnostic => CommitError diagnostic working
  | None => r
  end.

(** A connection made to [content], one statement run on it and, when the
    statement has no description, a commit. *)
Definition engine_execute {env : Environment} (content : Store) (sql : string)
  : ExecResult Store Value :=
  match engine_connect content with
  | Some diagnostic => ConnectError diagnostic
  | None =>
      match engine_cursor content sql with
      | cursor_raises diagnostic => ExecError diagnostic
      | fetch_raises (Some description) diagnostic working =>
          FetchError (Some description) diagnostic working
      | fetch_raises None diagnostic working =>
          then_commit working (FetchError None diagnostic working)
      | cursor_gives (Some description) rows working =>
          ExecOk (Some description) rows working
      | cursor_gives None rows working =>
          then_commit working (ExecOk None rows working)
      end
  end.

(** The durable content after a statement that left its connection seeing
    [working], and was not committed: the statement is lost with its
    transaction, or was durable at once. *)
Definition uncommitted {env : Environment} (sql : string) (working durable : Store)
  : Store :=
  if begins_transaction sql then durable else working.

(** [pd.DataFrame(rows, columns=cols)] *)
Record DataFrame (Value : Type) : Type :=
  { df_rows : list (list Value); df_columns : list string }.
Arguments df_rows {Value} d.
Arguments df_columns {Value} d.
Arguments Build_DataFrame {Value} df_rows df_columns.

(** [df.empty]: an axis of length 0 *)
Definition df_empty {Value : Type} (df : DataFrame Value) : bool :=
  match df_rows df, df_columns df with
  | [], _ => true
  | _, [] => true
  | _, _ => false
  end.

(** The calls that leave the program, in the order they are made. *)
Inductive Event : Type :=
| ev_connect (path : string)
| ev_execute (sql : string)
| ev_fetchall
| ev_commit
| ev_close
| ev_chat (model : string) (msgs : list Message).

(** What streamlit is asked to draw.  [st_sidebar], [st_expander] and
    [st_chat_message] are the containers a [with] block enters. *)
Inductive Widget (Value : Type) : Type :=
| st_set_page_config (page_title layout : string)
| st_sidebar
| st_header (body : string)
| st_expander (label : string) (expanded : bool)
| st_write (body : string)
| st_caption (body : string)
| st_title (body : string)
| st_chat_message (who : string)
| st_markdown (body : string)
| st_code (body language : string)
| st_error (body : string)
| st_warning (body : string)
| st_info (body : string)
| st_success (body : string)
| st_dataframe (df : DataFrame Value).
Arguments st_set_page_config {Value} page_title layout.
Arguments st_sidebar {Value}.
Arguments st_header {Value} body.
Arguments st_expander {Value} label expanded.
Arguments st_write {Value} body.
Arguments st_caption {Value} body.
Arguments st_title {Value} body.
Arguments st_chat_message {Value} who.
Arguments st_markdown {Value} body.
Arguments st_code {Value} body language.
Arguments st_error {Value} body.
Arguments st_warning {Value} body.
Arguments st_info {Value} body.
Arguments st_success {Value} body.
Arguments st_dataframe {Value} df.

Section Program.

Context {env : Environment}.

(** A sqlite3 connection: whether it is still open, and the content of the
    database as this connection sees it, the changes of its statements
    included. *)
Record Connection : Type := { conn_open : bool; conn_working : Store }.

(** [db] is the durable content of students.db, [conns] the connections
    made so far (a connection object is its index), [trace] the calls made
    to sqlite3 and ollama, [screen] the widgets drawn and [messages] the
    list [st.session_state.messages]; all lists oldest first. *)
Record World : Type := {
  db : Store;
  conns : list Connection;
  trace : list Event;
  screen : list (Widget Value);
  messages : list Message
}.

Definition set_db (s : Store) (w : World) : World :=
  {| db := s; conns := conns w; trace := trace w; screen := screen w;
     messages := messages w |}.
Definition set_conns (cs : list Connection) (w : World) : World :=
  {| db := db w; conns := cs; trace := trace w; screen := screen w;
     messages := messages w |}.
Definition logs (es : list Event) (w : World) : World :=
  {| db := db w; conns := conns w; trace := trace w ++ es; screen := screen w;
     messages := messages w |}.
Definition log (e : Event) (w : World) : World := logs [e] w.
Definition draw (x : Widget Value) (w : World) : World :=
  {| db := db w; conns := conns w; trace := trace w; screen := screen w ++ [x];
     messages := messages w |}.
Definition remember (m : Message) (w : World) : World :=
  {| db := db w; conns := conns w; trace := trace w; screen := screen w;
     messages := messages w ++ [m] |}.

(** *** Computations: state and exceptions *)

Definition M (A : Type) : Type := World -> Outcome A * World.

Definition ret {A : Type} (a : A) : M A := fun w => (Returns a, w).

Definition raise {A : Type} (e : string) : M A := fun w => (Raises e, w).

Definition bind {A B : Type} (m : M A) (k : A -> M B) : M B :=
  fun w =>
    match m w with
    | (Returns a, w') => k a w'
    | (Raises e, w') => (Raises e, w')
    end.

(** [try: body  except Exception as e: handler] *)
Definition try_except {A : Type} (body : M A) (handler : string -> M A) : M A :=
  fun w =>
    match body w with
    | (Returns a, w') => (Returns a, w')
    | (Raises e, w') => handler e w'
    end.

Definition effect (f : World -> World) : M unit := fun w => (Returns tt, f w).

End Program.

Declare Scope py_scope.
Delimit Scope py_scope with py.
Notation "x <- m ;; k" := (bind m (fun x => k))
  (at level 61, m at next level, right associativity) : py_scope.
Notation "m ;; k" := (bind m (fun _ => k))
  (at level 61, right associativity) : py_scope.
Notation "' pat <- m ;; k" := (bind m (fun x => match x with pat => k end))
  (at level 61, pat pattern, m at next level, right associativity) : py_scope.

Definition nl : string := String (ascii_of_nat 10) EmptyString.

(** ** The program *)

Section Pipeline.

Context {env : Environment}.
Local Open Scope py_scope.

Definition DB_PATH : string := "students.db".

Definition SCHEMA_DESCRIPTION : string := "
You are an expert SQL assistant for a SQLite database.

Current database details:
- There is one main table named 'students'.

Table: students
Columns:
- id (INTEGER, primary key)
- name (TEXT): student name
- dept (TEXT): department, e.g., 'CSE', 'ECE', 'EEE', 'IT', 'MECH'
- year (INTEGER): year of study, 1 to 4
- city (TEXT): city name, e.g., 'Chennai', 'Coimbatore', 'Madurai'
- cgpa (REAL): CGPA out of 10

Instructions:
- Your job is to convert the user's natural language request into ONE valid SQL statement.
- The SQL must be compatible with SQLite.
- You MAY generate:
  - SELECT statements (to read data)
  - INSERT, UPDATE, DELETE (to modify data)
  - CREATE TABLE and ALTER TABLE (to change schema)
- Prefer single-statement queries (no multiple statements separated by semicolons).
- Use existing tables and columns unless the user clearly asks you to create/alter them.
- Be careful with destructive operations like DROP TABLE or DELETE; only use them if the user explicitly asks.
- Do NOT include explanations, comments, or extra text.
- Do NOT wrap the SQL in markdown or ``` fences.
- Output ONLY the raw SQL statement as plain text.
".

(** *** sqlite3 *)

(** A cursor: the connection it belongs to and what the last [execute]
    left in it, [cur_rows] being what [fetchall] will do. *)
Record Cursor : Type := {
  cur_conn : nat;
  cur_description : option (list ColumnInfo);
  cur_rows : Outcome (list (list Value))
}.

Definition closed_database : string := "Cannot operate on a closed database.".

Definition lookup_open (c : nat) (w : World) : option Connection :=
  match nth_error (conns w) c with
  | Some k => if conn_open k then Some k else None
  | None => None
  end.

Fixpoint replace_nth {A : Type} (n : nat) (x : A) (l : list A) : list A :=
  match l, n with
  | [], _ => []
  | _ :: t, O => x :: t
  | h :: t, S m => h :: replace_nth m x t
  end.

(** [sqlite3.connect(path)]: it raises, or gives a new connection that
    sees the durable content. *)
Definition sqlite3_connect (path : string) : M nat :=
  fun w =>
    let w1 := log (ev_connect path) w in
    match engine_connect (db w) with
    | Some diagnostic => (Raises diagnostic, w1)
    | None =>
        (Returns (length (conns w)),
         set_conns (conns w ++ [{| conn_open := true; conn_working := db w |}]) w1)
    end.

(** [conn.cursor()] *)
Definition conn_cursor (c : nat) : M Cursor :=
  fun w =>
    match lookup_open c w with
    | Some _ =>
        (Returns {| cur_conn := c; cur_description := None; cur_rows := Returns [] |}, w)
    | None => (Raises closed_database, w)
    end.

(** The world after [sql] has run on the connection of [cur] and left it
    seeing [working]: outside a transaction the changes are durable at
    once. *)
Definition statement_done (cur : Cursor) (sql : string) (working : Store) (w : World)
  : World :=
  set_db (uncommitted sql working (db w))
    (set_conns (replace_nth (cur_conn cur)
                  {| conn_open := true; conn_working := working |} (conns w)) w).

(** [cur.execute(sql)] *)
Definition cur_execute (cur : Cursor) (sql : string) : M Cursor :=
  fun w =>
    match lookup_open (cur_conn cur) w with
    | None => (Raises closed_database, w)
    | Some k =>
        let w1 := log (ev_execute sql) w in
        match engine_cursor (conn_working k) sql with
        | cursor_raises diagnostic => (Raises diagnostic, w1)
        | fetch_raises description diagnostic working =>
            (Returns {| cur_conn := cur_conn cur; cur_description := description;
                        cur_rows := Raises diagnostic |},
             statement_done cur sql working w1)
        | cursor_gives description rows working =>
            (Returns {| cur_conn := cur_conn cur; cur_description := description;
                        cur_rows := Returns rows |},
             statement_done cur sql working w1)
        end
    end.

(** [cur.fetchall()] *)
Definition cur_fetchall (cur : Cursor) : M (list (list Value)) :=
  fun w => (cur_rows cur, log ev_fetchall w).

(** [conn.commit()]: it raises, or what the connection sees becomes durable
    (and when no transaction is open it is durable already). *)
Definition conn_commit (c : nat) : M unit :=
  fun w =>
    match lookup_open c w with
    | None => (Raises closed_database, w)
    | Some k =>
        match engine_commit (conn_working k) with
        | Some diagnostic => (Raises diagnostic, log ev_commit w)
        | None => (Returns tt, set_db (conn_working k) (log ev_commit w))
        end
    end.

(** [conn.close()]: the changes of a transaction that was not committed
    are lost. *)
Definition conn_close (c : nat) : M unit :=
  fun w =>
    match nth_error (conns w) c with
    | None => (Returns tt, w)
    | Some k =>
        (Returns tt,
         set_conns (replace_nth c {| conn_open := false; conn_working := conn_working k |}
                      (conns w)) (log ev_close w))
    end.

(** *** run_sql (app.py, lines 71 to 103)

    The triple is [(df, error_message, kind)]. *)
Definition run_sql (query : string)
  : M (option (DataFrame Value) * option string * option string) :=
  try_except
    (conn <- sqlite3_connect DB_PATH ;;
     cur <- conn_cursor conn ;;
     let sql := PyStr.rstrip_semicolon (PyStr.strip query) in
     cur <- cur_execute cur sql ;;
     match cur_description cur with
     | Some description =>
         rows <- cur_fetchall cur ;;
         let cols := map col_name description in
         let df := Build_DataFrame rows cols in
         conn_close conn ;;
         ret (Some df, None, Some "select")
     | None =>
         conn_commit conn ;;
         conn_close conn ;;
         ret (None, None, Some "other")
     end)
    (fun e => ret (None, Some e, None)).

(** *** ollama *)

(** [ollama.chat(model=..., messages=...)["message"]["content"]] *)
Definition chat_content (model : string) (msgs : list Message) : M string :=
  fun w => (ollama_chat model msgs, log (ev_chat model msgs) w).

(** *** Cleaning and checking a completion (lines 142 to 164, and the same
    lines 222 to 239 of fix_sql) *)

(** The condition of the list comprehension, lines 146 to 152. *)
Definition has_sql_keyword (p : string) : bool :=
  PyStr.contains "select" (PyStr.lower p)
  || PyStr.contains "insert" (PyStr.lower p)
  || PyStr.contains "update" (PyStr.lower p)
  || PyStr.contains "delete" (PyStr.lower p)
  || PyStr.contains "create" (PyStr.lower p)
  || PyStr.contains "alter" (PyStr.lower p)
  || PyStr.contains "drop" (PyStr.lower p).

(** [candidates], lines 144 to 152 *)
Definition candidates (raw : string) : list string :=
  map PyStr.strip (filter has_sql_keyword (PyStr.split "```" raw)).

(** Lines 143 to 154: the value of [raw] after the fences are dealt with. *)
Definition unfence (raw : string) : string :=
  if PyStr.contains "```" raw
  then match candidates raw with
       | c :: _ => c
       | [] => raw
       end
  else raw.

(** Line 156: [sql = raw.strip()] *)
Definition unfenced_sql (raw : string) : string := PyStr.strip (unfence raw).

(** Lines 159 and 160 *)
Definition drop_semicolon (sql : string) : string :=
  if PyStr.endswith sql ";" then PyStr.drop_last sql else sql.

(** The value of [sql] at line 163, from the stripped completion. *)
Definition clean (raw : string) : string := drop_semicolon (unfenced_sql raw).

(** Line 163: [sql.split()[0].lower() if sql else ""]; indexing an empty
    list raises IndexError. *)
Definition first_word (sql : string) : M string :=
  if PyStr.nonempty sql
  then match PyStr.split_ws sql with
       | t :: _ => ret (PyStr.lower t)
       | [] => raise "list index out of range"
       end
  else ret "".

Definition STATEMENT_WORDS : list string :=
  ["select"; "insert"; "update"; "delete"; "create"; "alter"; "drop"; "pragma"].

(** What line 163 computes when the indexing does not raise: the first
    word of [sql] in lower case, the empty string when [sql] has no word. *)
Definition first_token (sql : string) : string :=
  match PyStr.split_ws sql with
  | t :: _ => PyStr.lower t
  | [] => ""
  end.

(** Lines 164 to 167 (239 to 242 in fix_sql) on a cleaned text whose first
    word is [first_token sql]; [complaint] is the opening of the message. *)
Definition verdict (complaint sql : string) : option string * option string :=
  if negb (PyStr.mem (first_token sql) STATEMENT_WORDS)
  then (None, Some (complaint ++ nl ++ sql))
  else (Some sql, None).

(** Lines 118 to 137: the prompt and the two messages sent for a request. *)
Definition generation_messages (user_question : string) : list Message :=
  let prompt := SCHEMA_DESCRIPTION ++ "

User request: " ++ user_question ++ "

SQL statement:
" in
  [ {| role := "system";
       content := "You convert natural language requests into single SQL statements for a SQLite database." |};
    {| role := "user"; content := prompt |} ].

(** *** nl_to_sql (lines 107 to 170); the pair is [(sql_query, error_message)] *)
Definition nl_to_sql (text : string) : M (option string * option string) :=
  if negb (PyStr.nonempty text) || negb (PyStr.nonempty (PyStr.strip text))
  then ret (None, Some "Please type a question or command.")
  else
    let user_question := PyStr.strip text in
    try_except
      (response <- chat_content "mistral" (generation_messages user_question) ;;
       let raw := PyStr.strip response in
       let sql := clean raw in
       first <- first_word sql ;;
       if negb (PyStr.mem first STATEMENT_WORDS)
       then ret (None, Some ("Model did not return a valid SQL statement. It returned:" ++ nl ++ sql))
       else ret (Some sql, None))
      (fun e => ret (None, Some ("Error from LLM: " ++ e))).

(** Lines 180 to 217: the prompt and the two messages sent for a repair. *)
Definition fix_messages (original_sql db_error user_request : string) : list Message :=
  let fix_prompt :=
    "
You previously generated this SQL for a user request:

User request:
" ++
    user_request ++
    "

Original SQL:
" ++
    original_sql ++
    "

When executing this SQL on SQLite, the following error occurred:
" ++
    db_error ++
    "

Database schema:
" ++
    SCHEMA_DESCRIPTION ++
    "

Your task:
- Return a corrected SQL statement that is valid for this schema and SQLite.
- Keep the query as close as possible to the user's intent.
- You may use SELECT, INSERT, UPDATE, DELETE, CREATE TABLE or ALTER TABLE.
- Do NOT modify or delete data unless the user clearly requested it.
- Do NOT include explanations or comments.
- Do NOT wrap the SQL in markdown or ``` fences.
- Output ONLY the fixed SQL statement.
" in
  [ {| role := "system";
       content := "You fix invalid SQL statements for a SQLite database." |};
    {| role := "user"; content := fix_prompt |} ].

(** *** fix_sql (lines 174 to 245) *)
Definition fix_sql (original_sql db_error user_request : string)
  : M (option string * option string) :=
  try_except
    (response <- chat_content "mistral" (fix_messages original_sql db_error user_request) ;;
     let raw := PyStr.strip response in
     let sql := clean raw in
     first <- first_word sql ;;
     if negb (PyStr.mem first STATEMENT_WORDS)
     then ret (None, Some ("Fixed SQL is not a valid statement. It returned:" ++ nl ++ sql))
     else ret (Some sql, None))
    (fun e => ret (None, Some ("Error from LLM during fix: " ++ e))).

(** *** The chat part of main (lines 286 to 383) *)

Definition st (x : Widget Value) : M unit := effect (draw x).

(** [st.session_state.messages.append(m)] *)
Definition messages_append (m : Message) : M unit := effect (remember m).

(** A name bound to [None] where a [str] is used.  [nl_to_sql] and [fix_sql]
    give a [str] whenever they give no error, so this does not happen on
    the paths of main. *)
Definition expect_str (o : option string) : M string :=
  match o with
  | Some s => ret s
  | None => raise "expected str, got NoneType"
  end.

(** [df is None or df.empty] *)
Definition none_or_empty (df : option (DataFrame Value)) : bool :=
  match df with
  | None => true
  | Some d => df_empty d
  end.

(** [kind == "select"] *)
Definition is_select (kind : option string) : bool :=
  match kind with
  | Some k => String.eqb k "select"
  | None => false
  end.

(** Lines 305 to 383, the body of [with st.chat_message("assistant")].
    [if err:] holds for a string that is not empty: the patterns
    [Some (String _ _)] are those tests. *)
Definition main_assistant_block (user_input : string) : M unit :=
  st (st_chat_message "assistant") ;;
  ' (sql, err) <- nl_to_sql user_input ;;
  match err with
  | Some (String _ _ as err) =>
      st (st_error err) ;;
      messages_append {| role := "assistant"; content := "❌ " ++ err |}
  | _ =>
      sql <- expect_str sql ;;
      st (st_markdown "**Generated SQL:**") ;;
      st (st_code sql "sql") ;;
      ' (df, db_err, kind) <- run_sql sql ;;
      match db_err with
      | Some (String _ _ as db_err) =>
          st (st_warning ("Database error: " ++ db_err)) ;;
          st (st_markdown "Trying to fix the SQL using the model...") ;;
          ' (fixed_sql, fix_err) <- fix_sql sql db_err user_input ;;
          match fix_err with
          | Some (String _ _ as fix_err) =>
              st (st_error fix_err) ;;
              messages_append
                {| role := "assistant";
                   content := "❌ DB error: " ++ db_err ++ nl ++ nl
                              ++ "And fix also failed: " ++ fix_err |}
          | _ =>
              fixed_sql <- expect_str fixed_sql ;;
              st (st_markdown "**Fixed SQL:**") ;;
              st (st_code fixed_sql "sql") ;;
              ' (df, db_err2, kind2) <- run_sql fixed_sql ;;
              match db_err2 with
              | Some (String _ _ as db_err2) =>
                  st (st_error ("Database error even after fix: " ++ db_err2)) ;;
                  messages_append
                    {| role := "assistant";
                       content := "❌ DB error after fix: " ++ db_err2 |}
              | _ =>
                  if is_select kind2
                  then
                    if none_or_empty df
                    then
                      st (st_info "No rows found for this query (after fix).") ;;
                      messages_append
                        {| role := "assistant";
                           content := "✅ Query ran (after fix), but no rows matched." |}
                    else
                      match df with
                      | Some d => st (st_dataframe d)
                      | None => ret tt
                      end ;;
                      messages_append
                        {| role := "assistant";
                           content := "✅ Query ran successfully (after fix) and returned rows." |}
                  else
                    st (st_success "✅ Command executed successfully (after fix).") ;;
                    messages_append
                      {| role := "assistant";
                         content := "✅ Command executed successfully on the database (after fix)." |}
              end
          end
      | _ =>
          if is_select kind
          then
            if none_or_empty df
            then
              st (st_info "No rows found for this query.") ;;
              messages_append
                {| role := "assistant";
                   content := "✅ Query ran successfully, but no rows matched." |}
            else
              match df with
              | Some d => st (st_dataframe d)
              | None => ret tt
              end ;;
              messages_append
                {| role := "assistant";
                   content := "✅ Query ran successfully and returned rows." |}
          else
            st (st_success "✅ Command executed successfully.") ;;
            messages_append
              {| role := "assistant";
                 content := "✅ Command executed successfully on the database." |}
      end
  end.

(** Lines 291 to 293: the earlier turns are drawn again on every run. *)
Fixpoint show_messages (msgs : list Message) : M unit :=
  match msgs with
  | [] => ret tt
  | msg :: rest =>
      st (st_chat_message (role msg)) ;;
      st (st_markdown (content msg)) ;;
      show_messages rest
  end.

(** Lines 286 to 383; [user_input] is what [st.chat_input] gave, [None]
    when nothing was typed. *)
Definition main_chat (user_input : option string) : M unit :=
  (fun w => show_messages (messages w) w) ;;
  match user_input with
  | Some (String _ _ as user_input) =>
      messages_append {| role := "user"; content := user_input |} ;;
      st (st_chat_message "user") ;;
      st (st_markdown user_input) ;;
      main_assistant_block user_input
  | _ => ret tt
  end.

End Pipeline.

(** ** Reading a trace *)

Definition is_chat (e : Event) : bool :=
  match e with ev_chat _ _ => true | _ => false end.

Definition is_execute (e : Event) : bool :=
  match e with ev_execute _ => true | _ => false end.

Definition is_commit (e : Event) : bool :=
  match e with ev_commit => true | _ => false end.

Definition is_close (e : Event) : bool :=
  match e with ev_close => true | _ => false end.

Definition count (p : Event -> bool) (t : list Event) : nat := length (filter p t).

(** A call to the model whose first message, the system instruction, is
    [system]. *)
Definition chat_with (system : string) (e : Event) : bool :=
  match e with
  | ev_chat _ (m :: _) => String.eqb (content m) system
  | _ => false
  end.

(** The call [nl_to_sql] makes (line 131) and the call [fix_sql] makes
    (line 211). *)
Definition is_generation : Event -> bool :=
  chat_with "You convert natural language requests into single SQL statements for a SQLite database.".

Definition is_repair : Event -> bool :=
  chat_with "You fix invalid SQL statements for a SQLite database.".

(** [c], started in [w], returns, and its value and final world satisfy
    [Q]. *)
Definition post {env : Environment} {A : Type} (c : M A) (w : World)
           (Q : A -> World -> Prop) : Prop :=
  exists a w', c w = (Returns a, w') /\ Q a w'.

(** What [nl_to_sql] and [fix_sql] can return: a statement and no error, or
    no statement and an error that is not empty. *)
Definition sql_or_error (r : option string * option string) : Prop :=
  (exists sql, r = (Some sql, None)) \/ (exists c e, r = (None, Some (String c e))).

(** What a call of [run_sql] that fails has added to the trace: it stopped
    at [connect], at [execute], at [fetchall] or at [commit]. *)
Definition failed_run (stmt : string) (evs : list Event) : Prop :=
  evs = [ev_connect DB_PATH]
  \/ evs = [ev_connect DB_PATH; ev_execute stmt]
  \/ evs = [ev_connect DB_PATH; ev_execute stmt; ev_fetchall]
  \/ evs = [ev_connect DB_PATH; ev_execute stmt; ev_commit].

(** The durable content [d] after a call that did not commit, started on
    [durable]: nothing was run, or [stmt] was and is in [evs]. *)
Definition left_uncommitted {env : Environment} (stmt : string) (evs : list Event)
           (durable d : Store) : Prop :=
  d = durable
  \/ exists working, In (ev_execute stmt) evs /\ d = uncommitted stmt working durable.

(** The three ways [run_sql] ends, with what each adds to the trace. *)
Definition run_sql_outcome {env : Environment} (query : string) (w : World)
           (r : option (DataFrame Value) * option string * option string)
           (d : Store) (evs : list Event) : Prop :=
  let stmt := PyStr.rstrip_semicolon (PyStr.strip query) in
  (exists e, r = (None, Some e, None)
             /\ failed_run stmt evs /\ left_uncommitted stmt evs (db w) d)
  \/ (exists df, r = (Some df, None, Some "select")
                 /\ evs = [ev_connect DB_PATH; ev_execute stmt; ev_fetchall; ev_close]
                 /\ left_uncommitted stmt evs (db w) d)
  \/ (r = (None, None, Some "other")
      /\ evs = [ev_connect DB_PATH; ev_execute stmt; ev_commit; ev_close]).

(** The six lines main records for a statement that ran. *)
Definition STATUS_LINES : list string :=
  [ "✅ Query ran successfully, but no rows matched.";
    "✅ Query ran successfully and returned rows.";
    "✅ Command executed successfully on the database.";
    "✅ Query ran (after fix), but no rows matched.";
    "✅ Query ran successfully (after fix) and returned rows.";
    "✅ Command executed successfully on the database (after fix)." ].

(** Every connection made so far has been closed. *)
Definition all_closed {env : Environment} (w : World) : bool :=
  forallb (fun k => negb (conn_open k)) (conns w).

(** ** A small instance of the environment

    A students table whose cells are text, an engine that knows a handful of
    statements, and a chat service that answers a request with [generated]
    and a repair with [fixed]. *)

Module Scenario.

Definition student_columns : list ColumnInfo :=
  map Build_ColumnInfo ["id"; "name"; "dept"; "year"; "city"; "cgpa"].

Definition students : list (list string) :=
  [ ["1"; "Arun Kumar"; "CSE"; "3"; "Chennai"; "8.4"];
    ["2"; "Sanjay"; "CSE"; "2"; "Coimbatore"; "9.1"];
    ["3"; "Priya"; "ECE"; "4"; "Chennai"; "7.8"] ].

(** A statement that deletes and returns rows, and does not start with one
    of the words sqlite3 opens a transaction for. *)
Definition deleting_select : string :=
  "WITH low AS (SELECT id FROM students) DELETE FROM students WHERE id IN low RETURNING id".

(** A statement whose second row cannot be computed: [execute] returns,
    having computed the first, and [fetchall] raises. *)
Definition overflowing_select : string :=
  "SELECT abs(x) FROM (SELECT 1 AS x UNION ALL SELECT -9223372036854775808)".

(** The statement with [randomblob] stands for one that exhausts memory:
    sqlite3 then raises MemoryError, whose text is empty. *)
Definition engine (st : list (list string)) (sql : string)
  : CursorResult (list (list string)) string :=
  if String.eqb sql "SELECT * FROM students" then cursor_gives (Some student_columns) st st
  else if String.eqb sql "SELECT * FROM students WHERE cgpa > 10"
       then cursor_gives (Some student_columns) [] st
  else if String.eqb sql "SELECT 1" then cursor_gives (Some [Build_ColumnInfo "1"]) [["1"]] st
  else if String.eqb sql "DELETE FROM students" then cursor_gives None [] []
  else if String.eqb sql "DELETE FROM students RETURNING id"
       then cursor_gives (Some [Build_ColumnInfo "id"]) (map (firstn 1) st) []
  else if String.eqb sql deleting_select
       then cursor_gives (Some [Build_ColumnInfo "id"]) (map (firstn 1) st) []
  else if String.eqb sql overflowing_select
       then fetch_raises (Some [Build_ColumnInfo "abs(x)"]) "integer overflow" st
  else if String.eqb sql "SELECT age FROM students" then cursor_raises "no such column: age"
  else if String.eqb sql "SELECT years FROM students"
       then cursor_raises "no such column: years"
  else if String.eqb sql "SELECT hex(randomblob(2000000000))" then cursor_raises ""
  else cursor_raises "near the statement: syntax error".

(** The test of sqlite3 for opening a transaction, as in CPython 3.8: blanks
    are passed over, and the statement is compared, letter case aside, with
    the four words. *)
Fixpoint skip_blanks (s : string) : string :=
  match s with
  | String c r =>
      if existsb (Ascii.eqb c) [" "%char; ascii_of_nat 13; ascii_of_nat 10; ascii_of_nat 9]
      then skip_blanks r
      else s
  | EmptyString => EmptyString
  end.

Definition is_dml (sql : string) : bool :=
  existsb (fun word => String.prefix word (PyStr.lower (skip_blanks sql)))
          ["insert"; "update"; "delete"; "replace"].

Definition fix_system : string := "You fix invalid SQL statements for a SQLite database.".

Definition scripted (generated fixed : Outcome string) : Environment :=
  {| Store := list (list string);
     Value := string;
     engine_connect := fun _ => None;
     engine_cursor := engine;
     engine_commit := fun _ => None;
     begins_transaction := is_dml;
     ollama_chat := fun _ msgs =>
       match msgs with
       | m :: _ => if String.eqb (content m) fix_system then fixed else generated
       | [] => Raises "no messages"
       end |}.

(** U+00A0, the no-break space, and U+3000, the ideographic space. *)
Definition no_break_space : string :=
  String (ascii_of_nat 194) (String (ascii_of_nat 160) EmptyString).

Definition ideographic_space : string :=
  String (ascii_of_nat 227) (String (ascii_of_nat 128) (String (ascii_of_nat 128) EmptyString)).

Definition start (e : Environment) (d : @Store e) : @World e :=
  {| db := d; conns := []; trace := []; screen := []; messages := [] |}.

Definition fenced_answer : string :=
  "```sql" ++ nl ++ "SELECT * FROM students;" ++ nl ++ "```".

Definition bare_fenced_answer : string :=
  "```" ++ nl ++ "SELECT * FROM students;" ++ nl ++ "```".

(** The model answers with a statement the engine accepts. *)
Definition plain_select : Environment :=
  scripted (Returns "  SELECT * FROM students; ") (Raises "not asked").

(** The model wraps its answer in a fence with a language tag. *)
Definition fenced : Environment :=
  scripted (Returns fenced_answer) (Raises "not asked").

(** The model names a column that does not exist, twice. *)
Definition double_failure : Environment :=
  scripted (Returns "SELECT age FROM students;") (Returns "SELECT years FROM students").

(** The engine raises an exception whose text is empty. *)
Definition silent_failure : Environment :=
  scripted (Returns "SELECT hex(randomblob(2000000000))") (Raises "not asked").

(** The statement names a column that does not exist, and the repair raises
    an exception whose text is empty. *)
Definition silent_second_failure : Environment :=
  scripted (Returns "SELECT age FROM students;")
           (Returns "SELECT hex(randomblob(2000000000))").

(** Another connection holds the database: nothing can be committed. *)
Definition locked : Environment :=
  {| Store := list (list string);
     Value := string;
     engine_connect := fun _ => None;
     engine_cursor := engine;
     engine_commit := fun _ => Some "database is locked";
     begins_transaction := is_dml;
     ollama_chat := fun _ _ => Returns "DELETE FROM students" |}.


(** The model puts a no-break space after the first word. *)
Definition wide_space_answer : Environment :=
  scripted (Returns ("SELECT" ++ no_break_space ++ "* FROM students")) (Raises "not asked").

End Scenario.


(** ** The schema helpers (app.py, lines 11 to 35) *)

Section SchemaHelpers.

Context {env : Environment}.
Local Open Scope py_scope.

(** pandas is outside the program.  The rows the engine gives for
    [PRAGMA table_info] need not have six cells, so the constructor
    [pd.DataFrame(rows, columns=names)] and the selection [df[names]] are
    taken as they come, each returning a frame or raising. *)
Variable pd_DataFrame : list (list Value) -> list string -> Outcome (DataFrame Value).
Variable df_getitem : DataFrame Value -> list string -> Outcome (DataFrame Value).

(** What Python makes of a cell: [format_value t] is the text an f-string
    puts for [t], and [value_is t s] is [t == s] for a [str] [s]. *)
Variable format_value : Value -> string.
Variable value_is : Value -> string -> bool.

(** A call that leaves the world alone. *)
Definition pure_call {A : Type} (o : Outcome A) : M A := fun w => (o, w).

(** [row[0]] on a tuple; an empty tuple raises IndexError. *)
Definition row_first (row : list Value) : M Value :=
  match row with
  | v :: _ => ret v
  | [] => raise "tuple index out of range"
  end.

(** [[f(x) for x in xs]], left to right, stopping at the first exception. *)
Fixpoint comprehension {A B : Type} (f : A -> M B) (xs : list A) : M (list B) :=
  match xs with
  | [] => ret []
  | x :: rest =>
      y <- f x ;;
      ys <- comprehension f rest ;;
      ret (y :: ys)
  end.

(** The first cell of every row, when no row is empty: what the
    comprehension of line 17 collects when it does not raise. *)
Fixpoint first_cells (rows : list (list Value)) : option (list Value) :=
  match rows with
  | [] => Some []
  | [] :: _ => None
  | (v :: _) :: rest =>
      match first_cells rest with
      | Some vs => Some (v :: vs)
      | None => None
      end
  end.

(** *** get_tables (lines 11 to 21) *)
Definition get_tables : M (list Value) :=
  try_except
    (conn <- sqlite3_connect DB_PATH ;;
     cur <- conn_cursor conn ;;
     cur <- cur_execute cur "SELECT name FROM sqlite_master WHERE type='table';" ;;
     rows <- cur_fetchall cur ;;
     tables <- comprehension row_first rows ;;
     conn_close conn ;;
     ret tables)
    (fun _ => ret []).

(** *** get_table_schema (lines 24 to 35) *)
Definition get_table_schema (table_name : string) : M (DataFrame Value) :=
  try_except
    (conn <- sqlite3_connect DB_PATH ;;
     cur <- conn_cursor conn ;;
     cur <- cur_execute cur ("PRAGMA table_info(" ++ table_name ++ ");") ;;
     rows <- cur_fetchall cur ;;
     conn_close conn ;;
     df <- pure_call
             (pd_DataFrame rows ["cid"; "name"; "type"; "notnull"; "dflt_value"; "pk"]) ;;
     pure_call (df_getitem df ["name"; "type"; "pk"]))
    (fun _ => ret (Build_DataFrame [] ["name"; "type"; "pk"])).

(** The statement of line 16 and the column names of lines 32, 33 and 35. *)
Definition TABLES_SQL : string := "SELECT name FROM sqlite_master WHERE type='table';".

Definition INFO_COLUMNS : list string :=
  ["cid"; "name"; "type"; "notnull"; "dflt_value"; "pk"].

Definition SHOWN_COLUMNS : list string := ["name"; "type"; "pk"].

(** What lines 32 and 33 make of the rows, and the frame of line 35 when
    pandas raises. *)
Definition schema_frame (rows : list (list Value)) : Outcome (DataFrame Value) :=
  match pd_DataFrame rows INFO_COLUMNS with
  | Returns df =>
      match df_getitem df SHOWN_COLUMNS with
      | Returns shown => Returns shown
      | Raises _ => Returns (Build_DataFrame [] SHOWN_COLUMNS)
      end
  | Raises _ => Returns (Build_DataFrame [] SHOWN_COLUMNS)
  end.

(** *** main (lines 249 to 383) *)




End SchemaHelpers.



(** Run on [content], [sql] changes nothing. *)
Definition changes_nothing {env : Environment} (content : Store) (sql : string) : Prop :=
  match engine_cursor content sql with
  | cursor_raises _ => True
  | fetch_raises _ _ working => working = content
  | cursor_gives _ _ working => working = content
  end.


(** What [show_messages] draws for the history: the role, then the content,
    of each entry in turn. *)
Definition history_widgets {Value : Type} (msgs : list Message) : list (Widget Value) :=
  flat_map (fun m => [st_chat_message (role m); st_markdown (content m)]) msgs.

(** An instance for the schema helpers: an engine that lists one table and
    describes it, and a pandas that wants every row as wide as the column
    names and selects columns by position. *)

Module SchemaScenario.

Definition table_info : list (list string) :=
  [ ["0"; "id"; "INTEGER"; "0"; ""; "1"];
    ["1"; "name"; "TEXT"; "1"; ""; "0"] ].

Definition engine (st : list (list string)) (sql : string)
  : CursorResult (list (list string)) string :=
  if String.eqb sql "SELECT name FROM sqlite_master WHERE type='table';"
  then cursor_gives (Some [Build_ColumnInfo "name"]) [["students"]; ["sqlite_sequence"]] st
  else if String.eqb sql "PRAGMA table_info(students);"
       then cursor_gives (Some (map Build_ColumnInfo
                                  ["cid"; "name"; "type"; "notnull"; "dflt_value"; "pk"]))
                         table_info st
  else if String.eqb sql "SELECT * FROM students" then cursor_gives (Some []) st st
  else cursor_raises "near the statement: syntax error".

Definition with_schema : Environment :=
  {| Store := list (list string);
     Value := string;
     engine_connect := fun _ => None;
     engine_cursor := engine;
     engine_commit := fun _ => None;
     begins_transaction := Scenario.is_dml;
     ollama_chat := fun _ _ => Raises "not asked" |}.

(** An engine on which every statement fails. *)
Definition unreadable : Environment :=
  {| Store := list (list string);
     Value := string;
     engine_connect := fun _ => None;
     engine_cursor := fun _ _ => cursor_raises "unable to open database file";
     engine_commit := fun _ => None;
     begins_transaction := Scenario.is_dml;
     ollama_chat := fun _ _ => Raises "not asked" |}.

(** A database file that cannot be opened. *)
Definition locked_out : Environment :=
  {| Store := list (list string);
     Value := string;
     engine_connect := fun _ => Some "unable to open database file";
     engine_cursor := engine;
     engine_commit := fun _ => None;
     begins_transaction := Scenario.is_dml;
     ollama_chat := fun _ _ => Raises "not asked" |}.

Definition frame (rows : list (list string)) (names : list string)
  : Outcome (DataFrame string) :=
  if forallb (fun r => Nat.eqb (length r) (length names)) rows
  then Returns (Build_DataFrame rows names)
  else Raises "columns passed do not match the data".

Fixpoint position (name : string) (names : list string) : option nat :=
  match names with
  | [] => None
  | n :: rest =>
      if String.eqb n name then Some 0
      else match position name rest with
           | Some k => Some (S k)
           | None => None
           end
  end.

Definition pick (df : DataFrame string) (names : list string)
  : Outcome (DataFrame string) :=
  if forallb (fun n => match position n (df_columns df) with Some _ => true | None => false end)
             names
  then Returns
         (Build_DataFrame
            (map (fun r => map (fun n => match position n (df_columns df) with
                                          | Some k => nth k r ""
                                          | None => ""
                                          end) names)
                 (df_rows df))
            names)
  else Raises "not in index".

End SchemaScenario.

(** * Properties *)

(** ** The string primitives *)

Module PyStrFacts.
Import PyStr.

Lemma rstrip_by_empty (p : ascii -> bool) (s : string) :
  rstrip_by p s = "" <-> all_by p s = true.
Proof.
  induction s as [|c r IH]; simpl.
  - tauto.
  - destruct (rstrip_by p r) eqn:E.
    + destruct (p c); simpl.
      * split; intros _; [apply IH|]; reflexivity.
      * split; discriminate.
    + split; [discriminate|].
      intros H. apply andb_true_iff in H as [_ H].
      apply IH in H. discriminate.
Qed.

Lemma rstrip_by_idem (p : ascii -> bool) (s : string) :
  rstrip_by p (rstrip_by p s) = rstrip_by p s.
Proof.
  induction s as [|c r IH]; simpl; [reflexivity|].
  destruct (rstrip_by p r) as [|d t] eqn:E.
  - destruct (p c) eqn:Ec; simpl; [reflexivity | rewrite Ec; reflexivity].
  - change (rstrip_by p (String c (String d t))) with
      (match rstrip_by p (String d t) with
       | "" => if p c then "" else String c ""
       | String _ _ as r' => String c r'
       end).
    rewrite IH. reflexivity.
Qed.

(** What [rstrip] removes is a run of the characters it was given. *)
Lemma rstrip_by_tail (p : ascii -> bool) (s : string) :
  exists t, s = rstrip_by p s ++ t /\ all_by p t = true.
Proof.
  induction s as [|c r (t & Ht & Hall)]; simpl.
  - exists ""; split; reflexivity.
  - destruct (rstrip_by p r) as [|d u] eqn:E.
    + destruct (p c) eqn:Ec.
      * exists (String c r); split; [reflexivity|].
        simpl. rewrite Ec. simpl. rewrite Ht. exact Hall.
      * exists t; split; [simpl; rewrite Ht at 1; reflexivity | exact Hall].
    + exists t; split; [simpl; rewrite Ht at 1; reflexivity | exact Hall].
Qed.

(** Nothing that [rstrip(";")] returns ends in a semicolon. *)
Lemma rstrip_semicolon_end (s : string) :
  endswith (rstrip_semicolon s) ";" = false.
Proof.
  unfold rstrip_semicolon.
  induction s as [|c r IH]; simpl; [reflexivity|].
  destruct (rstrip_by is_semicolon r) as [|d u] eqn:E.
  - destruct (is_semicolon c) eqn:Ec; [reflexivity|].
    simpl. unfold is_semicolon in Ec. rewrite Ec. reflexivity.
  - change (endswith (String c (String d u)) ";")
      with (if String.eqb (String c (String d u)) ";" then true
            else endswith (String d u) ";").
    rewrite IH.
    simpl. destruct (Ascii.eqb c ";"); reflexivity.
Qed.

(** *** White space *)

Lemma space_len_bound (s : string) (n : nat) :
  space_len s = S n -> exists c r, s = String c r /\ n <= String.length r.
Proof.
  destruct s as [|a [|b [|c r]]]; cbn [space_len]; [discriminate| | |].
  - destruct (isspace a); [|discriminate]. intros H; injection H as <-.
    eexists _, _; split; [reflexivity | cbn; lia].
  - destruct (isspace a); [|destruct (wide_space2 a b); [|discriminate]];
      intros H; injection H as <-; eexists _, _; (split; [reflexivity | cbn; lia]).
  - destruct (isspace a);
      [|destruct (wide_space2 a b); [|destruct (wide_space3 a b c); [|discriminate]]];
      intros H; injection H as <-; eexists _, _; (split; [reflexivity | cbn; lia]).
Qed.

(** A string that starts with no white space does not start with one of
    the ten ASCII characters. *)
Lemma space_len_head (c : ascii) (r : string) :
  space_len (String c r) = 0 -> isspace c = false.
Proof.
  destruct r as [|b [|d r]]; cbn [space_len]; destruct (isspace c);
    intros H; try reflexivity; discriminate.
Qed.

Lemma space_len_app (a b : string) (n : nat) :
  space_len a = S n -> space_len (a ++ b) = S n.
Proof.
  destruct a as [|x [|y [|z a]]]; cbn [space_len append]; [discriminate| | |].
  - destruct (isspace x) eqn:E; [|discriminate]. intros H.
    destruct b as [|b1 [|b2 b]]; cbn [space_len]; rewrite ?E; exact H.
  - destruct (isspace x) eqn:E.
    + intros H. destruct b as [|b1 b]; cbn [space_len]; rewrite ?E; exact H.
    + destruct (wide_space2 x y) eqn:E2; [|discriminate]. intros H.
      destruct b as [|b1 b]; cbn [space_len]; rewrite ?E, ?E2; exact H.
  - auto.
Qed.

Lemma space_len_app0 (a b : string) :
  space_len (a ++ b) = 0 -> space_len a = 0.
Proof.
  destruct (space_len a) as [|n] eqn:E; [reflexivity|].
  rewrite (space_len_app a b n E). discriminate.
Qed.

(** What [lstrip] returns starts with no white space. *)
Lemma lstrip_aux_start (s : string) : forall k, space_len (lstrip_aux k s) = 0.
Proof.
  induction s as [|c r IH]; intros k; [reflexivity|].
  cbn [lstrip_aux]. destruct k as [|k]; [|apply IH].
  destruct (space_len (String c r)) eqn:E; [exact E | apply IH].
Qed.

Lemma lstrip_aux_empty (s : string) :
  forall k, k <= String.length s ->
            (lstrip_aux k s = "" <-> all_space_aux k s = true).
Proof.
  induction s as [|c r IH]; intros k Hk.
  - cbn in Hk. replace k with 0 by lia. cbn. tauto.
  - cbn [lstrip_aux all_space_aux]. destruct k as [|k].
    + destruct (space_len (String c r)) as [|n] eqn:E.
      * split; discriminate.
      * apply IH. destruct (space_len_bound _ _ E) as (c' & r' & H & Hn).
        injection H as _ <-. exact Hn.
    + apply IH. cbn in Hk. lia.
Qed.

Lemma lstrip_aux_suffix (s : string) : forall k, exists a, s = a ++ lstrip_aux k s.
Proof.
  induction s as [|c r IH]; intros k; [exists ""; reflexivity|].
  cbn [lstrip_aux]. destruct k as [|k].
  - destruct (space_len (String c r)) as [|n].
    + exists "". reflexivity.
    + destruct (IH n) as [a Ha]. exists (String c a). cbn. rewrite <- Ha. reflexivity.
  - destruct (IH k) as [a Ha]. exists (String c a). cbn. rewrite <- Ha. reflexivity.
Qed.

Lemma lstrip_fixed (s : string) : space_len s = 0 -> lstrip s = s.
Proof.
  intros H. destruct s as [|c r]; [reflexivity|].
  unfold lstrip. cbn [lstrip_aux]. rewrite H. reflexivity.
Qed.

Lemma all_space_start (s : string) :
  space_len s = 0 -> all_space s = true -> s = "".
Proof.
  destruct s as [|c r]; [reflexivity|].
  unfold all_space. cbn [all_space_aux]. intros ->. discriminate.
Qed.

Lemma all_space_aux_app (a b : string) :
  forall k, all_space_aux k a = true -> all_space b = true ->
            all_space_aux k (a ++ b) = true.
Proof.
  induction a as [|c a IH]; intros k Ha Hb.
  - cbn in Ha. apply Nat.eqb_eq in Ha. subst k. exact Hb.
  - change (String c a ++ b) with (String c (a ++ b)).
    cbn [all_space_aux] in *. destruct k as [|k]; [|apply IH; assumption].
    destruct (space_len (String c a)) as [|n] eqn:E; [discriminate|].
    change (String c (a ++ b)) with (String c a ++ b).
    rewrite (space_len_app _ b _ E). apply IH; assumption.
Qed.

Lemma rstrip_empty (s : string) : rstrip s = "" <-> all_space s = true.
Proof.
  destruct s as [|c r]; [cbn; tauto|].
  cbn [rstrip]. destruct (all_space (String c r)); split; congruence.
Qed.

(** What [rstrip] removes is white space from end to end. *)
Lemma rstrip_tail (s : string) :
  exists t, s = rstrip s ++ t /\ all_space t = true.
Proof.
  induction s as [|c r (t & Ht & Hall)]; [exists ""; split; reflexivity|].
  cbn [rstrip]. destruct (all_space (String c r)) eqn:E.
  - exists (String c r). split; [reflexivity | exact E].
  - exists t. split; [cbn; rewrite <- Ht; reflexivity | exact Hall].
Qed.

Lemma rstrip_idem (s : string) : rstrip (rstrip s) = rstrip s.
Proof.
  induction s as [|c r IH]; [reflexivity|].
  cbn [rstrip]. destruct (all_space (String c r)) eqn:E; [reflexivity|].
  cbn [rstrip]. rewrite IH.
  destruct (all_space (String c (rstrip r))) eqn:E'; [|reflexivity].
  destruct (rstrip_tail r) as (t & Ht & Hall).
  assert (H : all_space (String c r) = true).
  { rewrite Ht. change (String c (rstrip r ++ t)) with (String c (rstrip r) ++ t).
    apply all_space_aux_app; assumption. }
  congruence.
Qed.

(** What [strip] returns starts with no white space. *)
Lemma strip_start (s : string) : space_len (strip s) = 0.
Proof.
  unfold strip. destruct (rstrip_tail (lstrip s)) as (t & Ht & _).
  apply (space_len_app0 _ t). rewrite <- Ht. apply lstrip_aux_start.
Qed.

Lemma strip_head (s : string) (c : ascii) (r : string) :
  strip s = String c r -> isspace c = false.
Proof.
  intros H. apply (space_len_head c r). rewrite <- H. apply strip_start.
Qed.

(** [strip] leaves nothing exactly of the strings that are white space from
    end to end, the empty string among them. *)
Lemma strip_empty (s : string) : strip s = "" <-> all_space s = true.
Proof.
  unfold strip. rewrite rstrip_empty. split; intros H.
  - apply (lstrip_aux_empty s 0 (Nat.le_0_l _)).
    apply all_space_start; [apply lstrip_aux_start | exact H].
  - apply (lstrip_aux_empty s 0 (Nat.le_0_l _)) in H. unfold lstrip. rewrite H. reflexivity.
Qed.

(** Stripping twice is stripping once (lines 146 and 156). *)
Lemma strip_idem (s : string) : strip (strip s) = strip s.
Proof.
  unfold strip at 1. rewrite (lstrip_fixed _ (strip_start s)).
  unfold strip. apply rstrip_idem.
Qed.

(** What [strip] returns is a stretch of the string it was given. *)
Lemma strip_within (s : string) : exists a b, s = a ++ strip s ++ b.
Proof.
  destruct (lstrip_aux_suffix s 0) as [a Ha].
  destruct (rstrip_tail (lstrip s)) as (t & Ht & _).
  exists a, t. unfold strip. rewrite <- Ht. exact Ha.
Qed.

(** *** Words *)

Lemma split_ws_aux_cur (s cur : string) :
  cur <> "" -> split_ws_aux 0 cur s <> [].
Proof.
  revert cur. induction s as [|c r IH]; intros cur H; cbn [split_ws_aux].
  - destruct cur; [congruence | discriminate].
  - destruct (space_len (String c r)).
    + apply IH. destruct cur; discriminate.
    + destruct cur; [congruence | discriminate].
Qed.

(** A string that is not empty and starts with no white space has a first
    word. *)
Lemma split_ws_head (s : string) :
  s <> "" -> space_len s = 0 -> split_ws s <> [].
Proof.
  destruct s as [|c r]; [congruence|]. intros _ H.
  unfold split_ws. cbn [split_ws_aux]. rewrite H.
  apply split_ws_aux_cur. discriminate.
Qed.

(** *** No piece of a split holds the separator *)

Lemma prefix_app (a b c : string) :
  String.prefix a b = true -> String.prefix a (b ++ c) = true.
Proof.
  revert b. induction a as [|x a IH]; intros b H; [destruct (b ++ c); reflexivity|].
  destruct b as [|y b]; [discriminate|].
  simpl in *. destruct (ascii_dec x y); [apply IH; exact H | discriminate].
Qed.

Lemma prefix_empty (sep : string) : sep <> "" -> String.prefix sep "" = false.
Proof. destruct sep; [congruence | reflexivity]. Qed.

Lemma append_nil_r (s : string) : s ++ "" = s.
Proof. induction s as [|c r IH]; simpl; [reflexivity | rewrite IH; reflexivity]. Qed.

Lemma append_assoc (a b c : string) : (a ++ b) ++ c = a ++ (b ++ c).
Proof. induction a as [|x a IH]; simpl; [reflexivity | rewrite IH; reflexivity]. Qed.

(** A string none of whose non-empty suffixes starts with [sep] does not
    contain [sep]. *)
Lemma contains_false (sep s : string) :
  sep <> "" ->
  (forall u v, s = u ++ v -> v <> "" -> String.prefix sep v = false) ->
  contains sep s = false.
Proof.
  intros Hsep. induction s as [|c r IH]; intros H.
  - cbn [contains]. rewrite (prefix_empty _ Hsep). reflexivity.
  - cbn [contains].
    rewrite (H "" (String c r) eq_refl) by discriminate.
    apply IH. intros u v -> Hv.
    apply (H (String c u) v eq_refl Hv).
Qed.

(** Cutting [u ++ v] before its last character. *)
Lemma snoc_suffix (cur u v : string) (c : ascii) :
  cur ++ String c "" = u ++ v -> v <> "" ->
  exists v', v = v' ++ String c "" /\ cur = u ++ v'.
Proof.
  revert cur. induction u as [|x u IH]; intros cur H Hv.
  - exists cur. simpl in H. split; [symmetry; exact H | reflexivity].
  - destruct cur as [|y cur].
    + simpl in H. injection H as _ H.
      destruct u; [destruct v; [congruence | discriminate] | discriminate].
    + simpl in H. injection H as -> H.
      destruct (IH cur H Hv) as (v' & -> & ->).
      exists v'. split; reflexivity.
Qed.

Lemma piece_clear_empty (sep s : string) : piece_clear sep "" s.
Proof.
  intros u v H Hv. destruct u; [|discriminate].
  simpl in H. congruence.
Qed.

Lemma piece_clear_step (sep cur r : string) (c : ascii) :
  piece_clear sep cur (String c r) ->
  String.prefix sep (String c r) = false ->
  piece_clear sep (cur ++ String c "") r.
Proof.
  intros Hinv Hno u v H Hv.
  destruct (snoc_suffix _ _ _ _ H Hv) as (v' & -> & ->).
  rewrite append_assoc. cbn [append].
  destruct v' as [|y v'].
  - exact Hno.
  - apply (Hinv u (String y v') eq_refl). discriminate.
Qed.

Lemma piece_clear_contains (sep cur s : string) :
  sep <> "" -> piece_clear sep cur s -> contains sep cur = false.
Proof.
  intros Hsep Hinv. apply (contains_false _ _ Hsep).
  intros u v H Hv.
  destruct (String.prefix sep v) eqn:E; [|reflexivity].
  rewrite <- (Hinv u v H Hv). symmetry. apply prefix_app. exact E.
Qed.

Lemma split_aux_pieces (sep s : string) :
  sep <> "" ->
  forall skip cur p,
    (skip = 0 -> piece_clear sep cur s) ->
    (skip <> 0 -> cur = "") ->
    In p (split_aux sep skip cur s) ->
    contains sep p = false.
Proof.
  intros Hsep. induction s as [|c r IH]; intros skip cur p H0 Hs Hin.
  - simpl in Hin. destruct Hin as [<-|[]].
    destruct skip as [|k].
    + apply (piece_clear_contains sep cur "" Hsep). auto.
    + rewrite Hs by discriminate. cbn [contains].
      rewrite (prefix_empty _ Hsep). reflexivity.
  - cbn [split_aux] in Hin. destruct skip as [|k].
    + specialize (H0 eq_refl).
      destruct (String.prefix sep (String c r)) eqn:E.
      * destruct Hin as [<-|Hin].
        -- apply (piece_clear_contains sep cur (String c r) Hsep H0).
        -- apply (IH _ _ _ (fun _ => piece_clear_empty sep r) (fun _ => eq_refl) Hin).
      * apply (IH 0 _ _ (fun _ => piece_clear_step _ _ _ _ H0 E)); [congruence | exact Hin].
    + apply (IH k cur p); [| intros _; apply Hs; discriminate | exact Hin].
      intros _. rewrite Hs by discriminate. apply piece_clear_empty.
Qed.

(** [s.split(sep)] leaves no [sep] in any piece. *)
Lemma split_pieces (sep s p : string) :
  sep <> "" -> In p (split sep s) -> contains sep p = false.
Proof.
  intros Hsep Hin.
  apply (split_aux_pieces sep s Hsep 0 "" p);
    [intros _; apply piece_clear_empty | congruence | exact Hin].
Qed.

Lemma contains_tail (sep : string) (c : ascii) (s : string) :
  contains sep (String c s) = false -> contains sep s = false.
Proof.
  cbn [contains]. destruct (String.prefix sep (String c s)); [discriminate | auto].
Qed.

Lemma contains_app_drop (sep a s : string) :
  contains sep (a ++ s) = false -> contains sep s = false.
Proof.
  induction a as [|c a IH]; intros H; [exact H|].
  apply IH. exact (contains_tail _ _ _ H).
Qed.

Lemma contains_app_l (sep a b : string) :
  contains sep (a ++ b) = false -> contains sep a = false.
Proof.
  induction a as [|c a IH]; intros H.
  - destruct sep as [|x sep]; [destruct b; discriminate | reflexivity].
  - change (String c a ++ b) with (String c (a ++ b)) in H.
    cbn [contains] in *.
    destruct (String.prefix sep (String c a)) eqn:E.
    + apply (prefix_app _ _ b) in E.
      change (String c a ++ b) with (String c (a ++ b)) in E.
      rewrite E in H. discriminate.
    + destruct (String.prefix sep (String c (a ++ b))); [discriminate|].
      apply IH. exact H.
Qed.

(** Stripping a piece cannot bring a separator into it. *)
Lemma contains_strip (sep s : string) :
  contains sep s = false -> contains sep (strip s) = false.
Proof.
  intros H. destruct (strip_within s) as (a & b & Hs).
  rewrite Hs in H. apply contains_app_drop in H.
  exact (contains_app_l _ _ _ H).
Qed.

Lemma endswith_drop_last (s : string) :
  endswith s ";" = true -> s = drop_last s ++ ";".
Proof.
  induction s as [|c r IH]; cbn [endswith].
  - destruct (String.eqb_spec "" ";"); discriminate.
  - destruct (String.eqb_spec (String c r) ";") as [E|_].
    + intros _. rewrite E. reflexivity.
    + intros H. destruct r as [|d r'].
      * cbn [endswith] in H. destruct (String.eqb_spec "" ";"); discriminate.
      * specialize (IH H).
        change (drop_last (String c (String d r')))
          with (String c (drop_last (String d r'))).
        cbn [append]. rewrite <- IH. reflexivity.
Qed.

(** The first word [split] finds starts the string it is cut from. *)
Lemma split_ws_aux_first (s cur t : string) (l : list string) :
  cur <> "" -> split_ws_aux 0 cur s = t :: l -> exists rest, cur ++ s = t ++ rest.
Proof.
  revert cur. induction s as [|c r IH]; intros cur Hc H; cbn [split_ws_aux] in H.
  - destruct cur; [congruence|]. injection H as <- _. exists "". reflexivity.
  - destruct (space_len (String c r)).
    + destruct (IH (cur ++ String c "")) with (2 := H) as [rest Hr].
      * destruct cur; discriminate.
      * exists rest. rewrite <- Hr. rewrite append_assoc. reflexivity.
    + destruct cur; [congruence|]. injection H as <- _. eexists; reflexivity.
Qed.

Lemma split_ws_first (s t : string) (l : list string) :
  space_len s = 0 -> split_ws s = t :: l -> exists rest, s = t ++ rest.
Proof.
  destruct s as [|c r]; [discriminate|]. intros H0 H.
  unfold split_ws in H. cbn [split_ws_aux] in H. rewrite H0 in H.
  apply (split_ws_aux_first r (String c "") t l); [discriminate | exact H].
Qed.

End PyStrFacts.

(** ** The calls to sqlite3 and to the model *)

Section PipelineFacts.

Context {env : Environment}.

Arguments generation_messages : simpl never.
Arguments fix_messages : simpl never.

Lemma nth_error_snoc {A : Type} (l : list A) (x : A) :
  nth_error (l ++ [x]) (length l) = Some x.
Proof. induction l as [|a l IH]; simpl; [reflexivity | exact IH]. Qed.

Lemma replace_nth_snoc {A : Type} (l : list A) (x y : A) :
  replace_nth (length l) y (l ++ [x]) = (l ++ [y])%list.
Proof. induction l as [|a l IH]; simpl; [reflexivity | rewrite IH; reflexivity]. Qed.

Ltac world_simpl :=
  try unfold statement_done;
  cbn [conns set_conns set_db log logs draw remember db trace screen messages
       conn_open conn_working cur_conn cur_description cur_rows].

Ltac sqlite_steps w :=
  repeat (world_simpl;
          progress rewrite ?(nth_error_snoc (conns w)), ?(replace_nth_snoc (conns w)));
  world_simpl.

(** Two worlds with the same fields are the same world. *)
Lemma world_eq (w1 w2 : World) :
  db w1 = db w2 -> conns w1 = conns w2 -> trace w1 = trace w2 ->
  screen w1 = screen w2 -> messages w1 = messages w2 -> w1 = w2.
Proof. destruct w1, w2; cbn; intros; subst; reflexivity. Qed.

Ltac world_norm :=
  unfold ret; apply f_equal; apply world_eq;
  cbn [db conns trace screen messages set_conns set_db log logs draw remember];
  rewrite <- ?app_assoc; cbn [app].

(** *** What the environment did, from what [engine_execute] says *)

Lemma engine_execute_connect (content : Store) (sql e : string) :
  engine_execute content sql = ConnectError e <-> engine_connect content = Some e.
Proof.
  unfold engine_execute, then_commit. destruct (engine_connect content) as [d|].
  - split; intros H; injection H as ->; reflexivity.
  - destruct (engine_cursor content sql) as [?|[?|] ? working|[?|] ? working];
      try destruct (engine_commit working); split; discriminate.
Qed.

Ltac engine_cases content sql :=
  unfold engine_execute, then_commit;
  destruct (engine_connect content); [discriminate|];
  destruct (engine_cursor content sql) as [?|[?|] ? ?working|[?|] ? ?working];
  try match goal with
      | |- context [engine_commit ?w] => destruct (engine_commit w) eqn:?
      end;
  intros H; inversion H; subst.

Lemma engine_execute_error (content : Store) (sql e : string) :
  engine_execute content sql = ExecError e ->
  engine_connect content = None /\ engine_cursor content sql = cursor_raises e.
Proof. engine_cases content sql. split; reflexivity. Qed.

Lemma engine_execute_fetch (content : Store) (sql e : string)
      (description : option (list ColumnInfo)) (working : Store) :
  engine_execute content sql = FetchError description e working ->
  engine_connect content = None
  /\ engine_cursor content sql = fetch_raises description e working
  /\ (description = None -> engine_commit working = None).
Proof. engine_cases content sql; repeat split; auto; discriminate. Qed.

Lemma engine_execute_ok (content : Store) (sql : string)
      (description : option (list ColumnInfo)) (rows : list (list Value)) (working : Store) :
  engine_execute content sql = ExecOk description rows working ->
  engine_connect content = None
  /\ engine_cursor content sql = cursor_gives description rows working
  /\ (description = None -> engine_commit working = None).
Proof. engine_cases content sql; repeat split; auto; discriminate. Qed.

Lemma engine_execute_commit (content : Store) (sql e : string) (working : Store) :
  engine_execute content sql = CommitError e working ->
  engine_connect content = None
  /\ engine_commit working = Some e
  /\ ((exists rows, engine_cursor content sql = cursor_gives None rows working)
      \/ (exists d, engine_cursor content sql = fetch_raises None d working)).
Proof. engine_cases content sql; repeat split; eauto. Qed.

(** *** run_sql, one lemma for each thing the engine can do *)

Lemma run_sql_connect_error (query : string) (w : World) (d : string) :
  engine_execute (db w) (PyStr.rstrip_semicolon (PyStr.strip query)) = ConnectError d ->
  run_sql query w =
    (Returns (None, Some d, None),
     {| db := db w;
        conns := conns w;
        trace := trace w ++ [ev_connect DB_PATH];
        screen := screen w;
        messages := messages w |}).
Proof.
  intros H. apply engine_execute_connect in H.
  unfold run_sql, try_except, bind, sqlite3_connect. rewrite H.
  world_norm; reflexivity.
Qed.

Lemma run_sql_error (query : string) (w : World) (d : string) :
  engine_execute (db w) (PyStr.rstrip_semicolon (PyStr.strip query)) = ExecError d ->
  run_sql query w =
    (Returns (None, Some d, None),
     {| db := db w;
        conns := conns w ++ [{| conn_open := true; conn_working := db w |}];
        trace := trace w ++ [ev_connect DB_PATH;
                             ev_execute (PyStr.rstrip_semicolon (PyStr.strip query))];
        screen := screen w;
        messages := messages w |}).
Proof.
  intros H. apply engine_execute_error in H as [Hc H].
  unfold run_sql, try_except, bind, sqlite3_connect, conn_cursor, cur_execute, lookup_open.
  rewrite Hc. sqlite_steps w. rewrite H.
  world_norm; reflexivity.
Qed.

Lemma run_sql_fetch_error (query : string) (w : World) (description : list ColumnInfo)
      (d : string) (working : Store) :
  engine_execute (db w) (PyStr.rstrip_semicolon (PyStr.strip query))
    = FetchError (Some description) d working ->
  run_sql query w =
    (Returns (None, Some d, None),
     {| db := uncommitted (PyStr.rstrip_semicolon (PyStr.strip query)) working (db w);
        conns := conns w ++ [{| conn_open := true; conn_working := working |}];
        trace := trace w ++ [ev_connect DB_PATH;
                             ev_execute (PyStr.rstrip_semicolon (PyStr.strip query));
                             ev_fetchall];
        screen := screen w;
        messages := messages w |}).
Proof.
  intros H. apply engine_execute_fetch in H as (Hc & H & _).
  unfold run_sql, try_except, bind, sqlite3_connect, conn_cursor, cur_execute, lookup_open.
  rewrite Hc. sqlite_steps w. rewrite H. world_simpl.
  unfold cur_fetchall. sqlite_steps w. world_norm; reflexivity.
Qed.

Lemma run_sql_commit_error (query : string) (w : World) (d : string) (working : Store) :
  engine_execute (db w) (PyStr.rstrip_semicolon (PyStr.strip query))
    = CommitError d working ->
  run_sql query w =
    (Returns (None, Some d, None),
     {| db := uncommitted (PyStr.rstrip_semicolon (PyStr.strip query)) working (db w);
        conns := conns w ++ [{| conn_open := true; conn_working := working |}];
        trace := trace w ++ [ev_connect DB_PATH;
                             ev_execute (PyStr.rstrip_semicolon (PyStr.strip query));
                             ev_commit];
        screen := screen w;
        messages := messages w |}).
Proof.
  intros H. apply engine_execute_commit in H as (Hc & Hm & [[rows H] | [e H]]);
    unfold run_sql, try_except, bind, sqlite3_connect, conn_cursor, cur_execute, lookup_open;
    rewrite Hc; sqlite_steps w; rewrite H; world_simpl;
    unfold conn_commit, lookup_open; sqlite_steps w; rewrite Hm;
    world_norm; reflexivity.
Qed.

Lemma run_sql_rows (query : string) (w : World) (description : list ColumnInfo)
      (rows : list (list Value)) (working : Store) :
  engine_execute (db w) (PyStr.rstrip_semicolon (PyStr.strip query))
    = ExecOk (Some description) rows working ->
  run_sql query w =
    (Returns (Some (Build_DataFrame rows (map col_name description)), None, Some "select"),
     {| db := uncommitted (PyStr.rstrip_semicolon (PyStr.strip query)) working (db w);
        conns := conns w ++ [{| conn_open := false; conn_working := working |}];
        trace := trace w ++ [ev_connect DB_PATH;
                             ev_execute (PyStr.rstrip_semicolon (PyStr.strip query));
                             ev_fetchall; ev_close];
        screen := screen w;
        messages := messages w |}).
Proof.
  intros H. apply engine_execute_ok in H as (Hc & H & _).
  unfold run_sql, try_except, bind, sqlite3_connect, conn_cursor, cur_execute, lookup_open.
  rewrite Hc. sqlite_steps w. rewrite H. world_simpl.
  unfold cur_fetchall, conn_close, ret.
  sqlite_steps w. world_norm; reflexivity.
Qed.

Lemma run_sql_effect (query : string) (w : World) (rows : list (list Value))
      (working : Store) :
  engine_execute (db w) (PyStr.rstrip_semicolon (PyStr.strip query))
    = ExecOk None rows working ->
  run_sql query w =
    (Returns (None, None, Some "other"),
     {| db := working;
        conns := conns w ++ [{| conn_open := false; conn_working := working |}];
        trace := trace w ++ [ev_connect DB_PATH;
                             ev_execute (PyStr.rstrip_semicolon (PyStr.strip query));
                             ev_commit; ev_close];
        screen := screen w;
        messages := messages w |}).
Proof.
  intros H. apply engine_execute_ok in H as (Hc & H & Hm). specialize (Hm eq_refl).
  unfold run_sql, try_except, bind, sqlite3_connect, conn_cursor, cur_execute, lookup_open.
  rewrite Hc. sqlite_steps w. rewrite H. world_simpl.
  unfold conn_commit, conn_close, lookup_open, ret.
  sqlite_steps w. rewrite Hm. sqlite_steps w. world_norm; reflexivity.
Qed.

(** Without a description [fetchall] is not called, so what it would do
    does not matter. *)
Lemma run_sql_effect_unfetched (query : string) (w : World) (d : string)
      (working : Store) :
  engine_execute (db w) (PyStr.rstrip_semicolon (PyStr.strip query))
    = FetchError None d working ->
  run_sql query w =
    (Returns (None, None, Some "other"),
     {| db := working;
        conns := conns w ++ [{| conn_open := false; conn_working := working |}];
        trace := trace w ++ [ev_connect DB_PATH;
                             ev_execute (PyStr.rstrip_semicolon (PyStr.strip query));
                             ev_commit; ev_close];
        screen := screen w;
        messages := messages w |}).
Proof.
  intros H. apply engine_execute_fetch in H as (Hc & H & Hm). specialize (Hm eq_refl).
  unfold run_sql, try_except, bind, sqlite3_connect, conn_cursor, cur_execute, lookup_open.
  rewrite Hc. sqlite_steps w. rewrite H. world_simpl.
  unfold conn_commit, conn_close, lookup_open, ret.
  sqlite_steps w. rewrite Hm. sqlite_steps w. world_norm; reflexivity.
Qed.

(** *** Line 163 never raises on a cleaned completion *)

(** A cleaned completion starts with no white space. *)
Lemma clean_start (raw : string) : PyStr.space_len (clean raw) = 0.
Proof.
  unfold clean, drop_semicolon, unfenced_sql.
  pose proof (PyStrFacts.strip_start (unfence raw)) as H.
  destruct (PyStr.endswith (PyStr.strip (unfence raw)) ";") eqn:E; [|exact H].
  apply PyStrFacts.endswith_drop_last in E. rewrite E in H.
  exact (PyStrFacts.space_len_app0 _ _ H).
Qed.

Lemma clean_head (raw : string) (c : ascii) (r : string) :
  clean raw = String c r -> PyStr.isspace c = false.
Proof.
  intros H. apply (PyStrFacts.space_len_head c r). rewrite <- H. apply clean_start.
Qed.

Lemma first_word_clean (raw : string) (w : World) :
  first_word (clean raw) w = (Returns (first_token (clean raw)), w).
Proof.
  unfold first_word, first_token.
  destruct (clean raw) as [|c r] eqn:E; [reflexivity|].
  assert (Hne : PyStr.split_ws (String c r) <> []).
  { apply PyStrFacts.split_ws_head; [discriminate|]. rewrite <- E. apply clean_start. }
  cbn [PyStr.nonempty].
  destruct (PyStr.split_ws (String c r)); [congruence | reflexivity].
Qed.

(** *** nl_to_sql and fix_sql, by what the model does *)

Lemma nl_to_sql_blank (text : string) (w : World) :
  PyStr.strip text = "" ->
  nl_to_sql text w = (Returns (None, Some "Please type a question or command."), w).
Proof.
  intros H. unfold nl_to_sql. rewrite H.
  rewrite orb_true_r. reflexivity.
Qed.

Lemma nonblank_test (text : string) :
  PyStr.strip text <> "" ->
  negb (PyStr.nonempty text) || negb (PyStr.nonempty (PyStr.strip text)) = false.
Proof.
  intros H.
  destruct text as [|c r]; [exfalso; apply H; reflexivity|].
  destruct (PyStr.strip (String c r)); [congruence | reflexivity].
Qed.

Lemma nl_to_sql_raises (text : string) (w : World) (e : string) :
  PyStr.strip text <> "" ->
  ollama_chat "mistral" (generation_messages (PyStr.strip text)) = Raises e ->
  nl_to_sql text w =
    (Returns (None, Some ("Error from LLM: " ++ e)),
     log (ev_chat "mistral" (generation_messages (PyStr.strip text))) w).
Proof.
  intros Hn H. unfold nl_to_sql. rewrite (nonblank_test _ Hn).
  unfold try_except, bind, chat_content. rewrite H. reflexivity.
Qed.

Lemma nl_to_sql_answers (text : string) (w : World) (response : string) :
  PyStr.strip text <> "" ->
  ollama_chat "mistral" (generation_messages (PyStr.strip text)) = Returns response ->
  nl_to_sql text w =
    (Returns (verdict "Model did not return a valid SQL statement. It returned:"
                (clean (PyStr.strip response))),
     log (ev_chat "mistral" (generation_messages (PyStr.strip text))) w).
Proof.
  intros Hn H. unfold nl_to_sql. rewrite (nonblank_test _ Hn).
  unfold try_except, bind, chat_content. rewrite H.
  rewrite first_word_clean. unfold verdict.
  destruct (negb (PyStr.mem (first_token (clean (PyStr.strip response))) STATEMENT_WORDS));
    reflexivity.
Qed.

Lemma fix_sql_raises (original_sql db_error user_request : string) (w : World) (e : string) :
  ollama_chat "mistral" (fix_messages original_sql db_error user_request) = Raises e ->
  fix_sql original_sql db_error user_request w =
    (Returns (None, Some ("Error from LLM during fix: " ++ e)),
     log (ev_chat "mistral" (fix_messages original_sql db_error user_request)) w).
Proof.
  intros H. unfold fix_sql, try_except, bind, chat_content. rewrite H. reflexivity.
Qed.

Lemma fix_sql_answers (original_sql db_error user_request : string) (w : World)
      (response : string) :
  ollama_chat "mistral" (fix_messages original_sql db_error user_request) = Returns response ->
  fix_sql original_sql db_error user_request w =
    (Returns (verdict "Fixed SQL is not a valid statement. It returned:"
                (clean (PyStr.strip response))),
     log (ev_chat "mistral" (fix_messages original_sql db_error user_request)) w).
Proof.
  intros H. unfold fix_sql, try_except, bind, chat_content. rewrite H.
  rewrite first_word_clean. unfold verdict.
  destruct (negb (PyStr.mem (first_token (clean (PyStr.strip response))) STATEMENT_WORDS));
    reflexivity.
Qed.

End PipelineFacts.

(** ** run_sql *)

(** The seven things a call of [run_sql] can meet, each with its lemma. *)
Ltac run_sql_by_engine query w E :=
  destruct (engine_execute (db w) (PyStr.rstrip_semicolon (PyStr.strip query)))
    as [?e | ?e | [?description|] ?e ?working | ?e ?working
        | [?description|] ?rows ?working] eqn:E;
  [ rewrite (run_sql_connect_error _ _ _ E) in *
  | rewrite (run_sql_error _ _ _ E) in *
  | rewrite (run_sql_fetch_error _ _ _ _ _ E) in *
  | rewrite (run_sql_effect_unfetched _ _ _ _ E) in *
  | rewrite (run_sql_commit_error _ _ _ _ E) in *
  | rewrite (run_sql_rows _ _ _ _ _ E) in *
  | rewrite (run_sql_effect _ _ _ _ E) in * ].

Section RunSql.

Context {env : Environment}.

(** C2, as the code has it. [run_sql] gives the outcome Rows, that is
    [(df, None, "select")], exactly when the engine reports a description
    for the statement and fetching the rows succeeds, and [df] then holds
    all the rows under the described column names; when the description is
    there and fetching raises, the outcome is the Failure with the text of
    that exception; a described statement with no rows gives Rows with zero
    rows, which no Failure [(None, msg, None)] equals; when no description
    is reported the changes are committed (what the connection sees is the
    durable content and a commit is in the trace) and the outcome is Effect,
    [(None, None, "other")], unless the commit raises, and then it is the
    Failure with the text of that exception. *)
Theorem run_sql_rows_iff_fetched (query : string) (w : World) :
  ((exists df, fst (run_sql query w) = Returns (Some df, None, Some "select"))
   <-> (exists description rows working,
          engine_execute (db w) (PyStr.rstrip_semicolon (PyStr.strip query))
            = ExecOk (Some description) rows working))
  /\ (forall description rows working,
        engine_execute (db w) (PyStr.rstrip_semicolon (PyStr.strip query))
          = ExecOk (Some description) rows working ->
        fst (run_sql query w)
          = Returns (Some (Build_DataFrame rows (map col_name description)),
                     None, Some "select")
        /\ In ev_fetchall (trace (snd (run_sql query w))))
  /\ (forall description e working,
        engine_execute (db w) (PyStr.rstrip_semicolon (PyStr.strip query))
          = FetchError (Some description) e working ->
        fst (run_sql query w) = Returns (None, Some e, None)
        /\ In ev_fetchall (trace (snd (run_sql query w))))
  /\ (forall description working,
        engine_execute (db w) (PyStr.rstrip_semicolon (PyStr.strip query))
          = ExecOk (Some description) [] working ->
        exists df,
          fst (run_sql query w) = Returns (Some df, None, Some "select")
          /\ df_rows df = []
          /\ forall msg, fst (run_sql query w) <> Returns (None, Some msg, None))
  /\ (forall working,
        (exists rows,
            engine_execute (db w) (PyStr.rstrip_semicolon (PyStr.strip query))
              = ExecOk None rows working)
        \/ (exists e,
              engine_execute (db w) (PyStr.rstrip_semicolon (PyStr.strip query))
                = FetchError None e working) ->
        fst (run_sql query w) = Returns (None, None, Some "other")
        /\ db (snd (run_sql query w)) = working
        /\ In ev_commit (trace (snd (run_sql query w))))
  /\ (forall e working,
        engine_execute (db w) (PyStr.rstrip_semicolon (PyStr.strip query))
          = CommitError e working ->
        fst (run_sql query w) = Returns (None, Some e, None)
        /\ In ev_commit (trace (snd (run_sql query w)))).
Proof.
  split; [split|].
  - intros [df H]. run_sql_by_engine query w E; try discriminate H. eauto.
  - intros (description & rows & working & E).
    rewrite (run_sql_rows _ _ _ _ _ E). eexists; reflexivity.
  - split; [|split; [|split; [|split]]].
    + intros description rows working E. rewrite (run_sql_rows _ _ _ _ _ E).
      split; [reflexivity|]. cbn [snd trace]. apply in_or_app; right. simpl; tauto.
    + intros description e working E. rewrite (run_sql_fetch_error _ _ _ _ _ E).
      split; [reflexivity|]. cbn [snd trace]. apply in_or_app; right. simpl; tauto.
    + intros description working E. rewrite (run_sql_rows _ _ _ _ _ E).
      eexists; repeat split. discriminate.
    + intros working [[rows E] | [e E]];
        [rewrite (run_sql_effect _ _ _ _ E) | rewrite (run_sql_effect_unfetched _ _ _ _ E)];
        (split; [reflexivity|]); (split; [reflexivity|]);
        cbn [snd trace]; apply in_or_app; right; simpl; tauto.
    + intros e working E. rewrite (run_sql_commit_error _ _ _ _ E).
      split; [reflexivity|]. cbn [snd trace]. apply in_or_app; right. simpl; tauto.
Qed.

(** C4. When the engine raises on the statement, [run_sql] returns
    [(None, msg, None)] with [msg] the engine's diagnostic as it was given;
    and whatever the input and the engine do, [run_sql] returns: no
    exception leaves it. *)
Theorem run_sql_failure_verbatim (query : string) (w : World) :
  (forall msg,
      engine_execute (db w) (PyStr.rstrip_semicolon (PyStr.strip query)) = ExecError msg ->
      fst (run_sql query w) = Returns (None, Some msg, None))
  /\ (exists r, fst (run_sql query w) = Returns r).
Proof.
  split.
  - intros msg E. rewrite (run_sql_error _ _ _ E). reflexivity.
  - run_sql_by_engine query w E; eexists; reflexivity.
Qed.

(** On both paths that succeed the connection the call opened is closed
    (lines 94 and 99). *)
Lemma run_sql_success_closes (query : string) (w : World)
      (description : option (list ColumnInfo)) (rows : list (list Value)) (working : Store) :
  engine_execute (db w) (PyStr.rstrip_semicolon (PyStr.strip query))
    = ExecOk description rows working ->
  conns (snd (run_sql query w))
    = (conns w ++ [{| conn_open := false; conn_working := working |}])%list
  /\ In ev_close (trace (snd (run_sql query w))).
Proof.
  intros E. destruct description as [description|].
  - rewrite (run_sql_rows _ _ _ _ _ E). split; [reflexivity|].
    cbn [snd trace]. apply in_or_app; right. simpl; tauto.
  - rewrite (run_sql_effect _ _ _ _ E). split; [reflexivity|].
    cbn [snd trace]. apply in_or_app; right. simpl; tauto.
Qed.

(** On the path through [except] nothing closes it (line 103): the
    connection is still open when [run_sql] returns, and the call has added
    no close to the trace. *)
Lemma run_sql_error_leaves_open (query : string) (w : World) (msg : string) :
  engine_execute (db w) (PyStr.rstrip_semicolon (PyStr.strip query)) = ExecError msg ->
  conns (snd (run_sql query w))
    = (conns w ++ [{| conn_open := true; conn_working := db w |}])%list
  /\ trace (snd (run_sql query w))
     = (trace w ++ [ev_connect DB_PATH;
                    ev_execute (PyStr.rstrip_semicolon (PyStr.strip query))])%list.
Proof.
  intros E. rewrite (run_sql_error _ _ _ E). split; reflexivity.
Qed.

(** C7, as the code has it. [run_sql] takes the input without the white
    space around it and without any of its trailing semicolons: what was cut
    from the trimmed input is a run of semicolons and what is left does not
    end in one.  This is the only statement the call can execute; it is
    executed, once, when the connection is made, and nothing is executed
    when [connect] raises. *)
Theorem run_sql_strips_every_terminator (query : string) (w : World) :
  exists tail new,
    PyStr.strip query = PyStr.rstrip_semicolon (PyStr.strip query) ++ tail
    /\ PyStr.all_by PyStr.is_semicolon tail = true
    /\ PyStr.endswith (PyStr.rstrip_semicolon (PyStr.strip query)) ";" = false
    /\ trace (snd (run_sql query w)) = (trace w ++ ev_connect DB_PATH :: new)%list
    /\ (forall sql, In (ev_execute sql) new ->
                    sql = PyStr.rstrip_semicolon (PyStr.strip query))
    /\ (engine_connect (db w) = None ->
        exists rest,
          new = ev_execute (PyStr.rstrip_semicolon (PyStr.strip query)) :: rest
          /\ count is_execute rest = 0)
    /\ (engine_connect (db w) <> None -> new = []).
Proof.
  destruct (PyStrFacts.rstrip_by_tail PyStr.is_semicolon (PyStr.strip query))
    as (tail & Ht & Hall).
  exists tail.
  assert (Hone : forall sql rest,
             count is_execute rest = 0 ->
             In (ev_execute sql)
                (ev_execute (PyStr.rstrip_semicolon (PyStr.strip query)) :: rest) ->
             sql = PyStr.rstrip_semicolon (PyStr.strip query)).
  { intros sql rest Hc [H|H]; [congruence|].
    exfalso. unfold count in Hc.
    assert (Hin : In (ev_execute sql) (filter is_execute rest))
      by (apply filter_In; split; [exact H | reflexivity]).
    destruct (filter is_execute rest); [destruct Hin | discriminate]. }
  assert (Hran : forall rest : list Event,
             count is_execute rest = 0 ->
             engine_connect (db w) = None ->
             (forall sql,
                 In (ev_execute sql)
                    (ev_execute (PyStr.rstrip_semicolon (PyStr.strip query)) :: rest) ->
                 sql = PyStr.rstrip_semicolon (PyStr.strip query))
             /\ (engine_connect (db w) = None ->
                 exists rest',
                   ev_execute (PyStr.rstrip_semicolon (PyStr.strip query)) :: rest
                   = ev_execute (PyStr.rstrip_semicolon (PyStr.strip query)) :: rest'
                   /\ count is_execute rest' = 0)
             /\ (engine_connect (db w) <> None ->
                 ev_execute (PyStr.rstrip_semicolon (PyStr.strip query)) :: rest = [])).
  { intros rest Hc Hn. split; [intros sql; apply Hone; exact Hc|].
    split; [intros _; exists rest; split; [reflexivity | exact Hc] | congruence]. }
  run_sql_by_engine query w E; cbn [snd trace]; eexists;
    (split; [exact Ht|]); (split; [exact Hall|]);
    (split; [apply PyStrFacts.rstrip_semicolon_end|]); (split; [reflexivity|]).
  - apply engine_execute_connect in E. split; [intros sql []|].
    split; [congruence | reflexivity].
  - apply engine_execute_error in E as [Hc _]. apply Hran; [reflexivity | exact Hc].
  - apply engine_execute_fetch in E as (Hc & _). apply Hran; [reflexivity | exact Hc].
  - apply engine_execute_fetch in E as (Hc & _). apply Hran; [reflexivity | exact Hc].
  - apply engine_execute_commit in E as (Hc & _). apply Hran; [reflexivity | exact Hc].
  - apply engine_execute_ok in E as (Hc & _). apply Hran; [reflexivity | exact Hc].
  - apply engine_execute_ok in E as (Hc & _). apply Hran; [reflexivity | exact Hc].
Qed.

(** C10, as the code has it. For a statement with a description whose rows
    are fetched, [run_sql] fetches and closes and does not commit: the trace
    gains connect, execute, fetchall and close, and the connection is
    closed.  When sqlite3 opened a transaction for the statement its changes
    are lost with it and the durable content of the database is what it was;
    when it did not, the changes were durable as soon as the statement had
    run, and the durable content is what the statement left. *)
Theorem run_sql_row_path_never_commits (query : string) (w : World)
        (description : list ColumnInfo) (rows : list (list Value)) (working : Store) :
  engine_execute (db w) (PyStr.rstrip_semicolon (PyStr.strip query))
    = ExecOk (Some description) rows working ->
  trace (snd (run_sql query w))
    = (trace w ++ [ev_connect DB_PATH;
                   ev_execute (PyStr.rstrip_semicolon (PyStr.strip query));
                   ev_fetchall; ev_close])%list
  /\ count is_commit [ev_connect DB_PATH;
                      ev_execute (PyStr.rstrip_semicolon (PyStr.strip query));
                      ev_fetchall; ev_close] = 0
  /\ conns (snd (run_sql query w))
     = (conns w ++ [{| conn_open := false; conn_working := working |}])%list
  /\ (begins_transaction (PyStr.rstrip_semicolon (PyStr.strip query)) = true ->
      db (snd (run_sql query w)) = db w)
  /\ (begins_transaction (PyStr.rstrip_semicolon (PyStr.strip query)) = false ->
      db (snd (run_sql query w)) = working).
Proof.
  intros E. rewrite (run_sql_rows _ _ _ _ _ E). cbn [snd trace conns db].
  unfold uncommitted. repeat split; intros ->; reflexivity.
Qed.

(** *** More on run_sql *)

(** X1. The triple [run_sql] returns has one of the three shapes its
    docstring names (lines 75 to 80) and no other: a frame with kind
    "select" and no error, no frame with kind "other" and no error, or an
    error with neither frame nor kind. *)
Theorem run_sql_result_shapes (query : string) (w : World) :
  (exists df, fst (run_sql query w) = Returns (Some df, None, Some "select"))
  \/ fst (run_sql query w) = Returns (None, None, Some "other")
  \/ (exists e, fst (run_sql query w) = Returns (None, Some e, None)).
Proof.
  run_sql_by_engine query w E;
    solve [left; eexists; reflexivity | right; left; reflexivity
          | right; right; eexists; reflexivity].
Qed.

(** X2. A call of [run_sql] tries one connection.  When [connect]
    succeeds it opens one connection, after those already made and leaving
    them as they were, and executes one statement; when [connect] raises it
    opens none and executes nothing.  Either way it does not call the model
    and leaves the screen and the history alone. *)
Theorem run_sql_touches_database_only (query : string) (w : World) :
  exists made new,
    conns (snd (run_sql query w)) = (conns w ++ made)%list
    /\ trace (snd (run_sql query w)) = (trace w ++ ev_connect DB_PATH :: new)%list
    /\ count is_chat new = 0
    /\ screen (snd (run_sql query w)) = screen w
    /\ messages (snd (run_sql query w)) = messages w
    /\ (engine_connect (db w) = None -> length made = 1 /\ count is_execute new = 1)
    /\ (engine_connect (db w) <> None -> made = [] /\ new = []).
Proof.
  run_sql_by_engine query w E; cbn [snd conns trace screen messages].
  - apply engine_execute_connect in E. exists [], [].
    rewrite app_nil_r. repeat split; congruence.
  - apply engine_execute_error in E as [Hc _]. eexists [_], _.
    repeat split; congruence.
  - apply engine_execute_fetch in E as (Hc & _). eexists [_], _.
    repeat split; congruence.
  - apply engine_execute_fetch in E as (Hc & _). eexists [_], _.
    repeat split; congruence.
  - apply engine_execute_commit in E as (Hc & _). eexists [_], _.
    repeat split; congruence.
  - apply engine_execute_ok in E as (Hc & _). eexists [_], _.
    repeat split; congruence.
  - apply engine_execute_ok in E as (Hc & _). eexists [_], _.
    repeat split; congruence.
Qed.

(** X4. When the engine accepts the statement, with or without rows,
    [run_sql] leaves no connection open that was not open before: if all
    connections were closed when it was called, all are closed when it
    returns. *)
Theorem run_sql_success_leaves_all_closed (query : string) (w : World)
        (description : option (list ColumnInfo)) (rows : list (list Value)) (working : Store) :
  engine_execute (db w) (PyStr.rstrip_semicolon (PyStr.strip query))
    = ExecOk description rows working ->
  all_closed w = true ->
  all_closed (snd (run_sql query w)) = true.
Proof.
  intros E Hc. unfold all_closed in *.
  destruct (run_sql_success_closes _ _ _ _ _ E) as [-> _].
  rewrite forallb_app, Hc. reflexivity.
Qed.

(** X25. A failure of [connect], of [fetchall] or of [commit] is returned
    like a failure of [execute], as [(None, msg, None)] with the text of the
    exception.  After a failed [connect] nothing else was tried: there is no
    new connection and the trace gains the connect alone.  After a failed
    [fetchall] or [commit] the connection that ran the statement is left
    open: no close was made. *)
Theorem run_sql_returns_other_failures (query : string) (w : World) :
  (forall e,
      engine_connect (db w) = Some e ->
      run_sql query w
      = (Returns (None, Some e, None),
         {| db := db w; conns := conns w; trace := trace w ++ [ev_connect DB_PATH];
            screen := screen w; messages := messages w |}))
  /\ (forall description e working,
        engine_execute (db w) (PyStr.rstrip_semicolon (PyStr.strip query))
          = FetchError (Some description) e working ->
        fst (run_sql query w) = Returns (None, Some e, None)
        /\ conns (snd (run_sql query w))
           = (conns w ++ [{| conn_open := true; conn_working := working |}])%list
        /\ trace (snd (run_sql query w))
           = (trace w ++ [ev_connect DB_PATH;
                          ev_execute (PyStr.rstrip_semicolon (PyStr.strip query));
                          ev_fetchall])%list)
  /\ (forall e working,
        engine_execute (db w) (PyStr.rstrip_semicolon (PyStr.strip query))
          = CommitError e working ->
        fst (run_sql query w) = Returns (None, Some e, None)
        /\ conns (snd (run_sql query w))
           = (conns w ++ [{| conn_open := true; conn_working := working |}])%list
        /\ trace (snd (run_sql query w))
           = (trace w ++ [ev_connect DB_PATH;
                          ev_execute (PyStr.rstrip_semicolon (PyStr.strip query));
                          ev_commit])%list).
Proof.
  split; [|split].
  - intros e H. apply run_sql_connect_error.
    apply engine_execute_connect. exact H.
  - intros description e working E. rewrite (run_sql_fetch_error _ _ _ _ _ E).
    repeat split.
  - intros e working E. rewrite (run_sql_commit_error _ _ _ _ E).
    repeat split.
Qed.

End RunSql.

(** ** nl_to_sql *)

Section NlToSql.

Context {env : Environment}.

(** C9. For a request that is empty or white space from end to end (any of
    the characters Python takes for white space, those above 127 included)
    [nl_to_sql] returns the error asking for a question, and leaves the world
    as it found it: nothing is added to the trace, so the model is not
    called. *)
Theorem nl_to_sql_blank_request (text : string) (w : World) :
  PyStr.all_space text = true ->
  nl_to_sql text w = (Returns (None, Some "Please type a question or command."), w)
  /\ count is_chat (trace (snd (nl_to_sql text w))) = count is_chat (trace w).
Proof.
  intros H. apply PyStrFacts.strip_empty in H.
  rewrite (nl_to_sql_blank _ _ H). split; reflexivity.
Qed.

(** [nl_to_sql] returns whatever the request and whatever the model does. *)
Lemma nl_to_sql_returns (text : string) (w : World) :
  exists r, fst (nl_to_sql text w) = Returns r.
Proof.
  destruct (string_dec (PyStr.strip text) "") as [Hb|Hn].
  - rewrite (nl_to_sql_blank _ _ Hb). eexists; reflexivity.
  - destruct (ollama_chat "mistral" (generation_messages (PyStr.strip text))) as [a|e] eqn:E.
    + rewrite (nl_to_sql_answers _ _ _ Hn E). eexists; reflexivity.
    + rewrite (nl_to_sql_raises _ _ _ Hn E). eexists; reflexivity.
Qed.

(** C3, as the code has it. [nl_to_sql] never raises.  When the model
    answers a request that is not blank, the result is the cleaned text
    exactly when the first word of the cleaned text, in lower case, is one of
    the eight statement words; otherwise, and so when the cleaned text is
    empty, the result is the error whose message ends with the cleaned text
    (not with the completion as the model gave it). *)
Theorem nl_to_sql_checks_first_word (text : string) (w : World) :
  (exists r, fst (nl_to_sql text w) = Returns r)
  /\ (forall response,
        PyStr.strip text <> "" ->
        ollama_chat "mistral" (generation_messages (PyStr.strip text)) = Returns response ->
        (fst (nl_to_sql text w) = Returns (Some (clean (PyStr.strip response)), None)
         <-> PyStr.mem (first_token (clean (PyStr.strip response))) STATEMENT_WORDS = true)
        /\ (PyStr.mem (first_token (clean (PyStr.strip response))) STATEMENT_WORDS = false ->
            fst (nl_to_sql text w)
              = Returns (None,
                         Some ("Model did not return a valid SQL statement. It returned:"
                               ++ nl ++ clean (PyStr.strip response))))
        /\ (clean (PyStr.strip response) = "" ->
            fst (nl_to_sql text w)
              = Returns (None,
                         Some ("Model did not return a valid SQL statement. It returned:"
                               ++ nl))
            )).
Proof.
  split; [apply nl_to_sql_returns|].
  intros response Hn E.
  rewrite (nl_to_sql_answers _ _ _ Hn E). cbn [fst]. unfold verdict.
  repeat split.
  - destruct (PyStr.mem (first_token (clean (PyStr.strip response))) STATEMENT_WORDS);
      [reflexivity | discriminate].
  - intros ->. reflexivity.
  - intros ->. reflexivity.
  - intros ->. reflexivity.
Qed.

(** C6. When the completion has a fence and the pieces between fences that
    hold a statement keyword are [p :: rest], the text left at line 156 is
    [p] without its surrounding white space: the one such piece when [rest]
    is empty, the first of them otherwise.  [p] is one of the pieces cut at
    the fences, no fence is left in it or in the text, and the statement
    checked afterwards is this text less one final semicolon. *)
Theorem unfence_takes_first_keyword_piece (raw p : string) (rest : list string) :
  PyStr.contains "```" raw = true ->
  filter has_sql_keyword (PyStr.split "```" raw) = p :: rest ->
  unfenced_sql raw = PyStr.strip p
  /\ In p (PyStr.split "```" raw)
  /\ has_sql_keyword p = true
  /\ PyStr.contains "```" p = false
  /\ PyStr.contains "```" (unfenced_sql raw) = false
  /\ clean raw = drop_semicolon (PyStr.strip p).
Proof.
  intros Hf Hp.
  assert (Hin : In p (filter has_sql_keyword (PyStr.split "```" raw)))
    by (rewrite Hp; left; reflexivity).
  apply filter_In in Hin as [Hin Hk].
  assert (Hu : unfenced_sql raw = PyStr.strip p).
  { unfold unfenced_sql, unfence, candidates. rewrite Hf, Hp. cbn [map].
    apply PyStrFacts.strip_idem. }
  assert (Hno : PyStr.contains "```" p = false)
    by (apply (PyStrFacts.split_pieces "```" raw p); [discriminate | exact Hin]).
  repeat split; auto.
  - rewrite Hu. apply PyStrFacts.contains_strip. exact Hno.
  - unfold clean. rewrite Hu. reflexivity.
Qed.

End NlToSql.

(** ** More on nl_to_sql and fix_sql *)

Module PyStrMoreFacts.
Import PyStr.

Lemma lower_app (a b : string) : lower (a ++ b) = lower a ++ lower b.
Proof. induction a as [|c a IH]; simpl; [reflexivity | rewrite IH; reflexivity]. Qed.

Lemma prefix_self_app (a b : string) : String.prefix a (a ++ b) = true.
Proof.
  induction a as [|c a IH]; simpl.
  - destruct b; reflexivity.
  - destruct (ascii_dec c c); [exact IH | congruence].
Qed.

Lemma contains_prefix (sub s : string) :
  String.prefix sub s = true -> contains sub s = true.
Proof. intros H. destruct s; cbn [contains]; rewrite H; reflexivity. Qed.

Lemma contains_app_r (sub pre s : string) :
  contains sub s = true -> contains sub (pre ++ s) = true.
Proof.
  intros H. induction pre as [|c pre IH]; [exact H|].
  change (String c pre ++ s) with (String c (pre ++ s)).
  cbn [contains]. rewrite IH.
  destruct (String.prefix sub (String c (pre ++ s))); reflexivity.
Qed.

(** A text put between two others occurs in the whole. *)
Lemma contains_middle (sub pre post : string) :
  contains sub (pre ++ sub ++ post) = true.
Proof. apply contains_app_r, contains_prefix, prefix_self_app. Qed.

Lemma mem_In (x : string) (xs : list string) : mem x xs = true -> In x xs.
Proof.
  unfold mem. intros H. apply existsb_exists in H as (y & Hy & E).
  apply String.eqb_eq in E. subst. exact Hy.
Qed.

End PyStrMoreFacts.

Section Generation.

Context {env : Environment}.

Arguments generation_messages : simpl never.
Arguments fix_messages : simpl never.

(** What passing the check of lines 163 and 164 says of a cleaned text. *)
Lemma accepted_text (raw : string) :
  PyStr.mem (first_token (clean raw)) STATEMENT_WORDS = true ->
  clean raw <> ""
  /\ (forall c r, clean raw = String c r -> PyStr.isspace c = false)
  /\ (exists kw, In kw STATEMENT_WORDS
                 /\ String.prefix kw (PyStr.lower (clean raw)) = true)
  /\ PyStr.space_len (clean raw) = 0.
Proof.
  intros H. unfold first_token in H.
  destruct (PyStr.split_ws (clean raw)) as [|t l] eqn:Es;
    [vm_compute in H; discriminate|].
  destruct (PyStrFacts.split_ws_first _ _ _ (clean_start raw) Es) as [rest Hr].
  split; [intros E; rewrite E in Es; discriminate|].
  split; [intros c r; apply clean_head|].
  split; [|apply clean_start].
  exists (PyStr.lower t). split; [apply PyStrMoreFacts.mem_In; exact H|].
  rewrite Hr, PyStrMoreFacts.lower_app. apply PyStrMoreFacts.prefix_self_app.
Qed.

Lemma verdict_accepts (complaint sql s : string) :
  verdict complaint sql = (Some s, None) ->
  s = sql /\ PyStr.mem (first_token sql) STATEMENT_WORDS = true.
Proof.
  unfold verdict.
  destruct (PyStr.mem (first_token sql) STATEMENT_WORDS); cbn [negb];
    intros H; [injection H as <-; split; reflexivity | discriminate].
Qed.

(** X5. A statement that [nl_to_sql] or [fix_sql] returns is not empty,
    does not start with white space (with none of the ten ASCII characters,
    and with no white space above 127 either) and, put in lower case, starts
    with one of the eight statement words. *)
Theorem returned_statement_starts_with_keyword (text original_sql db_error : string)
        (w : World) (sql : string) :
  fst (nl_to_sql text w) = Returns (Some sql, None)
  \/ fst (fix_sql original_sql db_error text w) = Returns (Some sql, None) ->
  sql <> ""
  /\ (forall c r, sql = String c r -> PyStr.isspace c = false)
  /\ (exists kw, In kw STATEMENT_WORDS /\ String.prefix kw (PyStr.lower sql) = true)
  /\ PyStr.space_len sql = 0.
Proof.
  intros [H|H].
  - destruct (string_dec (PyStr.strip text) "") as [Hb|Hn].
    + rewrite (nl_to_sql_blank _ _ Hb) in H. discriminate.
    + destruct (ollama_chat "mistral" (generation_messages (PyStr.strip text)))
        as [a|e] eqn:E.
      * rewrite (nl_to_sql_answers _ _ _ Hn E) in H. cbn [fst] in H.
        injection H as H. apply verdict_accepts in H as [-> H].
        apply accepted_text. exact H.
      * rewrite (nl_to_sql_raises _ _ _ Hn E) in H. discriminate.
  - destruct (ollama_chat "mistral" (fix_messages original_sql db_error text))
      as [a|e] eqn:E.
    + rewrite (fix_sql_answers _ _ _ _ _ E) in H. cbn [fst] in H.
      injection H as H. apply verdict_accepts in H as [-> H].
      apply accepted_text. exact H.
    + rewrite (fix_sql_raises _ _ _ _ _ E) in H. discriminate.
Qed.

(** X6. For a request that is not blank [nl_to_sql] calls the model once,
    with a user message that holds the schema description and the request
    without its surrounding white space, and changes nothing else in the
    world. *)
Theorem nl_to_sql_asks_once (text : string) (w : World) :
  PyStr.strip text <> "" ->
  exists system user,
    trace (snd (nl_to_sql text w)) = (trace w ++ [ev_chat "mistral" [system; user]])%list
    /\ role system = "system" /\ role user = "user"
    /\ PyStr.contains SCHEMA_DESCRIPTION (content user) = true
    /\ PyStr.contains (PyStr.strip text) (content user) = true
    /\ db (snd (nl_to_sql text w)) = db w
    /\ conns (snd (nl_to_sql text w)) = conns w
    /\ screen (snd (nl_to_sql text w)) = screen w
    /\ messages (snd (nl_to_sql text w)) = messages w.
Proof.
  intros Hn.
  assert (Hw : snd (nl_to_sql text w)
               = log (ev_chat "mistral" (generation_messages (PyStr.strip text))) w).
  { destruct (ollama_chat "mistral" (generation_messages (PyStr.strip text)))
      as [a|e] eqn:E.
    - rewrite (nl_to_sql_answers _ _ _ Hn E). reflexivity.
    - rewrite (nl_to_sql_raises _ _ _ Hn E). reflexivity. }
  rewrite Hw. unfold generation_messages.
  eexists _, _. split; [reflexivity|]. cbn [role content].
  split; [reflexivity|]. split; [reflexivity|]. split.
  { apply PyStrMoreFacts.contains_prefix, PyStrMoreFacts.prefix_self_app. }
  split.
  { rewrite <- PyStrFacts.append_assoc. apply PyStrMoreFacts.contains_middle. }
  repeat split.
Qed.

Lemma fix_sql_world (original_sql db_error user_request : string) (w : World) :
  snd (fix_sql original_sql db_error user_request w)
  = log (ev_chat "mistral" (fix_messages original_sql db_error user_request)) w.
Proof.
  destruct (ollama_chat "mistral" (fix_messages original_sql db_error user_request))
    as [a|e] eqn:E.
  - rewrite (fix_sql_answers _ _ _ _ _ E). reflexivity.
  - rewrite (fix_sql_raises _ _ _ _ _ E). reflexivity.
Qed.

(** X7. [fix_sql] has no guard on its arguments: whatever they are, empty
    included, it returns, having called the model exactly once and changed
    nothing else in the world; what it returns is a statement with no error
    or an error that is not empty with no statement. *)
Theorem fix_sql_asks_once (original_sql db_error user_request : string) (w : World) :
  exists r,
    fix_sql original_sql db_error user_request w
      = (Returns r,
         {| db := db w; conns := conns w;
            trace := trace w
                     ++ [ev_chat "mistral" (fix_messages original_sql db_error user_request)];
            screen := screen w; messages := messages w |})
    /\ sql_or_error r.
Proof.
  destruct (ollama_chat "mistral" (fix_messages original_sql db_error user_request))
    as [a|e] eqn:E.
  - rewrite (fix_sql_answers _ _ _ _ _ E). eexists. split; [reflexivity|].
    unfold sql_or_error, verdict.
    destruct (negb (PyStr.mem (first_token (clean (PyStr.strip a))) STATEMENT_WORDS)).
    + right. simpl. eauto.
    + left. eauto.
  - rewrite (fix_sql_raises _ _ _ _ _ E). eexists. split; [reflexivity|].
    right. simpl. eauto.
Qed.

(** X8. When the model answers, [fix_sql] applies the check of
    [nl_to_sql]: the result is the cleaned text exactly when its first word,
    in lower case, is one of the eight statement words, and otherwise the
    error that says the fixed SQL is not valid, ending with the cleaned
    text. *)
Theorem fix_sql_checks_first_word (original_sql db_error user_request : string)
        (w : World) (response : string) :
  ollama_chat "mistral" (fix_messages original_sql db_error user_request)
    = Returns response ->
  (fst (fix_sql original_sql db_error user_request w)
     = Returns (Some (clean (PyStr.strip response)), None)
   <-> PyStr.mem (first_token (clean (PyStr.strip response))) STATEMENT_WORDS = true)
  /\ (PyStr.mem (first_token (clean (PyStr.strip response))) STATEMENT_WORDS = false ->
      fst (fix_sql original_sql db_error user_request w)
        = Returns (None,
                   Some ("Fixed SQL is not a valid statement. It returned:"
                         ++ nl ++ clean (PyStr.strip response)))).
Proof.
  intros E. rewrite (fix_sql_answers _ _ _ _ _ E). cbn [fst]. unfold verdict.
  repeat split.
  - destruct (PyStr.mem (first_token (clean (PyStr.strip response))) STATEMENT_WORDS);
      [reflexivity | discriminate].
  - intros ->. reflexivity.
  - intros ->. reflexivity.
Qed.

(** X9. When the call to the model raises, the exception does not leave
    the function: [nl_to_sql] (on a request that is not blank) returns the
    error that starts with "Error from LLM: " and [fix_sql] the one that
    starts with "Error from LLM during fix: ", each followed by the text of
    the exception. *)
Theorem model_failure_is_returned (text original_sql db_error : string) (w : World)
        (e : string) :
  (PyStr.strip text <> "" ->
   ollama_chat "mistral" (generation_messages (PyStr.strip text)) = Raises e ->
   fst (nl_to_sql text w) = Returns (None, Some ("Error from LLM: " ++ e)))
  /\ (ollama_chat "mistral" (fix_messages original_sql db_error text) = Raises e ->
      fst (fix_sql original_sql db_error text w)
        = Returns (None, Some ("Error from LLM during fix: " ++ e))).
Proof.
  split.
  - intros Hn E. rewrite (nl_to_sql_raises _ _ _ Hn E). reflexivity.
  - intros E. rewrite (fix_sql_raises _ _ _ _ _ E). reflexivity.
Qed.

(** X10. The message [fix_sql] sends to the model holds, as they were
    given, the statement that failed, the error of the database and the
    request of the user, and the schema description. *)
Theorem fix_prompt_embeds_failure (original_sql db_error user_request : string) (w : World) :
  exists system user,
    trace (snd (fix_sql original_sql db_error user_request w))
      = (trace w ++ [ev_chat "mistral" [system; user]])%list
    /\ role system = "system" /\ role user = "user"
    /\ PyStr.contains original_sql (content user) = true
    /\ PyStr.contains db_error (content user) = true
    /\ PyStr.contains user_request (content user) = true
    /\ PyStr.contains SCHEMA_DESCRIPTION (content user) = true.
Proof.
  rewrite (fix_sql_world original_sql db_error user_request w).
  cbn [trace log logs]. unfold fix_messages.
  eexists _, _. split; [reflexivity|]. cbn [role content].
  split; [reflexivity|]. split; [reflexivity|].
  repeat split.
  - do 3 apply PyStrMoreFacts.contains_app_r.
    apply PyStrMoreFacts.contains_prefix, PyStrMoreFacts.prefix_self_app.
  - do 5 apply PyStrMoreFacts.contains_app_r.
    apply PyStrMoreFacts.contains_prefix, PyStrMoreFacts.prefix_self_app.
  - do 1 apply PyStrMoreFacts.contains_app_r.
    apply PyStrMoreFacts.contains_prefix, PyStrMoreFacts.prefix_self_app.
  - do 7 apply PyStrMoreFacts.contains_app_r.
    apply PyStrMoreFacts.contains_prefix, PyStrMoreFacts.prefix_self_app.
Qed.

(** X11. The cleaning of a completion removes one final semicolon and no
    more: when the text at line 156 ends in a semicolon it is the cleaned
    text followed by that semicolon, and otherwise it is the cleaned text. *)
Theorem clean_removes_one_semicolon (raw : string) :
  (PyStr.endswith (unfenced_sql raw) ";" = true -> unfenced_sql raw = clean raw ++ ";")
  /\ (PyStr.endswith (unfenced_sql raw) ";" = false -> clean raw = unfenced_sql raw).
Proof.
  unfold clean, drop_semicolon. split; intros H; rewrite H.
  - apply PyStrFacts.endswith_drop_last. exact H.
  - reflexivity.
Qed.

End Generation.

(** ** The chat part of main *)

Section Main.

Context {env : Environment}.

Arguments generation_messages : simpl never.
Arguments fix_messages : simpl never.

(** *** Stepping through a computation *)

Lemma post_ret {A : Type} (a : A) (w : World) (Q : A -> World -> Prop) :
  Q a w -> post (ret a) w Q.
Proof. intros H. exists a, w. split; [reflexivity | exact H]. Qed.

Lemma post_bind {A B : Type} (c : M A) (k : A -> M B) (w : World)
      (Q : B -> World -> Prop) :
  post c w (fun a w1 => post (k a) w1 Q) -> post (bind c k) w Q.
Proof.
  intros (a & w1 & Hc & b & w2 & Hk & HQ).
  exists b, w2. split; [|exact HQ].
  unfold bind. rewrite Hc. exact Hk.
Qed.

Lemma post_st (x : Widget Value) (w : World) (Q : unit -> World -> Prop) :
  Q tt (draw x w) -> post (st x) w Q.
Proof. intros H. exists tt, (draw x w). split; [reflexivity | exact H]. Qed.

Lemma post_messages_append (m : Message) (w : World) (Q : unit -> World -> Prop) :
  Q tt (remember m w) -> post (messages_append m) w Q.
Proof. intros H. exists tt, (remember m w). split; [reflexivity | exact H]. Qed.

Lemma verdict_shape (complaint sql : string) (c : ascii) (t : string) :
  complaint = String c t -> sql_or_error (verdict complaint sql).
Proof.
  intros ->. unfold verdict.
  destruct (negb (PyStr.mem (first_token sql) STATEMENT_WORDS)).
  - right. simpl. eauto.
  - left. eauto.
Qed.

(** [nl_to_sql]: the value does not depend on the world, and the world gains
    at most the one call to the model, which was made when a statement is
    returned. *)
Lemma nl_to_sql_cases (text : string) :
  exists r evs,
    (forall w, nl_to_sql text w = (Returns r, logs evs w))
    /\ sql_or_error r
    /\ (evs = [] \/ evs = [ev_chat "mistral" (generation_messages (PyStr.strip text))])
    /\ (forall sql, r = (Some sql, None) ->
        evs = [ev_chat "mistral" (generation_messages (PyStr.strip text))]).
Proof.
  destruct (string_dec (PyStr.strip text) "") as [Hb|Hn].
  - exists (None, Some "Please type a question or command."), [].
    repeat split.
    + intros w. rewrite (nl_to_sql_blank _ _ Hb).
      destruct w; unfold logs; cbn. rewrite app_nil_r. reflexivity.
    + right. simpl. eauto.
    + left; reflexivity.
    + discriminate.
  - destruct (ollama_chat "mistral" (generation_messages (PyStr.strip text))) as [a|e] eqn:E.
    + eexists _, _. repeat split.
      * intros w. apply (nl_to_sql_answers _ _ _ Hn E).
      * eapply verdict_shape. reflexivity.
      * right; reflexivity.
    + eexists _, _. repeat split.
      * intros w. apply (nl_to_sql_raises _ _ _ Hn E).
      * right. simpl. eauto.
      * right; reflexivity.
Qed.

Lemma fix_sql_cases (original_sql db_error user_request : string) :
  exists r,
    (forall w, fix_sql original_sql db_error user_request w
               = (Returns r,
                  logs [ev_chat "mistral" (fix_messages original_sql db_error user_request)] w))
    /\ sql_or_error r.
Proof.
  destruct (ollama_chat "mistral" (fix_messages original_sql db_error user_request))
    as [a|e] eqn:E.
  - eexists. split.
    + intros w. apply (fix_sql_answers _ _ _ _ _ E).
    + eapply verdict_shape. reflexivity.
  - eexists. split.
    + intros w. apply (fix_sql_raises _ _ _ _ _ E).
    + right. simpl. eauto.
Qed.

(** What [run_sql] returns, and the durable content it leaves, are decided
    by the durable content it starts from. *)
Lemma run_sql_result_db (query : string) (w1 w2 : World) :
  db w1 = db w2 ->
  fst (run_sql query w1) = fst (run_sql query w2)
  /\ db (snd (run_sql query w1)) = db (snd (run_sql query w2)).
Proof.
  intros Hdb.
  destruct (engine_execute (db w1) (PyStr.rstrip_semicolon (PyStr.strip query)))
    as [e | e | [description|] e working | e working | [description|] rows working] eqn:E;
    pose proof E as E'; rewrite Hdb in E'.
  - rewrite (run_sql_connect_error _ _ _ E), (run_sql_connect_error _ _ _ E').
    split; [reflexivity | exact Hdb].
  - rewrite (run_sql_error _ _ _ E), (run_sql_error _ _ _ E').
    split; [reflexivity | exact Hdb].
  - rewrite (run_sql_fetch_error _ _ _ _ _ E), (run_sql_fetch_error _ _ _ _ _ E').
    cbn [fst snd db]. rewrite Hdb. split; reflexivity.
  - rewrite (run_sql_effect_unfetched _ _ _ _ E), (run_sql_effect_unfetched _ _ _ _ E').
    split; reflexivity.
  - rewrite (run_sql_commit_error _ _ _ _ E), (run_sql_commit_error _ _ _ _ E').
    cbn [fst snd db]. rewrite Hdb. split; reflexivity.
  - rewrite (run_sql_rows _ _ _ _ _ E), (run_sql_rows _ _ _ _ _ E').
    cbn [fst snd db]. rewrite Hdb. split; reflexivity.
  - rewrite (run_sql_effect _ _ _ _ E), (run_sql_effect _ _ _ _ E').
    split; reflexivity.
Qed.

Lemma run_sql_cases (query : string) (w : World) :
  exists r d cs evs,
    run_sql query w
      = (Returns r,
         {| db := d; conns := cs; trace := trace w ++ evs; screen := screen w;
            messages := messages w |})
    /\ run_sql_outcome query w r d evs.
Proof.
  run_sql_by_engine query w E; eexists _, _, _, _; (split; [reflexivity|]);
    unfold run_sql_outcome, failed_run, left_uncommitted.
  - left. eexists. split; [reflexivity|]. split; [left; reflexivity | left; reflexivity].
  - left. eexists. split; [reflexivity|].
    split; [right; left; reflexivity | left; reflexivity].
  - left. eexists. split; [reflexivity|]. split; [right; right; left; reflexivity|].
    right. eexists. split; [simpl; tauto | reflexivity].
  - right; right. split; reflexivity.
  - left. eexists. split; [reflexivity|]. split; [right; right; right; reflexivity|].
    right. eexists. split; [simpl; tauto | reflexivity].
  - right; left. eexists. split; [reflexivity|]. split; [reflexivity|].
    right. eexists. split; [simpl; tauto | reflexivity].
  - right; right. split; reflexivity.
Qed.


(** *** Counting the calls in a trace *)

Lemma count_app (p : Event -> bool) (a b : list Event) :
  count p (a ++ b) = count p a + count p b.
Proof. unfold count. rewrite filter_app, length_app. reflexivity. Qed.

Lemma count_cons (p : Event -> bool) (e : Event) (t : list Event) :
  count p (e :: t) = (if p e then 1 else 0) + count p t.
Proof. unfold count. simpl. destruct (p e); reflexivity. Qed.

Lemma count_nil (p : Event -> bool) : count p [] = 0.
Proof. reflexivity. Qed.

Lemma generation_is_generation (model q : string) :
  is_generation (ev_chat model (generation_messages q)) = true.
Proof. reflexivity. Qed.

Lemma generation_is_not_repair (model q : string) :
  is_repair (ev_chat model (generation_messages q)) = false.
Proof. reflexivity. Qed.

Lemma fix_is_repair (model a b c : string) :
  is_repair (ev_chat model (fix_messages a b c)) = true.
Proof. reflexivity. Qed.

Lemma fix_is_not_generation (model a b c : string) :
  is_generation (ev_chat model (fix_messages a b c)) = false.
Proof. reflexivity. Qed.

(** *** Every path through the assistant block *)

Ltac step_nl text w :=
  let r := fresh "r" in
  let evs := fresh "evs" in
  let Hnl := fresh "Hnl" in
  let Hshape := fresh "Hshape" in
  let Hevs := fresh "Hevs" in
  let sql := fresh "sql" in
  let c := fresh "c" in
  let err := fresh "err" in
  let Hasked := fresh "Hasked" in
  destruct (nl_to_sql_cases text) as (r & evs & Hnl & Hshape & Hevs & Hasked);
  apply post_bind; exists r, (logs evs w); split; [apply Hnl|];
  destruct Hshape as [[sql ->] | (c & err & ->)];
  [rewrite (Hasked _ eq_refl) in *; clear Hevs Hasked | clear Hasked].

Ltac step_fix a b c w :=
  let r := fresh "r" in
  let Hfix := fresh "Hfix" in
  let Hshape := fresh "Hshape" in
  let fixed := fresh "fixed_sql" in
  let ch := fresh "c" in
  let err := fresh "fix_err" in
  destruct (fix_sql_cases a b c) as (r & Hfix & Hshape);
  apply post_bind; exists r, (logs [ev_chat "mistral" (fix_messages a b c)] w);
  split; [apply Hfix|];
  destruct Hshape as [[fixed ->] | (ch & err & ->)].

Ltac step_run q w :=
  let r := fresh "r" in
  let d := fresh "d" in
  let cs := fresh "cs" in
  let evs := fresh "evs" in
  let Hrun := fresh "Hrun" in
  let Hout := fresh "Hout" in
  let Hfail := fresh "Hfail" in
  let Hd := fresh "Hd" in
  let e := fresh "db_err" in
  let df := fresh "df" in
  destruct (run_sql_cases q w) as (r & d & cs & evs & Hrun & Hout);
  apply post_bind; eexists r, _; split; [exact Hrun|];
  destruct Hout as [(e & -> & Hfail & Hd) | [(df & -> & -> & Hd) | (-> & ->)]];
  [destruct e as [|? e] | | ].

Ltac wp_step :=
  change (is_select (Some "select")) with true;
  change (is_select (Some "other")) with false;
  change (is_select None) with false;
  cbn beta iota;
  lazymatch goal with
  | |- post (bind (st _) _) _ _ => apply post_bind, post_st
  | |- post (bind (messages_append _) _) _ _ => apply post_bind, post_messages_append
  | |- post (bind (expect_str (Some _)) _) _ _ => apply post_bind, post_ret
  | |- post (bind (nl_to_sql ?t) _) ?w _ => step_nl t w
  | |- post (bind (fix_sql ?a ?b ?c) _) ?w _ => step_fix a b c w
  | |- post (bind (run_sql ?q) _) ?w _ => step_run q w
  | |- post (bind (ret _) _) _ _ => apply post_bind, post_ret
  | |- post (st _) _ _ => apply post_st
  | |- post (messages_append _) _ _ => apply post_messages_append
  | |- post (ret _) _ _ => apply post_ret
  | |- post (if none_or_empty (Some ?d) then _ else _) _ _ =>
      destruct (none_or_empty (Some d))
  end.

Ltac wp := unfold main_assistant_block; repeat wp_step; cbn beta.

Ltac trace_norm :=
  cbn [trace screen messages db conns remember draw logs log set_conns set_db];
  rewrite <- ?app_assoc; cbn [app].

Ltac failed_runs :=
  repeat match goal with
         | H : failed_run _ _ |- _ => destruct H as [-> | [-> | [-> | ->]]]
         end;
  cbn [app].

(** Whether the model was asked, on the paths where no statement came. *)
Ltac asked_or_not :=
  try match goal with
      | H : _ = [] \/ _ = [_] |- _ => destruct H as [-> | ->]
      end.

Ltac count_calls :=
  rewrite ?count_app, ?count_cons, ?count_nil,
          ?generation_is_generation, ?generation_is_not_repair,
          ?fix_is_repair, ?fix_is_not_generation;
  cbn [is_generation is_repair is_execute is_chat is_commit chat_with Nat.add];
  lia.

(** The assistant block returns, and in it the model is asked at most once
    for a statement and at most once for a repair, and at most two statements
    are executed. *)
Lemma main_call_budget (text : string) (w : World) :
  post (main_assistant_block text) w (fun _ w' =>
    exists new, trace w' = (trace w ++ new)%list
      /\ count is_generation new <= 1
      /\ count is_repair new <= 1
      /\ count is_execute new <= 2
      /\ count is_chat new <= 2
      /\ count is_commit new <= count is_execute new).
Proof.
  wp.
  all: trace_norm; eexists; (split; [reflexivity|]).
  all: asked_or_not; failed_runs.
  all: repeat split; count_calls.
Qed.

(** X26. In one pass of the assistant block, whatever the model and the
    engine do, the model is asked at most once for a statement and at most
    once for a repair, and at most two statements are executed, each
    followed by at most one commit: after a second failure nothing is tried
    again. *)
Theorem turn_call_budget (text : string) (w : World) :
  exists w' new,
    main_assistant_block text w = (Returns tt, w')
    /\ trace w' = (trace w ++ new)%list
    /\ count is_generation new <= 1
    /\ count is_repair new <= 1
    /\ count is_execute new <= 2
    /\ count is_chat new <= 2
    /\ count is_commit new <= count is_execute new.
Proof.
  destruct (main_call_budget text w) as ([] & w' & Hrun & new & H).
  exists w', new. split; [exact Hrun | exact H].
Qed.

(** *** From a result back to what the environment did *)

Lemma nl_to_sql_generated (text : string) (w : World) (sql : string) :
  fst (nl_to_sql text w) = Returns (Some sql, None) ->
  forall w1, nl_to_sql text w1
             = (Returns (Some sql, None),
                log (ev_chat "mistral" (generation_messages (PyStr.strip text))) w1).
Proof.
  intros H w1.
  destruct (string_dec (PyStr.strip text) "") as [Hb|Hn].
  - rewrite (nl_to_sql_blank _ _ Hb) in H. discriminate.
  - destruct (ollama_chat "mistral" (generation_messages (PyStr.strip text))) as [a|e] eqn:E.
    + rewrite (nl_to_sql_answers _ _ _ Hn E) in H. cbn [fst] in H.
      rewrite (nl_to_sql_answers _ _ _ Hn E). congruence.
    + rewrite (nl_to_sql_raises _ _ _ Hn E) in H. discriminate.
Qed.

Lemma fix_sql_repaired (original_sql db_error user_request : string) (w : World)
      (fixed : string) :
  fst (fix_sql original_sql db_error user_request w) = Returns (Some fixed, None) ->
  forall w1, fix_sql original_sql db_error user_request w1
             = (Returns (Some fixed, None),
                log (ev_chat "mistral" (fix_messages original_sql db_error user_request)) w1).
Proof.
  intros H w1.
  destruct (ollama_chat "mistral" (fix_messages original_sql db_error user_request))
    as [a|e] eqn:E.
  - rewrite (fix_sql_answers _ _ _ _ _ E) in H. cbn [fst] in H.
    rewrite (fix_sql_answers _ _ _ _ _ E). congruence.
  - rewrite (fix_sql_raises _ _ _ _ _ E) in H. discriminate.
Qed.

(** *** What is drawn and what is recorded *)

Ltac use_generated :=
  match goal with
  | Hnl : forall w, nl_to_sql ?t w = _, H : fst (nl_to_sql ?t _) = _ |- _ =>
      rewrite Hnl in H; cbn [fst] in H; inversion H; subst; clear H
  end.

Ltac use_failed w :=
  match goal with
  | Hr : run_sql ?q ?W = _, H : fst (run_sql ?q w) = _ |- _ =>
      let Hdb := fresh "Hdb" in
      pose proof (proj1 (run_sql_result_db q W w eq_refl)) as Hdb;
      rewrite Hr, H in Hdb; cbn [fst] in Hdb; inversion Hdb; subst; clear Hdb
  end.

Ltac use_repaired :=
  match goal with
  | Hf : forall w, fix_sql ?a ?b ?c w = _, H : fst (fix_sql ?a ?b ?c _) = _ |- _ =>
      rewrite Hf in H; cbn [fst] in H; inversion H; subst; clear H
  end.

(** The second execution starts from the durable content the first one
    left. *)
Ltac use_failed_again w :=
  match goal with
  | Hr1 : run_sql ?q1 ?W1 = _, Hr2 : run_sql ?q2 ?W2 = _,
    H : fst (run_sql ?q2 (snd (run_sql ?q1 w))) = _ |- _ =>
      let Hd := fresh "Hd" in
      let Hdb := fresh "Hdb" in
      pose proof (proj2 (run_sql_result_db q1 W1 w eq_refl)) as Hd;
      rewrite Hr1 in Hd; cbn [snd db] in Hd;
      pose proof (proj1 (run_sql_result_db q2 W2 (snd (run_sql q1 w)) Hd)) as Hdb;
      rewrite Hr2, H in Hdb; cbn [fst] in Hdb; inversion Hdb; subst; clear Hdb
  end.

Lemma main_screen_and_history (text : string) (w : World) :
  post (main_assistant_block text) w (fun _ w' =>
    exists shown entry,
      screen w' = (screen w ++ shown)%list
      /\ messages w' = (messages w ++ [{| role := "assistant"; content := entry |}])%list
      /\ (forall sql, fst (nl_to_sql text w) = Returns (Some sql, None) ->
          In (st_code sql "sql") shown)
      /\ (forall sql e fixed,
            fst (nl_to_sql text w) = Returns (Some sql, None) ->
            fst (run_sql sql w) = Returns (None, Some e, None) ->
            e <> "" ->
            fst (fix_sql sql e text w) = Returns (Some fixed, None) ->
            In (st_code fixed "sql") shown)
      /\ (forall err, fst (nl_to_sql text w) = Returns (None, Some err) ->
          shown = [st_chat_message "assistant"; st_error err]
          /\ entry = "❌ " ++ err)
      /\ (forall sql e ferr,
            fst (nl_to_sql text w) = Returns (Some sql, None) ->
            fst (run_sql sql w) = Returns (None, Some e, None) ->
            e <> "" ->
            fst (fix_sql sql e text w) = Returns (None, Some ferr) ->
            entry = "❌ DB error: " ++ e ++ nl ++ nl ++ "And fix also failed: " ++ ferr)
      /\ (forall sql e fixed e2,
            fst (nl_to_sql text w) = Returns (Some sql, None) ->
            fst (run_sql sql w) = Returns (None, Some e, None) ->
            e <> "" ->
            fst (fix_sql sql e text w) = Returns (Some fixed, None) ->
            fst (run_sql fixed (snd (run_sql sql w))) = Returns (None, Some e2, None) ->
            e2 <> "" ->
            entry = "❌ DB error after fix: " ++ e2)
      /\ (In entry STATUS_LINES
          \/ (exists err, entry = "❌ " ++ err)
          \/ (exists e ferr,
                entry = "❌ DB error: " ++ e ++ nl ++ nl ++ "And fix also failed: " ++ ferr)
          \/ (exists e2, entry = "❌ DB error after fix: " ++ e2))).
Proof.
  wp.
  all: trace_norm; eexists _, _; (split; [reflexivity|]); (split; [reflexivity|]).
  all: split; [intros sql0 H; use_generated; simpl; auto 12|].
  all: split;
    [intros sql0 e fixed H1 H2 He H3; use_generated; try use_failed w;
     try congruence; try use_repaired; simpl; auto 12|].
  all: split; [intros err0 H; use_generated; split; reflexivity|].
  all: split;
    [intros sql0 e ferr H1 H2 He H3; use_generated; try use_failed w;
     try congruence; try use_repaired; reflexivity|].
  all: split;
    [intros sql0 e fixed e2 H1 H2 He H3 H4 He2; use_generated; try use_failed w;
     try congruence; try use_repaired; try use_failed_again w;
     try congruence; reflexivity|].
  all: first [solve [left; simpl; auto 12]
             | solve [right; left; eexists; reflexivity]
             | solve [right; right; left; eexists _, _; reflexivity]
             | right; right; right; eexists; reflexivity].
Qed.


(** *** The path on which both executions fail *)

Lemma main_double_failure (text : string) (w : World) :
  post (main_assistant_block text) w (fun _ w' =>
    forall sql e1 fixed e2,
      fst (nl_to_sql text w) = Returns (Some sql, None) ->
      fst (run_sql sql w) = Returns (None, Some e1, None) ->
      e1 <> "" ->
      fst (fix_sql sql e1 text w) = Returns (Some fixed, None) ->
      fst (run_sql fixed (snd (run_sql sql w))) = Returns (None, Some e2, None) ->
      e2 <> "" ->
      (exists first second,
          trace w'
          = (trace w
             ++ ev_chat "mistral" (generation_messages (PyStr.strip text))
             :: first
             ++ ev_chat "mistral" (fix_messages sql e1 text)
             :: second)%list
          /\ failed_run (PyStr.rstrip_semicolon (PyStr.strip sql)) first
          /\ failed_run (PyStr.rstrip_semicolon (PyStr.strip fixed)) second)
      /\ messages w'
         = (messages w ++
            [{| role := "assistant"; content := "❌ DB error after fix: " ++ e2 |}])%list
      /\ screen w'
         = (screen w ++
            [st_chat_message "assistant";
             st_markdown "**Generated SQL:**";
             st_code sql "sql";
             st_warning ("Database error: " ++ e1);
             st_markdown "Trying to fix the SQL using the model...";
             st_markdown "**Fixed SQL:**";
             st_code fixed "sql";
             st_error ("Database error even after fix: " ++ e2)])%list).
Proof.
  wp.
  all: intros sql0 e1 fixed e2 H1 H2 He1 H3 H4 He2.
  all: use_generated; try use_failed w; try congruence.
  all: try use_repaired; try use_failed_again w; try congruence.
  all: trace_norm.
  all: split; [eexists _, _; split; [reflexivity|]; split; assumption|].
  all: split; reflexivity.
Qed.

(** X27. When executing the generated statement fails and executing the
    repaired statement fails too, each with a text that is not empty (which
    is how main tells a failure), the pass is one generation, one failed
    call of [run_sql], one repair and one more failed call, in this order
    and nothing after, and it ends with the report of the failure after the
    fix on the screen and in the history. *)
Theorem double_failure_is_reported (text : string) (w : World) (sql e1 fixed e2 : string) :
  fst (nl_to_sql text w) = Returns (Some sql, None) ->
  fst (run_sql sql w) = Returns (None, Some e1, None) ->
  e1 <> "" ->
  fst (fix_sql sql e1 text w) = Returns (Some fixed, None) ->
  fst (run_sql fixed (snd (run_sql sql w))) = Returns (None, Some e2, None) ->
  e2 <> "" ->
  exists w' first second,
    main_assistant_block text w = (Returns tt, w')
    /\ trace w'
       = (trace w
          ++ ev_chat "mistral" (generation_messages (PyStr.strip text))
          :: first
          ++ ev_chat "mistral" (fix_messages sql e1 text)
          :: second)%list
    /\ failed_run (PyStr.rstrip_semicolon (PyStr.strip sql)) first
    /\ failed_run (PyStr.rstrip_semicolon (PyStr.strip fixed)) second
    /\ messages w'
       = (messages w ++
          [{| role := "assistant"; content := "❌ DB error after fix: " ++ e2 |}])%list
    /\ screen w'
       = (screen w ++
          [st_chat_message "assistant";
           st_markdown "**Generated SQL:**";
           st_code sql "sql";
           st_warning ("Database error: " ++ e1);
           st_markdown "Trying to fix the SQL using the model...";
           st_markdown "**Fixed SQL:**";
           st_code fixed "sql";
           st_error ("Database error even after fix: " ++ e2)])%list.
Proof.
  intros H1 H2 He1 H3 H4 He2.
  destruct (main_double_failure text w) as ([] & w' & Hrun & Hpost).
  destruct (Hpost sql e1 fixed e2 H1 H2 He1 H3 H4 He2)
    as ((first & second & Ht & Hf1 & Hf2) & Hm & Hs).
  exists w', first, second. repeat split; assumption.
Qed.

(** *** A whole turn (lines 286 to 383) *)

Lemma post_show_messages (msgs : list Message) (w : World) (Q : unit -> World -> Prop) :
  (forall drawn,
      Q tt {| db := db w; conns := conns w; trace := trace w;
              screen := screen w ++ drawn; messages := messages w |}) ->
  post (show_messages msgs) w Q.
Proof.
  revert w Q. induction msgs as [|m rest IH]; intros w Q H.
  - apply post_ret. specialize (H []). rewrite app_nil_r in H.
    destruct w; exact H.
  - cbn [show_messages]. apply post_bind, post_st, post_bind, post_st, IH.
    intros drawn. cbn [db conns trace screen messages draw].
    rewrite <- !app_assoc. apply H.
Qed.

(** A turn with a request that is not empty adds two entries to the history:
    the request, then what the assistant block records. *)
Lemma main_chat_records_turn (c : ascii) (r : string) (w : World) :
  exists entry,
    fst (main_chat (Some (String c r)) w) = Returns tt
    /\ messages (snd (main_chat (Some (String c r)) w))
       = (messages w ++ [{| role := "user"; content := String c r |};
                         {| role := "assistant"; content := entry |}])%list.
Proof.
  assert (H : post (main_chat (Some (String c r))) w (fun _ w' =>
            exists entry,
              messages w'
              = (messages w ++ [{| role := "user"; content := String c r |};
                                {| role := "assistant"; content := entry |}])%list)).
  { unfold main_chat. apply post_bind, post_show_messages. intros drawn.
    apply post_bind, post_messages_append, post_bind, post_st, post_bind, post_st.
    match goal with
    | |- post _ ?W _ =>
        destruct (main_screen_and_history (String c r) W)
          as (u & w' & Hrun & shown & entry & _ & Hm & _)
    end.
    exists u, w'. split; [exact Hrun|].
    exists entry. rewrite Hm.
    cbn [db conns trace screen messages draw remember].
    rewrite <- app_assoc. reflexivity. }
  destruct H as ([] & w' & Hrun & entry & Hm).
  exists entry. rewrite Hrun. split; [reflexivity | exact Hm].
Qed.

(** *** More on a turn *)

Ltac count_commits :=
  rewrite ?count_app, ?count_cons, ?count_nil;
  cbn [is_commit Nat.add].

Lemma main_error_path (text : string) (w : World) :
  post (main_assistant_block text) w (fun _ w' =>
    forall err, fst (nl_to_sql text w) = Returns (None, Some err) ->
      db w' = db w
      /\ conns w' = conns w
      /\ (exists new, trace w' = (trace w ++ new)%list
                      /\ count is_chat new = length new
                      /\ count is_repair new = 0)
      /\ messages w'
         = (messages w ++ [{| role := "assistant"; content := "❌ " ++ err |}])%list).
Proof.
  wp.
  all: intros err0 H; use_generated.
  all: trace_norm; (split; [reflexivity|]); (split; [reflexivity|]).
  all: split; [|reflexivity].
  all: eexists; (split; [reflexivity|]); asked_or_not; split; reflexivity.
Qed.

(** X12. When [nl_to_sql] returns an error the turn stops there: nothing
    is connected to or executed (all that the trace gains, if anything, is
    the one call to the model), no repair is asked for, the database and the
    connections are as they were, and the history gains the cross followed by
    the error. *)
Theorem generation_error_executes_nothing (text : string) (w : World) (err : string) :
  fst (nl_to_sql text w) = Returns (None, Some err) ->
  exists w' new,
    main_assistant_block text w = (Returns tt, w')
    /\ db w' = db w
    /\ conns w' = conns w
    /\ trace w' = (trace w ++ new)%list
    /\ count is_chat new = length new
    /\ count is_repair new = 0
    /\ messages w'
       = (messages w ++ [{| role := "assistant"; content := "❌ " ++ err |}])%list.
Proof.
  intros H.
  destruct (main_error_path text w) as ([] & w' & Hrun & Hpost).
  destruct (Hpost err H) as (Hdb & Hconns & (new & Htrace & Hchat & Hrepair) & Hm).
  exists w', new. repeat split; assumption.
Qed.

Lemma main_success_path (text : string) (w : World) :
  post (main_assistant_block text) w (fun _ w' =>
    forall sql df kind,
      fst (nl_to_sql text w) = Returns (Some sql, None) ->
      fst (run_sql sql w) = Returns (df, None, kind) ->
      (exists new, trace w' = (trace w ++ new)%list
                   /\ count is_repair new = 0
                   /\ count is_execute new = 1
                   /\ count is_chat new <= 1)
      /\ exists entry,
           messages w' = (messages w ++ [{| role := "assistant"; content := entry |}])%list
           /\ In entry (firstn 3 STATUS_LINES)).
Proof.
  wp.
  all: intros sql0 df0 kind0 H1 H2; use_generated; try use_failed w.
  all: trace_norm; split;
    [eexists; (split; [reflexivity|]); repeat split; count_calls
    |eexists; (split; [reflexivity|]); simpl; auto 6].
Qed.

(** X13. When the statement [nl_to_sql] gave runs without error, the turn
    executes that one statement and nothing more, does not ask the model for
    a repair, and records one of the three status lines of a first try. *)
Theorem success_needs_no_repair (text : string) (w : World) (sql : string)
        (df : option (DataFrame Value)) (kind : option string) :
  fst (nl_to_sql text w) = Returns (Some sql, None) ->
  fst (run_sql sql w) = Returns (df, None, kind) ->
  exists w' new entry,
    main_assistant_block text w = (Returns tt, w')
    /\ trace w' = (trace w ++ new)%list
    /\ count is_repair new = 0
    /\ count is_execute new = 1
    /\ count is_chat new <= 1
    /\ messages w' = (messages w ++ [{| role := "assistant"; content := entry |}])%list
    /\ In entry (firstn 3 STATUS_LINES).
Proof.
  intros H1 H2.
  destruct (main_success_path text w) as ([] & w' & Hrun & Hpost).
  destruct (Hpost sql df kind H1 H2)
    as ((new & Htrace & Hr & He & Hc) & entry & Hm & Hin).
  exists w', new, entry. repeat split; assumption.
Qed.



Lemma run_sql_selected (query : string) (w : World) (df : DataFrame Value) :
  fst (run_sql query w) = Returns (Some df, None, Some "select") ->
  exists description rows working,
    engine_execute (db w) (PyStr.rstrip_semicolon (PyStr.strip query))
      = ExecOk (Some description) rows working
    /\ df = Build_DataFrame rows (map col_name description).
Proof.
  intros H. run_sql_by_engine query w E; try discriminate H.
  cbn [fst] in H. injection H as <-. eauto.
Qed.

(** X15. A statement that returns rows is reported by what its frame
    holds: when the frame is empty the screen gets the note that no rows were
    found and the history the line that no rows matched, neither of them an
    error, and the frame is not drawn; otherwise the frame is drawn and the
    history gets the line that rows were returned. *)
Theorem rows_reported_by_emptiness (text : string) (w : World) (sql : string)
        (df : DataFrame Value) :
  fst (nl_to_sql text w) = Returns (Some sql, None) ->
  fst (run_sql sql w) = Returns (Some df, None, Some "select") ->
  exists w',
    main_assistant_block text w = (Returns tt, w')
    /\ screen w'
       = (screen w ++
          [st_chat_message "assistant";
           st_markdown "**Generated SQL:**";
           st_code sql "sql";
           if df_empty df
           then st_info "No rows found for this query."
           else st_dataframe df])%list
    /\ messages w'
       = (messages w ++
          [{| role := "assistant";
              content := if df_empty df
                         then "✅ Query ran successfully, but no rows matched."
                         else "✅ Query ran successfully and returned rows." |}])%list.
Proof.
  intros Hgen Hrun.
  destruct (run_sql_selected _ _ _ Hrun) as (description & rows & working & E & ->).
  unfold main_assistant_block, bind, st, messages_append, effect.
  rewrite (nl_to_sql_generated _ _ _ Hgen). cbn beta iota. unfold expect_str, ret.
  erewrite run_sql_rows; [|exact E]. cbn beta iota.
  change (is_select (Some "select")) with true. cbn beta iota.
  change (none_or_empty (Some (Build_DataFrame rows (map col_name description))))
    with (df_empty (Build_DataFrame rows (map col_name description))).
  destruct (df_empty (Build_DataFrame rows (map col_name description)));
    eexists; (split; [reflexivity|]); trace_norm; split; reflexivity.
Qed.

(** What [show_messages] does, exactly. *)
Lemma show_messages_draws (msgs : list Message) (w : World) :
  show_messages msgs w
  = (Returns tt,
     {| db := db w; conns := conns w; trace := trace w;
        screen := screen w ++ history_widgets msgs; messages := messages w |}).
Proof.
  revert w. induction msgs as [|m rest IH]; intros w.
  - cbn. rewrite app_nil_r. destruct w; reflexivity.
  - cbn [show_messages]. unfold bind, st, effect. rewrite IH.
    apply f_equal, world_eq;
      cbn [db conns trace screen messages draw history_widgets flat_map];
      rewrite <- ?app_assoc; reflexivity.
Qed.

(** X17. A run with a request typed draws the history, records the request
    as it was typed under the role user and draws it, and then runs the
    assistant block, which records one entry: the history ends up as it was
    with these two entries after it. *)
Theorem turn_appends_request_and_answer (c : ascii) (r : string) (w : World) :
  exists w' shown entry,
    main_chat (Some (String c r)) w = (Returns tt, w')
    /\ messages w'
       = (messages w ++ [{| role := "user"; content := String c r |};
                         {| role := "assistant"; content := entry |}])%list
    /\ screen w'
       = (screen w ++ history_widgets (messages w)
          ++ [st_chat_message "user"; st_markdown (String c r)] ++ shown)%list.
Proof.
  unfold main_chat, bind. rewrite show_messages_draws.
  unfold messages_append, st, effect.
  match goal with
  | |- context [main_assistant_block ?t ?W] =>
      destruct (main_screen_and_history t W)
        as ([] & w' & Hrun & shown & entry & Hs & Hm & _);
      rewrite Hrun
  end.
  exists w', shown, entry. split; [reflexivity|].
  rewrite Hs, Hm. cbn [db conns trace screen messages draw remember].
  rewrite <- !app_assoc. split; reflexivity.
Qed.

(** X18. A request that is typed but is white space from end to end (any
    of the characters Python takes for white space) is recorded like any
    other, and answered with the error asking for a question: the model is
    not called and the database is not touched. *)
Theorem blank_turn_is_refused (c : ascii) (r : string) (w : World) :
  PyStr.all_space (String c r) = true ->
  main_chat (Some (String c r)) w
  = (Returns tt,
     {| db := db w; conns := conns w; trace := trace w;
        screen := screen w ++ history_widgets (messages w)
                  ++ [st_chat_message "user"; st_markdown (String c r);
                      st_chat_message "assistant";
                      st_error "Please type a question or command."];
        messages := messages w
                    ++ [{| role := "user"; content := String c r |};
                        {| role := "assistant";
                           content := "❌ Please type a question or command." |}] |}).
Proof.
  intros H. apply PyStrFacts.strip_empty in H.
  unfold main_chat, bind. rewrite show_messages_draws.
  unfold messages_append, st, effect, main_assistant_block, bind, st, messages_append, effect.
  rewrite (nl_to_sql_blank _ _ H). cbn beta iota.
  apply f_equal, world_eq; trace_norm; reflexivity.
Qed.

End Main.

(** ** The schema helpers *)

Section SchemaFacts.

Context {env : Environment}.
Variable pd_DataFrame : list (list Value) -> list string -> Outcome (DataFrame Value).
Variable df_getitem : DataFrame Value -> list string -> Outcome (DataFrame Value).
Variable format_value : Value -> string.
Variable value_is : Value -> string -> bool.

Ltac fields :=
  try unfold statement_done;
  cbn [conns set_conns set_db log logs draw remember db trace screen messages
       conn_open conn_working cur_conn cur_description cur_rows].

Ltac connection_steps w :=
  repeat (fields;
          progress rewrite ?(nth_error_snoc (conns w)), ?(replace_nth_snoc (conns w)));
  fields.

Ltac same_world :=
  unfold ret; apply f_equal; apply world_eq; fields;
  rewrite <- ?app_assoc; cbn [app]; reflexivity.

Lemma comprehension_row_first (rows : list (list Value)) (w : World) :
  comprehension row_first rows w
  = (match first_cells rows with
     | Some vs => Returns vs
     | None => Raises "tuple index out of range"
     end, w).
Proof.
  induction rows as [|row rest IH]; [reflexivity|].
  cbn [comprehension first_cells]. unfold bind.
  destruct row as [|v row]; [reflexivity|].
  cbn [row_first]. unfold ret at 1. rewrite IH.
  destruct (first_cells rest); reflexivity.
Qed.

Lemma first_cells_length (rows : list (list Value)) (vs : list Value) :
  first_cells rows = Some vs -> length vs = length rows.
Proof.
  revert vs. induction rows as [|row rest IH]; intros vs H.
  - injection H as <-. reflexivity.
  - cbn [first_cells] in H. destruct row as [|v row]; [discriminate|].
    destruct (first_cells rest) as [us|]; [|discriminate].
    injection H as <-. cbn. rewrite (IH us eq_refl). reflexivity.
Qed.

(** *** get_tables, by what the engine does *)

Lemma get_tables_connect_error (w : World) (e : string) :
  engine_connect (db w) = Some e ->
  get_tables w
  = (Returns [],
     {| db := db w; conns := conns w; trace := trace w ++ [ev_connect DB_PATH];
        screen := screen w; messages := messages w |}).
Proof.
  intros H.
  unfold get_tables, try_except, bind, sqlite3_connect. rewrite H. same_world.
Qed.

Lemma get_tables_raised (w : World) (e : string) :
  engine_connect (db w) = None ->
  engine_cursor (db w) TABLES_SQL = cursor_raises e ->
  get_tables w
  = (Returns [],
     {| db := db w;
        conns := conns w ++ [{| conn_open := true; conn_working := db w |}];
        trace := trace w ++ [ev_connect DB_PATH; ev_execute TABLES_SQL];
        screen := screen w; messages := messages w |}).
Proof.
  intros Hc H.
  unfold get_tables, try_except, bind, sqlite3_connect, conn_cursor, cur_execute, lookup_open.
  rewrite Hc. connection_steps w. fold TABLES_SQL. rewrite H. same_world.
Qed.

Lemma get_tables_fetch_raised (w : World) (description : option (list ColumnInfo))
      (e : string) (working : Store) :
  engine_connect (db w) = None ->
  engine_cursor (db w) TABLES_SQL = fetch_raises description e working ->
  get_tables w
  = (Returns [],
     {| db := uncommitted TABLES_SQL working (db w);
        conns := conns w ++ [{| conn_open := true; conn_working := working |}];
        trace := trace w ++ [ev_connect DB_PATH; ev_execute TABLES_SQL; ev_fetchall];
        screen := screen w; messages := messages w |}).
Proof.
  intros Hc H.
  unfold get_tables, try_except, bind, sqlite3_connect, conn_cursor, cur_execute, lookup_open.
  rewrite Hc. connection_steps w. fold TABLES_SQL. rewrite H. fields.
  unfold cur_fetchall. connection_steps w. same_world.
Qed.

Lemma get_tables_given (w : World) (description : option (list ColumnInfo))
      (rows : list (list Value)) (working : Store) :
  engine_connect (db w) = None ->
  engine_cursor (db w) TABLES_SQL = cursor_gives description rows working ->
  get_tables w
  = match first_cells rows with
    | Some tables =>
        (Returns tables,
         {| db := uncommitted TABLES_SQL working (db w);
            conns := conns w ++ [{| conn_open := false; conn_working := working |}];
            trace := trace w ++ [ev_connect DB_PATH; ev_execute TABLES_SQL;
                                 ev_fetchall; ev_close];
            screen := screen w; messages := messages w |})
    | None =>
        (Returns [],
         {| db := uncommitted TABLES_SQL working (db w);
            conns := conns w ++ [{| conn_open := true; conn_working := working |}];
            trace := trace w ++ [ev_connect DB_PATH; ev_execute TABLES_SQL; ev_fetchall];
            screen := screen w; messages := messages w |})
    end.
Proof.
  intros Hc H.
  unfold get_tables, try_except, bind, sqlite3_connect, conn_cursor, cur_execute, lookup_open.
  rewrite Hc. connection_steps w. fold TABLES_SQL. rewrite H. fields.
  unfold cur_fetchall. fields. rewrite comprehension_row_first.
  destruct (first_cells rows) as [tables|].
  - unfold conn_close. connection_steps w. same_world.
  - connection_steps w. same_world.
Qed.

Lemma get_tables_error (w : World) (e : string) :
  engine_execute (db w) TABLES_SQL = ExecError e ->
  get_tables w
  = (Returns [],
     {| db := db w;
        conns := conns w ++ [{| conn_open := true; conn_working := db w |}];
        trace := trace w ++ [ev_connect DB_PATH; ev_execute TABLES_SQL];
        screen := screen w; messages := messages w |}).
Proof.
  intros H. apply engine_execute_error in H as [Hc H].
  exact (get_tables_raised _ _ Hc H).
Qed.

Lemma get_tables_listed (w : World) (description : option (list ColumnInfo))
      (rows : list (list Value)) (working : Store) (tables : list Value) :
  engine_execute (db w) TABLES_SQL = ExecOk description rows working ->
  first_cells rows = Some tables ->
  get_tables w
  = (Returns tables,
     {| db := uncommitted TABLES_SQL working (db w);
        conns := conns w ++ [{| conn_open := false; conn_working := working |}];
        trace := trace w ++ [ev_connect DB_PATH; ev_execute TABLES_SQL;
                             ev_fetchall; ev_close];
        screen := screen w; messages := messages w |}).
Proof.
  intros H Hf. apply engine_execute_ok in H as (Hc & H & _).
  rewrite (get_tables_given _ _ _ _ Hc H), Hf. reflexivity.
Qed.

Lemma get_tables_short_row (w : World) (description : option (list ColumnInfo))
      (rows : list (list Value)) (working : Store) :
  engine_execute (db w) TABLES_SQL = ExecOk description rows working ->
  first_cells rows = None ->
  get_tables w
  = (Returns [],
     {| db := uncommitted TABLES_SQL working (db w);
        conns := conns w ++ [{| conn_open := true; conn_working := working |}];
        trace := trace w ++ [ev_connect DB_PATH; ev_execute TABLES_SQL; ev_fetchall];
        screen := screen w; messages := messages w |}).
Proof.
  intros H Hf. apply engine_execute_ok in H as (Hc & H & _).
  rewrite (get_tables_given _ _ _ _ Hc H), Hf. reflexivity.
Qed.

Lemma uncommitted_nothing (sql : string) (content : Store) :
  uncommitted sql content content = content.
Proof. unfold uncommitted. destruct (begins_transaction sql); reflexivity. Qed.

Lemma only_statement (sql stmt : string) (rest : list Event) :
  count is_execute rest = 0 -> In (ev_execute sql) (ev_execute stmt :: rest) -> sql = stmt.
Proof.
  intros Hc [H|H]; [congruence|].
  exfalso. unfold count in Hc.
  assert (Hin : In (ev_execute sql) (filter is_execute rest))
    by (apply filter_In; split; [exact H | reflexivity]).
  destruct (filter is_execute rest); [destruct Hin | discriminate].
Qed.

Ltac frame_facts :=
  repeat split; auto; try congruence;
  try (intros sql; apply only_statement; reflexivity);
  try (unfold changes_nothing;
       match goal with
       | H : engine_cursor _ _ = _ |- _ => rewrite H
       end;
       intros ->; apply uncommitted_nothing).

Lemma get_tables_frame (w : World) :
  exists tables d made new,
    get_tables w
    = (Returns tables,
       {| db := d; conns := conns w ++ made;
          trace := trace w ++ ev_connect DB_PATH :: new;
          screen := screen w; messages := messages w |})
    /\ length made <= 1
    /\ count is_commit new = 0
    /\ count is_chat new = 0
    /\ count is_execute new <= 1
    /\ (forall sql, In (ev_execute sql) new -> sql = TABLES_SQL)
    /\ (engine_connect (db w) <> None -> tables = [] /\ made = [] /\ new = [])
    /\ (changes_nothing (db w) TABLES_SQL -> d = db w).
Proof.
  destruct (engine_connect (db w)) as [e|] eqn:Hc.
  - rewrite (get_tables_connect_error _ _ Hc). exists [], (db w), [], [].
    rewrite app_nil_r. repeat split; auto. intros sql [].
  - destruct (engine_cursor (db w) TABLES_SQL)
      as [e | description e working | description rows working] eqn:E.
    + rewrite (get_tables_raised _ _ Hc E).
      eexists _, _, [_], _. split; [reflexivity|]. frame_facts.
    + rewrite (get_tables_fetch_raised _ _ _ _ Hc E).
      eexists _, _, [_], _. split; [reflexivity|]. frame_facts.
    + rewrite (get_tables_given _ _ _ _ Hc E).
      destruct (first_cells rows) as [tables|];
        (eexists _, _, [_], _; split; [reflexivity|]; frame_facts).
Qed.

(** X19. [get_tables] returns whatever the engine does, and only reads:
    it tries one connection and opens at most one, executes at most one
    statement, which is its own, commits nothing and calls no model, and
    leaves the screen and the history as they were; when [connect] raises
    it has the empty list and has done nothing else.  The durable content of
    the database is what it was whenever the statement, run on it, changes
    nothing. *)
Theorem get_tables_only_reads (w : World) :
  exists tables d made new,
    get_tables w
    = (Returns tables,
       {| db := d; conns := conns w ++ made;
          trace := trace w ++ ev_connect DB_PATH :: new;
          screen := screen w; messages := messages w |})
    /\ length made <= 1
    /\ count is_commit new = 0
    /\ count is_chat new = 0
    /\ count is_execute new <= 1
    /\ (forall sql, In (ev_execute sql) new -> sql = TABLES_SQL)
    /\ (engine_connect (db w) <> None -> tables = [] /\ made = [] /\ new = [])
    /\ (changes_nothing (db w) TABLES_SQL -> d = db w).
Proof. exact (get_tables_frame w). Qed.

(** X20. When the engine raises, or gives a row without cells,
    [get_tables] returns the empty list, as it does for a database without
    tables, and the connection it opened is left open: the close of line 18
    is skipped. *)
Theorem get_tables_failure_is_empty_list (w : World) :
  (forall e, engine_execute (db w) TABLES_SQL = ExecError e ->
     fst (get_tables w) = Returns []
     /\ conns (snd (get_tables w))
        = (conns w ++ [{| conn_open := true; conn_working := db w |}])%list)
  /\ (forall description rows working,
        engine_execute (db w) TABLES_SQL = ExecOk description rows working ->
        In [] rows ->
        fst (get_tables w) = Returns []
        /\ conns (snd (get_tables w))
           = (conns w ++ [{| conn_open := true; conn_working := working |}])%list).
Proof.
  split.
  - intros e E. rewrite (get_tables_error _ _ E). split; reflexivity.
  - intros description rows working E Hin.
    assert (Hf : first_cells rows = None).
    { clear E. induction rows as [|row rest IH]; [destruct Hin|].
      cbn [first_cells]. destruct row as [|v row]; [reflexivity|].
      destruct Hin as [Hin|Hin]; [discriminate|].
      rewrite (IH Hin). reflexivity. }
    rewrite (get_tables_short_row _ _ _ _ E Hf). split; reflexivity.
Qed.

(** X21. When the engine answers and every row has a cell, [get_tables]
    returns the first cell of each row, in the order of the rows and as many
    as there are rows, and closes its connection. *)
Theorem get_tables_lists_first_cells (w : World) (description : option (list ColumnInfo))
        (rows : list (list Value)) (working : Store) :
  engine_execute (db w) TABLES_SQL = ExecOk description rows working ->
  ~ In [] rows ->
  exists tables,
    fst (get_tables w) = Returns tables
    /\ first_cells rows = Some tables
    /\ length tables = length rows
    /\ Forall2 (fun row v => exists rest, row = v :: rest) rows tables
    /\ conns (snd (get_tables w))
       = (conns w ++ [{| conn_open := false; conn_working := working |}])%list.
Proof.
  intros E Hno.
  assert (Hf : exists tables, first_cells rows = Some tables
                 /\ Forall2 (fun row v => exists rest, row = v :: rest) rows tables).
  { clear E. induction rows as [|row rest IH].
    - exists []. split; [reflexivity | constructor].
    - destruct row as [|v row]; [exfalso; apply Hno; left; reflexivity|].
      destruct IH as (vs & Hvs & Hall); [intros H; apply Hno; right; exact H|].
      exists (v :: vs). cbn [first_cells]. rewrite Hvs. split; [reflexivity|].
      constructor; [eexists; reflexivity | exact Hall]. }
  destruct Hf as (tables & Hf & Hall).
  exists tables. rewrite (get_tables_listed _ _ _ _ _ E Hf).
  repeat split; auto using first_cells_length.
Qed.

(** *** get_table_schema, by what the engine and pandas do *)

Lemma schema_frame_returns (rows : list (list Value)) :
  exists df, schema_frame pd_DataFrame df_getitem rows = Returns df.
Proof.
  unfold schema_frame.
  destruct (pd_DataFrame rows INFO_COLUMNS) as [df|e1];
    [destruct (df_getitem df SHOWN_COLUMNS)|]; eexists; reflexivity.
Qed.

Lemma get_table_schema_connect_error (table_name : string) (w : World) (e : string) :
  engine_connect (db w) = Some e ->
  get_table_schema pd_DataFrame df_getitem table_name w
  = (Returns (Build_DataFrame [] SHOWN_COLUMNS),
     {| db := db w; conns := conns w; trace := trace w ++ [ev_connect DB_PATH];
        screen := screen w; messages := messages w |}).
Proof.
  intros H.
  unfold get_table_schema, try_except, bind, sqlite3_connect. rewrite H. same_world.
Qed.

Lemma get_table_schema_raised (table_name : string) (w : World) (e : string) :
  engine_connect (db w) = None ->
  engine_cursor (db w) ("PRAGMA table_info(" ++ table_name ++ ");") = cursor_raises e ->
  get_table_schema pd_DataFrame df_getitem table_name w
  = (Returns (Build_DataFrame [] SHOWN_COLUMNS),
     {| db := db w;
        conns := conns w ++ [{| conn_open := true; conn_working := db w |}];
        trace := trace w ++ [ev_connect DB_PATH;
                             ev_execute ("PRAGMA table_info(" ++ table_name ++ ");")];
        screen := screen w; messages := messages w |}).
Proof.
  intros Hc H.
  unfold get_table_schema, try_except, bind, sqlite3_connect, conn_cursor, cur_execute,
    lookup_open.
  rewrite Hc. connection_steps w. rewrite H. same_world.
Qed.

Lemma get_table_schema_fetch_raised (table_name : string) (w : World)
      (description : option (list ColumnInfo)) (e : string) (working : Store) :
  engine_connect (db w) = None ->
  engine_cursor (db w) ("PRAGMA table_info(" ++ table_name ++ ");")
    = fetch_raises description e working ->
  get_table_schema pd_DataFrame df_getitem table_name w
  = (Returns (Build_DataFrame [] SHOWN_COLUMNS),
     {| db := uncommitted ("PRAGMA table_info(" ++ table_name ++ ");") working (db w);
        conns := conns w ++ [{| conn_open := true; conn_working := working |}];
        trace := trace w ++ [ev_connect DB_PATH;
                             ev_execute ("PRAGMA table_info(" ++ table_name ++ ");");
                             ev_fetchall];
        screen := screen w; messages := messages w |}).
Proof.
  intros Hc H.
  unfold get_table_schema, try_except, bind, sqlite3_connect, conn_cursor, cur_execute,
    lookup_open.
  rewrite Hc. connection_steps w. rewrite H. fields.
  unfold cur_fetchall. connection_steps w. same_world.
Qed.

Lemma get_table_schema_given (table_name : string) (w : World)
      (description : option (list ColumnInfo)) (rows : list (list Value)) (working : Store) :
  engine_connect (db w) = None ->
  engine_cursor (db w) ("PRAGMA table_info(" ++ table_name ++ ");")
    = cursor_gives description rows working ->
  get_table_schema pd_DataFrame df_getitem table_name w
  = (schema_frame pd_DataFrame df_getitem rows,
     {| db := uncommitted ("PRAGMA table_info(" ++ table_name ++ ");") working (db w);
        conns := conns w ++ [{| conn_open := false; conn_working := working |}];
        trace := trace w ++ [ev_connect DB_PATH;
                             ev_execute ("PRAGMA table_info(" ++ table_name ++ ");");
                             ev_fetchall; ev_close];
        screen := screen w; messages := messages w |}).
Proof.
  intros Hc H.
  unfold get_table_schema, try_except, bind, sqlite3_connect, conn_cursor, cur_execute,
    lookup_open.
  rewrite Hc. connection_steps w. rewrite H. fields.
  unfold cur_fetchall, conn_close. connection_steps w.
  unfold pure_call, schema_frame. fold INFO_COLUMNS. fold SHOWN_COLUMNS.
  destruct (pd_DataFrame rows INFO_COLUMNS) as [df|e1].
  - destruct (df_getitem df SHOWN_COLUMNS) as [shown|e2]; same_world.
  - same_world.
Qed.

Lemma get_table_schema_error (table_name : string) (w : World) (e : string) :
  engine_execute (db w) ("PRAGMA table_info(" ++ table_name ++ ");") = ExecError e ->
  get_table_schema pd_DataFrame df_getitem table_name w
  = (Returns (Build_DataFrame [] SHOWN_COLUMNS),
     {| db := db w;
        conns := conns w ++ [{| conn_open := true; conn_working := db w |}];
        trace := trace w ++ [ev_connect DB_PATH;
                             ev_execute ("PRAGMA table_info(" ++ table_name ++ ");")];
        screen := screen w; messages := messages w |}).
Proof.
  intros H. apply engine_execute_error in H as [Hc H].
  exact (get_table_schema_raised _ _ _ Hc H).
Qed.

Lemma get_table_schema_answered (table_name : string) (w : World)
      (description : option (list ColumnInfo)) (rows : list (list Value)) (working : Store) :
  engine_execute (db w) ("PRAGMA table_info(" ++ table_name ++ ");")
    = ExecOk description rows working ->
  get_table_schema pd_DataFrame df_getitem table_name w
  = (schema_frame pd_DataFrame df_getitem rows,
     {| db := uncommitted ("PRAGMA table_info(" ++ table_name ++ ");") working (db w);
        conns := conns w ++ [{| conn_open := false; conn_working := working |}];
        trace := trace w ++ [ev_connect DB_PATH;
                             ev_execute ("PRAGMA table_info(" ++ table_name ++ ");");
                             ev_fetchall; ev_close];
        screen := screen w; messages := messages w |}).
Proof.
  intros H. apply engine_execute_ok in H as (Hc & H & _).
  exact (get_table_schema_given _ _ _ _ _ Hc H).
Qed.

Lemma get_table_schema_frame (table_name : string) (w : World) :
  exists df d made new,
    get_table_schema pd_DataFrame df_getitem table_name w
    = (Returns df,
       {| db := d; conns := conns w ++ made;
          trace := trace w ++ ev_connect DB_PATH :: new;
          screen := screen w; messages := messages w |})
    /\ length made <= 1
    /\ count is_commit new = 0
    /\ count is_chat new = 0
    /\ count is_execute new <= 1
    /\ (forall sql, In (ev_execute sql) new ->
                    sql = "PRAGMA table_info(" ++ table_name ++ ");")
    /\ (engine_connect (db w) <> None -> made = [] /\ new = [])
    /\ (changes_nothing (db w) ("PRAGMA table_info(" ++ table_name ++ ");") -> d = db w).
Proof.
  destruct (engine_connect (db w)) as [e|] eqn:Hc.
  - rewrite (get_table_schema_connect_error _ _ _ Hc). eexists _, (db w), [], [].
    rewrite app_nil_r. repeat split; auto. intros sql [].
  - destruct (engine_cursor (db w) ("PRAGMA table_info(" ++ table_name ++ ");"))
      as [e | description e working | description rows working] eqn:E.
    + rewrite (get_table_schema_raised _ _ _ Hc E).
      eexists _, _, [_], _. split; [reflexivity|]. frame_facts.
    + rewrite (get_table_schema_fetch_raised _ _ _ _ _ Hc E).
      eexists _, _, [_], _. split; [reflexivity|]. frame_facts.
    + rewrite (get_table_schema_given _ _ _ _ _ Hc E).
      destruct (schema_frame_returns rows) as [df ->].
      eexists _, _, [_], _. split; [reflexivity|]. frame_facts.
Qed.

(** X22. [get_table_schema] returns whatever the name, the engine and
    pandas do, and only reads: it tries one connection and opens at most
    one, executes at most one statement (the PRAGMA with the name put in as
    it is), commits nothing and calls no model, and leaves the screen and the
    history as they were; when [connect] raises it has done nothing else.
    The durable content of the database is what it was whenever the
    statement, run on it, changes nothing. *)
Theorem get_table_schema_only_reads (table_name : string) (w : World) :
  exists df d made new,
    get_table_schema pd_DataFrame df_getitem table_name w
    = (Returns df,
       {| db := d; conns := conns w ++ made;
          trace := trace w ++ ev_connect DB_PATH :: new;
          screen := screen w; messages := messages w |})
    /\ length made <= 1
    /\ count is_commit new = 0
    /\ count is_chat new = 0
    /\ count is_execute new <= 1
    /\ (forall sql, In (ev_execute sql) new ->
                    sql = "PRAGMA table_info(" ++ table_name ++ ");")
    /\ (engine_connect (db w) <> None -> made = [] /\ new = [])
    /\ (changes_nothing (db w) ("PRAGMA table_info(" ++ table_name ++ ");") -> d = db w).
Proof. exact (get_table_schema_frame table_name w). Qed.

(** X23. Every failure of [get_table_schema] gives the frame with the
    columns name, type and pk and no rows, which is empty: when the engine
    raises (the connection is then left open), and when the engine answers
    but pandas raises on building the frame or on selecting the columns (the
    connection was closed before). *)
Theorem get_table_schema_failure_is_empty_frame (table_name : string) (w : World) :
  df_empty (Build_DataFrame (Value := Value) [] SHOWN_COLUMNS) = true
  /\ (forall e,
        engine_execute (db w) ("PRAGMA table_info(" ++ table_name ++ ");") = ExecError e ->
        fst (get_table_schema pd_DataFrame df_getitem table_name w)
          = Returns (Build_DataFrame [] SHOWN_COLUMNS)
        /\ conns (snd (get_table_schema pd_DataFrame df_getitem table_name w))
           = (conns w ++ [{| conn_open := true; conn_working := db w |}])%list)
  /\ (forall description rows working,
        engine_execute (db w) ("PRAGMA table_info(" ++ table_name ++ ");")
          = ExecOk description rows working ->
        (exists e, pd_DataFrame rows INFO_COLUMNS = Raises e)
        \/ (exists df e, pd_DataFrame rows INFO_COLUMNS = Returns df
                         /\ df_getitem df SHOWN_COLUMNS = Raises e) ->
        fst (get_table_schema pd_DataFrame df_getitem table_name w)
          = Returns (Build_DataFrame [] SHOWN_COLUMNS)
        /\ conns (snd (get_table_schema pd_DataFrame df_getitem table_name w))
           = (conns w ++ [{| conn_open := false; conn_working := working |}])%list).
Proof.
  split; [reflexivity|]. split.
  - intros e E. rewrite (get_table_schema_error _ _ _ E). split; reflexivity.
  - intros description rows working E H.
    rewrite (get_table_schema_answered _ _ _ _ _ E). cbn [fst snd conns].
    unfold schema_frame.
    destruct H as [[e ->] | (df & e & -> & ->)]; split; reflexivity.
Qed.

(** X24. When the engine answers and pandas builds the frame and selects
    the columns, [get_table_schema] returns that selection of name, type and
    pk from the frame built on the rows under the six names of the PRAGMA,
    and the connection is closed. *)
Theorem get_table_schema_selects_columns (table_name : string) (w : World)
        (description : option (list ColumnInfo)) (rows : list (list Value)) (working : Store)
        (df shown : DataFrame Value) :
  engine_execute (db w) ("PRAGMA table_info(" ++ table_name ++ ");")
    = ExecOk description rows working ->
  pd_DataFrame rows ["cid"; "name"; "type"; "notnull"; "dflt_value"; "pk"] = Returns df ->
  df_getitem df ["name"; "type"; "pk"] = Returns shown ->
  fst (get_table_schema pd_DataFrame df_getitem table_name w) = Returns shown
  /\ conns (snd (get_table_schema pd_DataFrame df_getitem table_name w))
     = (conns w ++ [{| conn_open := false; conn_working := working |}])%list.
Proof.
  intros E Hdf Hsel.
  rewrite (get_table_schema_answered _ _ _ _ _ E). cbn [fst snd conns].
  unfold schema_frame, INFO_COLUMNS, SHOWN_COLUMNS. rewrite Hdf, Hsel. split; reflexivity.
Qed.

(** *** The sidebar, and a run with nothing typed *)







End SchemaFacts.

(** ** Runs of the scenario *)

Section Runs.

Import Scenario.

(** C1 at a request whose statement names a column that does not exist and
    whose repair fails with an exception of empty text: both executions
    fail, and the pass ends with the report of a success after the fix, on
    the screen and in the history, and with no report of a failure.  main
    tells a failure by the text of the error being not empty ([if db_err2:],
    line 337), where [run_sql] tells it by the kind being [None]. *)
Theorem main_reports_silent_second_failure_as_success :
  fst (@nl_to_sql silent_second_failure "show ages" (start silent_second_failure students))
    = Returns (Some "SELECT age FROM students", None)
  /\ fst (@run_sql silent_second_failure "SELECT age FROM students"
            (start silent_second_failure students))
     = Returns (None, Some "no such column: age", None)
  /\ fst (@fix_sql silent_second_failure "SELECT age FROM students" "no such column: age"
            "show ages" (start silent_second_failure students))
     = Returns (Some "SELECT hex(randomblob(2000000000))", None)
  /\ fst (@run_sql silent_second_failure "SELECT hex(randomblob(2000000000))"
            (snd (@run_sql silent_second_failure "SELECT age FROM students"
                    (start silent_second_failure students))))
     = Returns (None, Some "", None)
  /\ messages (snd (@main_assistant_block silent_second_failure "show ages"
                      (start silent_second_failure students)))
     = [{| role := "assistant";
           content := "✅ Command executed successfully on the database (after fix)." |}]
  /\ screen (snd (@main_assistant_block silent_second_failure "show ages"
                    (start silent_second_failure students)))
     = [st_chat_message "assistant";
        st_markdown "**Generated SQL:**";
        st_code "SELECT age FROM students" "sql";
        st_warning "Database error: no such column: age";
        st_markdown "Trying to fix the SQL using the model...";
        st_markdown "**Fixed SQL:**";
        st_code "SELECT hex(randomblob(2000000000))" "sql";
        st_success "✅ Command executed successfully (after fix)."]
  /\ count is_execute
       (trace (snd (@main_assistant_block silent_second_failure "show ages"
                      (start silent_second_failure students)))) = 2.
Proof. repeat split. Qed.

(** C2 on a SELECT that matches no row. *)
Lemma run_sql_rows_iff_fetched_witness :
  @engine_execute plain_select students
     (PyStr.rstrip_semicolon (PyStr.strip "SELECT * FROM students WHERE cgpa > 10;"))
   = ExecOk (Some student_columns) [] students
  /\ exists df,
       fst (@run_sql plain_select "SELECT * FROM students WHERE cgpa > 10;"
              (start plain_select students))
         = Returns (Some df, None, Some "select")
       /\ df_rows df = []
       /\ forall msg,
            fst (@run_sql plain_select "SELECT * FROM students WHERE cgpa > 10;"
                   (start plain_select students))
              <> Returns (None, Some msg, None).
Proof.
  split; [reflexivity|].
  apply (proj1 (proj2 (proj2 (proj2
           (@run_sql_rows_iff_fetched plain_select
              "SELECT * FROM students WHERE cgpa > 10;" (start plain_select students)))))
         student_columns students).
  reflexivity.
Defined.

(** C2 as it was stated, at a statement whose second row cannot be
    computed: the cursor has a description after [execute], and the outcome
    is a Failure, not Rows. *)
Lemma run_sql_description_without_rows :
  @engine_cursor plain_select students overflowing_select
    = fetch_raises (Some [Build_ColumnInfo "abs(x)"]) "integer overflow" students
  /\ fst (@run_sql plain_select overflowing_select (start plain_select students))
     = Returns (None, Some "integer overflow", None)
  /\ trace (snd (@run_sql plain_select overflowing_select (start plain_select students)))
     = [ev_connect "students.db"; ev_execute overflowing_select; ev_fetchall].
Proof. repeat split. Qed.

(** C4 on a column that does not exist. *)
Lemma run_sql_failure_verbatim_witness :
  @engine_execute plain_select students
     (PyStr.rstrip_semicolon (PyStr.strip "SELECT age FROM students"))
   = ExecError "no such column: age"
  /\ fst (@run_sql plain_select "SELECT age FROM students" (start plain_select students))
     = Returns (None, Some "no such column: age", None).
Proof.
  split; [reflexivity|].
  apply (proj1 (@run_sql_failure_verbatim plain_select "SELECT age FROM students"
                  (start plain_select students))).
  reflexivity.
Defined.

(** C5 at a statement the engine rejects: [run_sql] returns the failure, the
    connection it made is still open and the trace has no close. *)
Theorem run_sql_error_path_leaves_connection_open :
  fst (@run_sql plain_select "SELECT age FROM students" (start plain_select students))
    = Returns (None, Some "no such column: age", None)
  /\ conns (snd (@run_sql plain_select "SELECT age FROM students"
                   (start plain_select students)))
     = [@Build_Connection plain_select true students]
  /\ @all_closed plain_select
       (snd (@run_sql plain_select "SELECT age FROM students"
               (start plain_select students))) = false
  /\ trace (snd (@run_sql plain_select "SELECT age FROM students"
                   (start plain_select students)))
     = [ev_connect "students.db"; ev_execute "SELECT age FROM students"]
  /\ count is_close
       (trace (snd (@run_sql plain_select "SELECT age FROM students"
                      (start plain_select students)))) = 0.
Proof. repeat split. Qed.

(** C7 on a statement with white space, a no-break space included, and two
    terminators around it. *)
Lemma run_sql_strips_every_terminator_witness :
  @engine_connect plain_select students = None
  /\ PyStr.rstrip_semicolon (PyStr.strip (no_break_space ++ " SELECT 1;; " ++ no_break_space))
     = "SELECT 1"
  /\ exists rest,
       trace (snd (@run_sql plain_select (no_break_space ++ " SELECT 1;; " ++ no_break_space)
                     (start plain_select students)))
       = ev_connect "students.db" :: ev_execute "SELECT 1" :: rest
       /\ count is_execute rest = 0.
Proof.
  split; [reflexivity|]. split; [reflexivity|].
  destruct (@run_sql_strips_every_terminator plain_select
              (no_break_space ++ " SELECT 1;; " ++ no_break_space)
              (start plain_select students))
    as (tail & new & _ & _ & _ & Ht & _ & Hrun & _).
  destruct (Hrun eq_refl) as (rest & Hnew & Hc).
  exists rest. rewrite Ht, Hnew. split; [reflexivity | exact Hc].
Defined.

(** C7 as it was stated, at a statement with two terminators: both are cut,
    and the statement with one terminator left is never executed. *)
Lemma run_sql_cuts_both_terminators :
  trace (snd (@run_sql plain_select "SELECT 1;;" (start plain_select students)))
    = [ev_connect "students.db"; ev_execute "SELECT 1"; ev_fetchall; ev_close]
  /\ ~ In (ev_execute "SELECT 1;")
          (trace (snd (@run_sql plain_select "SELECT 1;;" (start plain_select students))))
  /\ drop_semicolon (PyStr.strip "SELECT 1;;") = "SELECT 1;".
Proof.
  split; [reflexivity|]. split; [|reflexivity].
  intros H.
  change (In (ev_execute "SELECT 1;")
             [ev_connect "students.db"; ev_execute "SELECT 1"; ev_fetchall; ev_close]) in H.
  simpl in H. intuition discriminate.
Qed.

(** C10 on a DELETE that returns rows: sqlite3 opens a transaction for it,
    and what it deleted is not durable. *)
Lemma run_sql_row_path_never_commits_witness :
  @engine_execute plain_select students
     (PyStr.rstrip_semicolon (PyStr.strip "DELETE FROM students RETURNING id"))
   = ExecOk (Some [Build_ColumnInfo "id"]) [["1"]; ["2"]; ["3"]] []
  /\ @begins_transaction plain_select
       (PyStr.rstrip_semicolon (PyStr.strip "DELETE FROM students RETURNING id")) = true
  /\ db (snd (@run_sql plain_select "DELETE FROM students RETURNING id"
                (start plain_select students))) = students.
Proof.
  split; [reflexivity|]. split; [reflexivity|].
  apply (proj1 (proj2 (proj2 (proj2
           (@run_sql_row_path_never_commits plain_select
              "DELETE FROM students RETURNING id" (start plain_select students)
              [Build_ColumnInfo "id"] [["1"]; ["2"]; ["3"]] [] eq_refl))))).
  reflexivity.
Defined.

(** C10 as it was stated, at a statement that deletes and returns rows and
    starts with WITH: it has a description, so nothing is committed, and it
    ran outside a transaction, so the table is empty all the same. *)
Lemma run_sql_row_path_can_change_database :
  fst (@run_sql plain_select deleting_select (start plain_select students))
    = Returns (Some (Build_DataFrame [["1"]; ["2"]; ["3"]] ["id"]), None, Some "select")
  /\ trace (snd (@run_sql plain_select deleting_select (start plain_select students)))
     = [ev_connect "students.db"; ev_execute deleting_select; ev_fetchall; ev_close]
  /\ db (start plain_select students) = students
  /\ db (snd (@run_sql plain_select deleting_select (start plain_select students))) = []
  /\ students <> [].
Proof. repeat split. discriminate. Qed.

(** C9 on a request of a no-break space, a space and an ideographic
    space. *)
Lemma nl_to_sql_blank_request_witness :
  PyStr.all_space (no_break_space ++ " " ++ ideographic_space) = true
  /\ @nl_to_sql plain_select (no_break_space ++ " " ++ ideographic_space)
       (start plain_select students)
     = (Returns (None, Some "Please type a question or command."),
        start plain_select students).
Proof.
  split; [reflexivity|].
  apply (@nl_to_sql_blank_request plain_select (no_break_space ++ " " ++ ideographic_space)
           (start plain_select students)).
  reflexivity.
Defined.

(** C3 on an answer whose first word is followed by a no-break space: the
    word is the statement word, and the answer is accepted. *)
Lemma nl_to_sql_checks_first_word_witness :
  PyStr.strip "show all students" <> ""
  /\ @ollama_chat wide_space_answer "mistral"
       (generation_messages (PyStr.strip "show all students"))
     = Returns ("SELECT" ++ no_break_space ++ "* FROM students")
  /\ first_token (clean (PyStr.strip ("SELECT" ++ no_break_space ++ "* FROM students")))
     = "select"
  /\ (fst (@nl_to_sql wide_space_answer "show all students"
             (start wide_space_answer students))
        = Returns (Some (clean (PyStr.strip ("SELECT" ++ no_break_space ++ "* FROM students"))),
                   None)
      <-> PyStr.mem
            (first_token (clean (PyStr.strip ("SELECT" ++ no_break_space ++ "* FROM students"))))
            STATEMENT_WORDS = true).
Proof.
  assert (Hn : PyStr.strip "show all students" <> "") by discriminate.
  split; [exact Hn|]. split; [reflexivity|]. split; [reflexivity|].
  apply (proj2 (@nl_to_sql_checks_first_word wide_space_answer "show all students"
                  (start wide_space_answer students))
           ("SELECT" ++ no_break_space ++ "* FROM students") Hn eq_refl).
Defined.

(** C3 as it was stated, at an answer in a fence with a language tag: the
    error carries the cleaned text, in which the completion as the model
    gave it does not occur. *)
Lemma nl_to_sql_error_has_cleaned_text_only :
  @ollama_chat fenced "mistral" (generation_messages (PyStr.strip "show all students"))
    = Returns fenced_answer
  /\ fst (@nl_to_sql fenced "show all students" (start fenced students))
     = Returns (None,
                Some ("Model did not return a valid SQL statement. It returned:"
                      ++ nl ++ "sql" ++ nl ++ "SELECT * FROM students"))
  /\ PyStr.contains fenced_answer
       ("Model did not return a valid SQL statement. It returned:"
        ++ nl ++ "sql" ++ nl ++ "SELECT * FROM students") = false.
Proof. repeat split. Qed.

(** C6 on an answer in a bare fence. *)
Lemma unfence_takes_first_keyword_piece_witness :
  PyStr.contains "```" bare_fenced_answer = true
  /\ filter has_sql_keyword (PyStr.split "```" bare_fenced_answer)
     = [nl ++ "SELECT * FROM students;" ++ nl]
  /\ unfenced_sql bare_fenced_answer = PyStr.strip (nl ++ "SELECT * FROM students;" ++ nl)
  /\ PyStr.strip (nl ++ "SELECT * FROM students;" ++ nl) = "SELECT * FROM students;".
Proof.
  split; [reflexivity|]. split; [reflexivity|]. split; [|reflexivity].
  apply (unfence_takes_first_keyword_piece bare_fenced_answer
           (nl ++ "SELECT * FROM students;" ++ nl) []); reflexivity.
Defined.



(** An exception whose text is empty is not told from success on the first
    execution either: no repair is tried and the history says the command
    ran. *)
Remark main_takes_empty_diagnostic_for_success :
  fst (@run_sql silent_failure "SELECT hex(randomblob(2000000000))"
         (start silent_failure students))
    = Returns (None, Some "", None)
  /\ messages (snd (@main_assistant_block silent_failure "make a big blob"
                      (start silent_failure students)))
     = [{| role := "assistant";
           content := "✅ Command executed successfully on the database." |}]
  /\ count is_repair
       (trace (snd (@main_assistant_block silent_failure "make a big blob"
                      (start silent_failure students)))) = 0.
Proof. repeat split. Qed.

End Runs.

(** ** Runs for the further properties *)

Section MoreRuns.

Import Scenario.

(** X2 on a database file that cannot be opened. *)
Lemma run_sql_touches_database_only_witness :
  @engine_connect SchemaScenario.locked_out students <> None
  /\ conns (snd (@run_sql SchemaScenario.locked_out "SELECT 1"
                   (start SchemaScenario.locked_out students))) = []
  /\ trace (snd (@run_sql SchemaScenario.locked_out "SELECT 1"
                   (start SchemaScenario.locked_out students)))
     = [ev_connect "students.db"].
Proof.
  assert (H : @engine_connect SchemaScenario.locked_out students <> None) by discriminate.
  split; [exact H|].
  destruct (@run_sql_touches_database_only SchemaScenario.locked_out "SELECT 1"
              (start SchemaScenario.locked_out students))
    as (made & new & Hc & Ht & _ & _ & _ & _ & Hnone).
  destruct (Hnone H) as [Hm Hn]. rewrite Hc, Ht, Hm, Hn. split; reflexivity.
Defined.

(** X4 on a DELETE. *)
Lemma run_sql_success_leaves_all_closed_witness :
  @engine_execute plain_select students
     (PyStr.rstrip_semicolon (PyStr.strip "DELETE FROM students;")) = ExecOk None [] []
  /\ @all_closed plain_select (start plain_select students) = true
  /\ @all_closed plain_select
       (snd (@run_sql plain_select "DELETE FROM students;" (start plain_select students)))
     = true.
Proof.
  split; [reflexivity|]. split; [reflexivity|].
  exact (@run_sql_success_leaves_all_closed plain_select "DELETE FROM students;"
           (start plain_select students) None [] [] eq_refl eq_refl).
Defined.

(** X5 on the statement generated for a request. *)
Lemma returned_statement_starts_with_keyword_witness :
  fst (@nl_to_sql plain_select "show all students" (start plain_select students))
    = Returns (Some "SELECT * FROM students", None)
  /\ "SELECT * FROM students" <> ""
  /\ exists kw, In kw STATEMENT_WORDS
                /\ String.prefix kw (PyStr.lower "SELECT * FROM students") = true.
Proof.
  assert (H : fst (@nl_to_sql plain_select "show all students"
                     (start plain_select students))
              = Returns (Some "SELECT * FROM students", None)) by reflexivity.
  split; [exact H|].
  destruct (@returned_statement_starts_with_keyword plain_select "show all students"
              "" "" (start plain_select students) "SELECT * FROM students" (or_introl H))
    as (Hne & _ & Hkw & _).
  split; [exact Hne | exact Hkw].
Defined.

(** X6 on a request with white space around it, a no-break space
    included. *)
Lemma nl_to_sql_asks_once_witness :
  PyStr.strip (no_break_space ++ " show all students ") = "show all students"
  /\ PyStr.strip (no_break_space ++ " show all students ") <> ""
  /\ exists system user,
       trace (snd (@nl_to_sql plain_select (no_break_space ++ " show all students ")
                     (start plain_select students)))
         = [ev_chat "mistral" [system; user]]
       /\ PyStr.contains (PyStr.strip (no_break_space ++ " show all students "))
            (content user) = true.
Proof.
  assert (H : PyStr.strip (no_break_space ++ " show all students ") <> "") by discriminate.
  split; [reflexivity|]. split; [exact H|].
  destruct (@nl_to_sql_asks_once plain_select (no_break_space ++ " show all students ")
              (start plain_select students) H)
    as (system & user & Ht & _ & _ & _ & Hc & _).
  exists system, user. split; [exact Ht | exact Hc].
Defined.

(** X8 on the repair of the scenario with two failures. *)
Lemma fix_sql_checks_first_word_witness :
  @ollama_chat double_failure "mistral"
     (fix_messages "SELECT age FROM students" "no such column: age" "show ages")
    = Returns "SELECT years FROM students"
  /\ (fst (@fix_sql double_failure "SELECT age FROM students" "no such column: age"
             "show ages" (start double_failure students))
        = Returns (Some (clean (PyStr.strip "SELECT years FROM students")), None)
      <-> PyStr.mem (first_token (clean (PyStr.strip "SELECT years FROM students")))
            STATEMENT_WORDS = true).
Proof.
  split; [reflexivity|].
  exact (proj1 (@fix_sql_checks_first_word double_failure "SELECT age FROM students"
                  "no such column: age" "show ages" (start double_failure students)
                  "SELECT years FROM students" eq_refl)).
Defined.

(** X9 on a model that cannot be reached. *)
Lemma model_failure_is_returned_witness :
  PyStr.strip "show ages" <> ""
  /\ @ollama_chat SchemaScenario.with_schema "mistral"
       (generation_messages (PyStr.strip "show ages")) = Raises "not asked"
  /\ fst (@nl_to_sql SchemaScenario.with_schema "show ages"
            (start SchemaScenario.with_schema students))
     = Returns (None, Some ("Error from LLM: " ++ "not asked")).
Proof.
  assert (H : PyStr.strip "show ages" <> "") by discriminate.
  split; [exact H|]. split; [reflexivity|].
  exact (proj1 (@model_failure_is_returned SchemaScenario.with_schema "show ages" "" ""
                  (start SchemaScenario.with_schema students) "not asked") H eq_refl).
Defined.

(** X11 on a completion with two terminators: one is left. *)
Lemma clean_removes_one_semicolon_witness :
  PyStr.endswith (unfenced_sql "SELECT 1;;") ";" = true
  /\ unfenced_sql "SELECT 1;;" = clean "SELECT 1;;" ++ ";"
  /\ clean "SELECT 1;;" = "SELECT 1;".
Proof.
  split; [reflexivity|]. split; [|reflexivity].
  exact (proj1 (clean_removes_one_semicolon "SELECT 1;;") eq_refl).
Defined.

(** X12 on an answer in a fence with a language tag, which is refused. *)
Lemma generation_error_executes_nothing_witness :
  fst (@nl_to_sql fenced "show all students" (start fenced students))
    = Returns (None,
               Some ("Model did not return a valid SQL statement. It returned:"
                     ++ nl ++ "sql" ++ nl ++ "SELECT * FROM students"))
  /\ exists w' new,
       @main_assistant_block fenced "show all students" (start fenced students)
         = (Returns tt, w')
       /\ db w' = students
       /\ conns w' = []
       /\ trace w' = new
       /\ count is_chat new = length new.
Proof.
  assert (H : fst (@nl_to_sql fenced "show all students" (start fenced students))
              = Returns (None,
                         Some ("Model did not return a valid SQL statement. It returned:"
                               ++ nl ++ "sql" ++ nl ++ "SELECT * FROM students")))
    by reflexivity.
  split; [exact H|].
  destruct (@generation_error_executes_nothing fenced "show all students"
              (start fenced students) _ H)
    as (w' & new & Hrun & Hdb & Hconns & Htrace & Hchat & _).
  exists w', new. repeat split; assumption.
Defined.

(** X13 and X15 on a request answered by a SELECT that finds rows. *)
Lemma success_needs_no_repair_witness :
  fst (@nl_to_sql plain_select "show all students" (start plain_select students))
    = Returns (Some "SELECT * FROM students", None)
  /\ fst (@run_sql plain_select "SELECT * FROM students" (start plain_select students))
     = Returns (Some (Build_DataFrame students (map col_name student_columns)),
                None, Some "select")
  /\ exists w' new,
       @main_assistant_block plain_select "show all students" (start plain_select students)
         = (Returns tt, w')
       /\ trace w' = new
       /\ count is_repair new = 0
       /\ count is_execute new = 1.
Proof.
  assert (H1 : fst (@nl_to_sql plain_select "show all students"
                      (start plain_select students))
               = Returns (Some "SELECT * FROM students", None)) by reflexivity.
  assert (H2 : fst (@run_sql plain_select "SELECT * FROM students"
                      (start plain_select students))
               = Returns (Some (Build_DataFrame students (map col_name student_columns)),
                          None, Some "select")) by reflexivity.
  split; [exact H1|]. split; [exact H2|].
  destruct (@success_needs_no_repair plain_select "show all students"
              (start plain_select students) _ _ _ H1 H2)
    as (w' & new & entry & Hrun & Htrace & Hr & He & _).
  exists w', new. repeat split; assumption.
Defined.

Lemma rows_reported_by_emptiness_witness :
  fst (@nl_to_sql plain_select "show all students" (start plain_select students))
    = Returns (Some "SELECT * FROM students", None)
  /\ fst (@run_sql plain_select "SELECT * FROM students" (start plain_select students))
     = Returns (Some (Build_DataFrame students (map col_name student_columns)),
                None, Some "select")
  /\ exists w',
       @main_assistant_block plain_select "show all students" (start plain_select students)
         = (Returns tt, w')
       /\ messages w'
          = [{| role := "assistant";
                content := "✅ Query ran successfully and returned rows." |}].
Proof.
  assert (H1 : fst (@nl_to_sql plain_select "show all students"
                      (start plain_select students))
               = Returns (Some "SELECT * FROM students", None)) by reflexivity.
  assert (H2 : fst (@run_sql plain_select "SELECT * FROM students"
                      (start plain_select students))
               = Returns (Some (Build_DataFrame students (map col_name student_columns)),
                          None, Some "select")) by reflexivity.
  split; [exact H1|]. split; [exact H2|].
  destruct (@rows_reported_by_emptiness plain_select "show all students"
              (start plain_select students) _ _ H1 H2)
    as (w' & Hrun & _ & Hm).
  exists w'. split; [exact Hrun | exact Hm].
Defined.



(** X18 on a request of one no-break space. *)
Lemma blank_turn_is_refused_witness :
  PyStr.all_space no_break_space = true
  /\ messages (snd (@main_chat plain_select (Some no_break_space)
                      (start plain_select students)))
     = [{| role := "user"; content := no_break_space |};
        {| role := "assistant"; content := "❌ Please type a question or command." |}]
  /\ trace (snd (@main_chat plain_select (Some no_break_space)
                   (start plain_select students))) = [].
Proof.
  split; [reflexivity|]. unfold no_break_space.
  rewrite (@blank_turn_is_refused plain_select (ascii_of_nat 194)
             (String (ascii_of_nat 160) EmptyString) (start plain_select students)
             eq_refl).
  split; reflexivity.
Defined.

(** X19 and X22 on a database file that cannot be opened. *)
Lemma get_tables_only_reads_witness :
  @engine_connect SchemaScenario.locked_out students <> None
  /\ @get_tables SchemaScenario.locked_out (start SchemaScenario.locked_out students)
     = (Returns [],
        @Build_World SchemaScenario.locked_out students [] [ev_connect "students.db"] [] []).
Proof.
  assert (H : @engine_connect SchemaScenario.locked_out students <> None) by discriminate.
  split; [exact H|].
  destruct (@get_tables_only_reads SchemaScenario.locked_out
              (start SchemaScenario.locked_out students))
    as (tables & d & made & new & Hrun & _ & _ & _ & _ & _ & Hnone & Hd).
  destruct (Hnone H) as (Ht & Hm & Hn). rewrite Hrun, Ht, Hm, Hn.
  rewrite (Hd eq_refl). reflexivity.
Defined.

Lemma get_table_schema_only_reads_witness :
  @engine_connect SchemaScenario.locked_out students <> None
  /\ snd (@get_table_schema SchemaScenario.locked_out SchemaScenario.frame
            SchemaScenario.pick "students" (start SchemaScenario.locked_out students))
     = @Build_World SchemaScenario.locked_out students [] [ev_connect "students.db"] [] [].
Proof.
  assert (H : @engine_connect SchemaScenario.locked_out students <> None) by discriminate.
  split; [exact H|].
  destruct (@get_table_schema_only_reads SchemaScenario.locked_out SchemaScenario.frame
              SchemaScenario.pick "students" (start SchemaScenario.locked_out students))
    as (df & d & made & new & Hrun & _ & _ & _ & _ & _ & Hnone & Hd).
  destruct (Hnone H) as (Hm & Hn). rewrite Hrun, Hm, Hn.
  rewrite (Hd eq_refl). reflexivity.
Defined.

(** X25 on a database file that cannot be opened, and on a DELETE whose
    commit finds the database locked. *)
Lemma run_sql_returns_other_failures_witness :
  @engine_connect SchemaScenario.locked_out students = Some "unable to open database file"
  /\ @run_sql SchemaScenario.locked_out "SELECT * FROM students"
       (start SchemaScenario.locked_out students)
     = (Returns (None, Some "unable to open database file", None),
        @Build_World SchemaScenario.locked_out students [] [ev_connect "students.db"] [] [])
  /\ @engine_execute locked students
       (PyStr.rstrip_semicolon (PyStr.strip "DELETE FROM students;"))
     = CommitError "database is locked" []
  /\ fst (@run_sql locked "DELETE FROM students;" (start locked students))
     = Returns (None, Some "database is locked", None)
  /\ conns (snd (@run_sql locked "DELETE FROM students;" (start locked students)))
     = [@Build_Connection locked true []].
Proof.
  split; [reflexivity|]. split.
  - exact (proj1 (@run_sql_returns_other_failures SchemaScenario.locked_out
                    "SELECT * FROM students" (start SchemaScenario.locked_out students))
             "unable to open database file" eq_refl).
  - split; [reflexivity|].
    destruct (proj2 (proj2 (@run_sql_returns_other_failures locked "DELETE FROM students;"
                              (start locked students)))
                "database is locked" [] eq_refl) as (Hr & Hc & _).
    split; [exact Hr | exact Hc].
Defined.

(** X27 on a request whose statement and whose repair both name a column
    that does not exist. *)
Lemma double_failure_is_reported_witness :
  fst (@nl_to_sql double_failure "show ages" (start double_failure students))
    = Returns (Some "SELECT age FROM students", None)
  /\ fst (@run_sql double_failure "SELECT age FROM students" (start double_failure students))
     = Returns (None, Some "no such column: age", None)
  /\ fst (@fix_sql double_failure "SELECT age FROM students" "no such column: age"
            "show ages" (start double_failure students))
     = Returns (Some "SELECT years FROM students", None)
  /\ fst (@run_sql double_failure "SELECT years FROM students"
            (snd (@run_sql double_failure "SELECT age FROM students"
                    (start double_failure students))))
     = Returns (None, Some "no such column: years", None)
  /\ exists w',
       @main_assistant_block double_failure "show ages" (start double_failure students)
       = (Returns tt, w')
       /\ messages w'
          = [{| role := "assistant";
                content := "❌ DB error after fix: " ++ "no such column: years" |}].
Proof.
  assert (H1 : fst (@nl_to_sql double_failure "show ages" (start double_failure students))
               = Returns (Some "SELECT age FROM students", None)) by reflexivity.
  assert (H2 : fst (@run_sql double_failure "SELECT age FROM students"
                      (start double_failure students))
               = Returns (None, Some "no such column: age", None)) by reflexivity.
  assert (H3 : fst (@fix_sql double_failure "SELECT age FROM students"
                      "no such column: age" "show ages" (start double_failure students))
               = Returns (Some "SELECT years FROM students", None)) by reflexivity.
  assert (H4 : fst (@run_sql double_failure "SELECT years FROM students"
                      (snd (@run_sql double_failure "SELECT age FROM students"
                              (start double_failure students))))
               = Returns (None, Some "no such column: years", None)) by reflexivity.
  assert (N1 : "no such column: age" <> "") by discriminate.
  assert (N2 : "no such column: years" <> "") by discriminate.
  split; [exact H1|]. split; [exact H2|]. split; [exact H3|]. split; [exact H4|].
  destruct (@double_failure_is_reported double_failure "show ages"
              (start double_failure students) _ _ _ _ H1 H2 N1 H3 H4 N2)
    as (w' & first & second & Hrun & _ & _ & _ & Hm & _).
  exists w'. split; [exact Hrun | exact Hm].
Defined.

(** X20 on a database that cannot be read. *)
Lemma get_tables_failure_is_empty_list_witness :
  @engine_execute SchemaScenario.unreadable students TABLES_SQL
    = ExecError "unable to open database file"
  /\ fst (@get_tables SchemaScenario.unreadable (start SchemaScenario.unreadable students))
     = Returns [].
Proof.
  split; [reflexivity|].
  exact (proj1 (proj1 (@get_tables_failure_is_empty_list SchemaScenario.unreadable
                         (start SchemaScenario.unreadable students))
                  "unable to open database file" eq_refl)).
Defined.

(** X21 on a database with two tables. *)
Lemma get_tables_lists_first_cells_witness :
  @engine_execute SchemaScenario.with_schema students TABLES_SQL
    = ExecOk (Some [Build_ColumnInfo "name"]) [["students"]; ["sqlite_sequence"]] students
  /\ ~ In [] [["students"]; ["sqlite_sequence"]]
  /\ exists tables,
       fst (@get_tables SchemaScenario.with_schema
              (start SchemaScenario.with_schema students)) = Returns tables
       /\ length tables = 2.
Proof.
  assert (Hno : ~ In [] [["students"]; ["sqlite_sequence"]])
    by (simpl; intuition discriminate).
  split; [reflexivity|]. split; [exact Hno|].
  destruct (@get_tables_lists_first_cells SchemaScenario.with_schema
              (start SchemaScenario.with_schema students)
              (Some [Build_ColumnInfo "name"]) [["students"]; ["sqlite_sequence"]]
              students eq_refl Hno)
    as (tables & Hr & _ & Hlen & _).
  exists tables. split; [exact Hr | exact Hlen].
Defined.

(** X23 on a database that cannot be read. *)
Lemma get_table_schema_failure_is_empty_frame_witness :
  @engine_execute SchemaScenario.unreadable students
     ("PRAGMA table_info(" ++ "students" ++ ");")
    = ExecError "unable to open database file"
  /\ fst (@get_table_schema SchemaScenario.unreadable SchemaScenario.frame
            SchemaScenario.pick "students" (start SchemaScenario.unreadable students))
     = Returns (Build_DataFrame [] SHOWN_COLUMNS).
Proof.
  split; [reflexivity|].
  exact (proj1 (proj1 (proj2 (@get_table_schema_failure_is_empty_frame
                                SchemaScenario.unreadable SchemaScenario.frame
                                SchemaScenario.pick "students"
                                (start SchemaScenario.unreadable students)))
                  "unable to open database file" eq_refl)).
Defined.

(** X24 on the students table. *)
Lemma get_table_schema_selects_columns_witness :
  @engine_execute SchemaScenario.with_schema students
     ("PRAGMA table_info(" ++ "students" ++ ");")
    = ExecOk (Some (map Build_ColumnInfo INFO_COLUMNS)) SchemaScenario.table_info students
  /\ fst (@get_table_schema SchemaScenario.with_schema SchemaScenario.frame
            SchemaScenario.pick "students" (start SchemaScenario.with_schema students))
     = Returns (Build_DataFrame [["id"; "INTEGER"; "1"]; ["name"; "TEXT"; "0"]]
                  ["name"; "type"; "pk"]).
Proof.
  split; [reflexivity|].
  exact (proj1 (@get_table_schema_selects_columns SchemaScenario.with_schema
                  SchemaScenario.frame SchemaScenario.pick "students"
                  (start SchemaScenario.with_schema students)
                  (Some (map Build_ColumnInfo INFO_COLUMNS)) SchemaScenario.table_info
                  students
                  (Build_DataFrame SchemaScenario.table_info INFO_COLUMNS)
                  (Build_DataFrame [["id"; "INTEGER"; "1"]; ["name"; "TEXT"; "0"]]
                     ["name"; "type"; "pk"])
                  eq_refl eq_refl eq_refl)).
Defined.

End MoreRuns.
